(** * PPODtottl: spreadsheet rows to RDF triples

    A shallow embedding of [PPODtottl.py]: the identifier hash [makeid],
    the predicate dictionaries, the triple emitter [addtriple] and the
    row loops of [creategraph], followed by the properties of the
    conversion that are checked against the code. *)

From Stdlib Require Import List NArith String Ascii Bool Arith Lia.

Import ListNotations.

Local Open Scope N_scope.

(** ** Python strings

    A Python [str] is a sequence of Unicode code points.  String
    constants of the source are plain ASCII and are written [py "..."]. *)

Definition str := list N.

Definition py (s : string) : str :=
  map N_of_ascii (list_ascii_of_string s).

Arguments py : simpl never.

Fixpoint str_eqb (a b : str) : bool :=
  match a, b with
  | [], [] => true
  | x :: a', y :: b' => (x =? y) && str_eqb a' b'
  | _, _ => false
  end.

(** [s.split(sep)] for a one-character separator: never the empty list. *)
Fixpoint split (sep : N) (s : str) : list str :=
  match s with
  | [] => [[]]
  | c :: s' =>
      if c =? sep then [] :: split sep s'
      else match split sep s' with
           | [] => [[c]]
           | p :: ps => (c :: p) :: ps
           end
  end.

(** [sep.join(parts)]. *)
Fixpoint join (sep : str) (parts : list str) : str :=
  match parts with
  | [] => []
  | [p] => p
  | p :: ps => p ++ sep ++ join sep ps
  end.

(** The code points for which [str.isspace] holds; [strip()] without
    argument removes exactly these from both ends. *)
Definition isspace (c : N) : bool :=
  ((9 <=? c) && (c <=? 13)) || ((28 <=? c) && (c <=? 32))
  || (c =? 133) || (c =? 160) || (c =? 5760)
  || ((8192 <=? c) && (c <=? 8202))
  || (c =? 8232) || (c =? 8233) || (c =? 8239) || (c =? 8287)
  || (c =? 12288).

Fixpoint lstrip (s : str) : str :=
  match s with
  | [] => []
  | c :: s' => if isspace c then lstrip s' else s
  end.

Definition rstrip (s : str) : str := rev (lstrip (rev s)).

Definition strip (s : str) : str := rstrip (lstrip s).

Fixpoint startswith (p s : str) : bool :=
  match p, s with
  | [], _ => true
  | x :: p', y :: s' => (x =? y) && startswith p' s'
  | _ :: _, [] => false
  end.

(** [sub in s]: substring test. *)
Fixpoint contains (sub s : str) : bool :=
  startswith sub s ||
  match s with
  | [] => false
  | _ :: s' => contains sub s'
  end.

(** ** [s.encode("utf-8")]

    One to four bytes per code point; a [str] holds code points below
    [0x110000], of which the four-byte form carries 21 bits. *)

Definition encode_char (c : N) : list N :=
  if c <? 128 then [c]
  else if c <? 2048 then
    [192 + c / 64; 128 + c mod 64]
  else if c <? 65536 then
    [224 + c / 4096; 128 + (c / 64) mod 64; 128 + c mod 64]
  else
    [240 + (c / 262144) mod 8; 128 + (c / 4096) mod 64;
     128 + (c / 64) mod 64; 128 + c mod 64].

Definition encode_utf8 (s : str) : list N := flat_map encode_char s.

(** ** [binascii.crc32]

    The checksum of the standard library: CRC-32 with the reflected
    polynomial [0xEDB88320], initial value and final xor [0xFFFFFFFF]. *)

Definition crc_poly : N := 0xEDB88320.

Definition crc_mask : N := 0xFFFFFFFF.

Definition crc_shift (c : N) : N :=
  if N.testbit c 0 then N.lxor (N.shiftr c 1) crc_poly else N.shiftr c 1.

Definition crc_byte (c b : N) : N :=
  Nat.iter 8 crc_shift (N.lxor c b).

Definition crc32 (data : list N) : N :=
  N.lxor (fold_left crc_byte data crc_mask) crc_mask.

(** ** [hex] and slicing *)

Definition hexdigit (d : N) : N :=
  if d <? 10 then 48 + d else 87 + d.

(** Digits of [n] in base 16, most significant first, no leading zero. *)
Fixpoint hex_digits_fuel (fuel : nat) (n : N) : list N :=
  match fuel with
  | O => []
  | S f =>
      if n <? 16 then [n]
      else hex_digits_fuel f (n / 16) ++ [n mod 16]
  end.

Definition hex_digits (n : N) : list N :=
  hex_digits_fuel (S (N.to_nat (N.log2 n))) n.

(** [hex(n)] for a non-negative integer. *)
Definition hex (n : N) : str :=
  py "0x" ++ map hexdigit (hex_digits n).

(** [s[i:j]] for [0 <= i <= j]. *)
Definition slice (i j : nat) (s : str) : str :=
  firstn (j - i) (skipn i s).

(** ** [makeid]

<<
def makeid(s):
    hexid = hex(binascii.crc32(bytes(s.encode("utf-8"))))[2:8]
    return hexid
>> *)
Definition makeid (s : str) : str :=
  slice 2 8 (hex (crc32 (encode_utf8 s))).

(** ** RDF terms and the graph

    [rdflib.URIRef] and [rdflib.Literal] (a plain literal built from a
    string).  A [rdflib.Graph] is a set of triples: adding a triple that
    is already there changes nothing.  It is kept here in order of first
    insertion. *)

Inductive node : Type :=
| URIRef (s : str)
| Literal (s : str).

Definition triple : Type := node * node * node.

Definition node_eqb (a b : node) : bool :=
  match a, b with
  | URIRef x, URIRef y => str_eqb x y
  | Literal x, Literal y => str_eqb x y
  | _, _ => false
  end.

Definition triple_eqb (a b : triple) : bool :=
  let '(s1, p1, o1) := a in
  let '(s2, p2, o2) := b in
  node_eqb s1 s2 && node_eqb p1 p2 && node_eqb o1 o2.

Definition graph_t := list triple.

Definition graph_add (t : triple) (g : graph_t) : graph_t :=
  if existsb (triple_eqb t) g then g else g ++ [t].

(** ** Effects: the graph, standard output and exceptions

    The graph object is mutated in place and [print] writes lines to
    standard output; both survive an exception, so a computation returns
    its outcome together with the state it leaves behind. *)

Inductive exn : Type :=
| KeyError (key : str)
| NameError (name : str)
| UnboundLocalError (name : str)
| IndexError.

(** [UnboundLocalError] is a subclass of [NameError]. *)
Definition is_NameError (e : exn) : bool :=
  match e with
  | NameError _ | UnboundLocalError _ => true
  | _ => false
  end.

Inductive result (A : Type) : Type :=
| Ok (a : A)
| Raise (e : exn).

Arguments Ok {A} a.

Arguments Raise {A} e.

Record world : Type := World {
  graph : graph_t;
  stdout : list str
}.

Definition M (A : Type) : Type := world -> result A * world.

Definition ret {A} (a : A) : M A := fun w => (Ok a, w).

Definition bind {A B} (m : M A) (f : A -> M B) : M B :=
  fun w =>
    match m w with
    | (Ok a, w') => f a w'
    | (Raise e, w') => (Raise e, w')
    end.

Definition raise {A} (e : exn) : M A := fun w => (Raise e, w).

Notation "x <- m ;; k" := (bind m (fun x => k))
  (at level 61, m at next level, right associativity).

Notation "m ;; k" := (bind m (fun _ => k))
  (at level 61, right associativity).

(** [g.add(t)] *)
Definition g_add (t : triple) : M unit :=
  fun w => (Ok tt, World (graph_add t (graph w)) (stdout w)).

(** [print(line)] *)
Definition print (line : str) : M unit :=
  fun w => (Ok tt, World (graph w) (stdout w ++ [line])).

(** [for x in xs: body(x)] *)
Fixpoint for_each {A} (xs : list A) (body : A -> M unit) : M unit :=
  match xs with
  | [] => ret tt
  | x :: xs' => body x ;; for_each xs' body
  end.

(** ** Dictionaries

    A Python [dict] keeps its keys in insertion order, which
    [','.join(d.keys())] exposes. *)

Definition dict (V : Type) : Type := list (str * V).

Fixpoint dict_get {V} (d : dict V) (k : str) : option V :=
  match d with
  | [] => None
  | (k', v) :: d' => if str_eqb k k' then Some v else dict_get d' k
  end.

Definition keys {V} (d : dict V) : list str := map fst d.

(** [d.update({k: v})]: an existing key keeps its position. *)
Fixpoint dict_update {V} (d : dict V) (k : str) (v : V) : dict V :=
  match d with
  | [] => [(k, v)]
  | (k', v') :: d' =>
      if str_eqb k k' then (k, v) :: d' else (k', v') :: dict_update d' k v
  end.

(** [d[k]] *)
Definition getitem {V} (d : dict V) (k : str) : M V :=
  match dict_get d k with
  | Some v => ret v
  | None => raise (KeyError k)
  end.

(** The vocabulary dictionaries are module globals ([countydict],
    [ecoregiondict], [issuedict], ...), bound by [creategraph] before
    any row is read.  [global env name] reads one of them, as the bare
    name or [eval(name)] does. *)
Definition globals : Type := dict (dict str).

Definition global (env : globals) (name : str) : M (dict str) :=
  match dict_get env name with
  | Some d => ret d
  | None => raise (NameError name)
  end.

(** ** Namespaces *)

Definition auxprefix : str :=
  py "https://raw.githubusercontent.com/adhollander/FSLschemas/main/CA_PPODterms.ttl#".

Definition rdfsuri : str := py "http://www.w3.org/2000/01/rdf-schema#".

Definition rdfuri : str := py "http://www.w3.org/1999/02/22-rdf-syntax-ns#".

Definition fslsprefix : str :=
  py "https://raw.githubusercontent.com/adhollander/FSLschemas/main/fsisupp.owl#".

(** ** Predicate descriptors

    The five-element tuples of the predicate dictionaries:
    [(kind, property URI, property label, dictionary name or prefix,
    's' or 'm')]. *)

Record prdetails : Type := Prd {
  pr_kind : str;     (* prdetails[0] *)
  pr_uri : str;      (* prdetails[1] *)
  pr_label : str;    (* prdetails[2] *)
  pr_target : str;   (* prdetails[3] *)
  pr_mult : str      (* prdetails[4] *)
}.

Definition prd (k u l t m : string) : prdetails :=
  Prd (py k) (py u) (py l) (py t) (py m).

Definition schema : Type := dict prdetails.

Definition PPODrefs : dict str :=
  [ (py "Organizations", py "http://xmlns.com/foaf/0.1/Organization");
    (py "Projects", py "http://vivoweb.org/ontology/core#Project");
    (py "Programs", py "http://vivoweb.org/ontology/core#Program");
    (py "People", py "http://xmlns.com/foaf/0.1/Person");
    (py "Guidelines_Mandates", py "http://www.sdsconsortium.org/schemas/sds-okn.owl#BestPracticesAndMandates");
    (py "Datasets", py "http://vivoweb.org/ontology/core#Dataset");
    (py "Tools", py "http://www.sdsconsortium.org/schemas/sds-okn.owl#Tool");
    (py "Issues (Integrated)", py "https://raw.githubusercontent.com/adhollander/FSLschemas/main/sustsource.owl#IntegratedIssue");
    (py "Issues (Component)", py "https://raw.githubusercontent.com/adhollander/FSLschemas/main/sustsource.owl#ComponentIssue") ].

Definition orgpred : schema :=
  [ (py "Organization",
      prd "d" "http://purl.org/dc/terms/title"
        "title" "" "s");
    (py "Alias",
      prd "d" "http://www.w3.org/2004/02/skos/core#altLabel"
        "alias" "" "s");
    (py "isPartOf",
      prd "o" "http://purl.org/dc/terms/isPartOf"
        "is part of" "org" "m");
    (py "isMemberOf",
      prd "o" "http://www.w3.org/ns/org#memberOf"
        "is member of" "org" "m");
    (py "County",
      prd "v" "https://raw.githubusercontent.com/adhollander/FSLschemas/main/fsisupp.owl#inCounty"
        "in county" "countydict" "m");
    (py "Ecoregion",
      prd "v" "https://raw.githubusercontent.com/adhollander/FSLschemas/main/fsisupp.owl#inEcoregion"
        "in ecoregion" "ecoregiondict" "m");
    (py "hasGeography",
      prd "v" "https://raw.githubusercontent.com/adhollander/FSLschemas/main/fsisupp.owl#assocGeo"
        "associated geography" "geofeaturedict" "m");
    (py "hasOrgType",
      prd "v" "http://www.w3.org/ns/org#classification"
        "organization type" "orgtypedict" "m");
    (py "Partners",
      prd "o" "http://vivoweb.org/ontology/core#hasCollaborator"
        "has partner" "org" "m");
    (py "Funding",
      prd "o" "http://purl.org/cerif/frapo/isFundedBy"
        "is funded by" "org" "m");
    (py "hasOrgActivity",
      prd "v" "http://purl.obolibrary.org/obo/RO_0000056"
        "participates in" "orgactivitydict" "m");
    (py "Issues",
      prd "v" "https://raw.githubusercontent.com/adhollander/FSLschemas/main/fsisupp.owl#FSI_000239"
        "related sustainability issue" "issuedict" "m");
    (py "URL",
      prd "u" "http://dev.poderopedia.com/vocab/hasURL"
        "has URL" "" "m");
    (py "Contact",
      prd "d" "http://vivoweb.org/ontology/core#contactInformation"
        "contact" "" "s");
    (py "Taxa",
      prd "d" "https://raw.githubusercontent.com/adhollander/FSLschemas/main/fsisupp.owl#taxa"
        "taxa" "" "m");
    (py "Land Cover - CWHR",
      prd "v" "https://raw.githubusercontent.com/adhollander/FSLschemas/main/fsisupp.owl#habitatType"
        "habitat type" "habtypedict" "m");
    (py "Commodity",
      prd "v" "https://raw.githubusercontent.com/adhollander/FSLschemas/main/fsisupp.owl#commodity"
        "commodity" "commoditydict" "m");
    (py "Ecological Process",
      prd "d" "https://raw.githubusercontent.com/adhollander/FSLschemas/main/fsisupp.owl#ecologicalProcess"
        "ecological process" "" "s");
    (py "GM_Name",
      prd "o" "https://raw.githubusercontent.com/adhollander/FSLschemas/main/fsisupp.owl#GM_Name"
        "guideline/mandate name" "gmt" "m");
    (py "usecaseConservation",
      prd "d" "https://raw.githubusercontent.com/adhollander/FSLschemas/main/fsisupp.owl#usecaseCons"
        "use case: Conservation" "" "s");
    (py "usecaseMeat",
      prd "d" "https://raw.githubusercontent.com/adhollander/FSLschemas/main/fsisupp.owl#usecaseMeat"
        "use case: meat" "" "s");
    (py "usecaseSac",
      prd "d" "https://raw.githubusercontent.com/adhollander/FSLschemas/main/fsisupp.owl#usecaseSac"
        "use case: Sacramento" "" "s");
    (py "usecaseSCAG",
      prd "d" "https://raw.githubusercontent.com/adhollander/FSLschemas/main/fsisupp.owl#usecaseSCAG"
        "use case: SCAG" "" "s");
    (py "usecaseEcuador",
      prd "d" "https://raw.githubusercontent.com/adhollander/FSLschemas/main/fsisupp.owl#usecaseEcuador"
        "use case: Ecuador" "" "s") ].

Definition projpred : schema :=
  [ (py "Project",
      prd "d" "http://purl.org/dc/terms/title"
        "title" "" "s");
    (py "Alias",
      prd "d" "http://www.w3.org/2004/02/skos/core#altLabel"
        "alias" "" "s");
    (py "isPartOf",
      prd "o" "http://purl.org/dc/terms/isPartOf"
        "is part of" "prj" "m");
    (py "ProjType",
      prd "v" "https://raw.githubusercontent.com/adhollander/FSLschemas/main/fsisupp.owl#projType"
        "project type" "projtypedict" "m");
    (py "ProjProg",
      prd "o" "http://purl.obolibrary.org/obo/BFO_0000066"
        "occurs in" "prg" "m");
    (py "Organization (Lead)",
      prd "o" "https://raw.githubusercontent.com/adhollander/FSLschemas/main/fsisupp.owl#leadOrg"
        "lead organization" "org" "m");
    (py "Organization (Funding)",
      prd "o" "http://vivoweb.org/ontology/core#fundingAgentFor"
        "funding organization" "org" "m");
    (py "OrgFundProg",
      prd "o" "http://vivoweb.org/ontology/core#hasFundingVehicle"
        "funding provided via" "prg" "m");
    (py "Lead Individual",
      prd "d" "https://raw.githubusercontent.com/adhollander/FSLschemas/main/fsisupp.owl#leadIndividual"
        "lead individual" "" "s");
    (py "Partners",
      prd "o" "http://vivoweb.org/ontology/core#affiliatedOrganization"
        "partner organization" "org" "m");
    (py "Location",
      prd "d" "http://purl.obolibrary.org/obo/RO_0001025"
        "located in" "" "s");
    (py "County",
      prd "v" "https://raw.githubusercontent.com/adhollander/FSLschemas/main/fsisupp.owl#inCounty"
        "in county" "countydict" "m");
    (py "Ecoregion",
      prd "v" "https://raw.githubusercontent.com/adhollander/FSLschemas/main/fsisupp.owl#inEcoregion"
        "in ecoregion" "ecoregiondict" "m");
    (py "Watershed",
      prd "d" "https://raw.githubusercontent.com/adhollander/FSLschemas/main/fsisupp.owl#inWatershed"
        "in watershed" "" "s");
    (py "Issues",
      prd "v" "https://raw.githubusercontent.com/adhollander/FSLschemas/main/fsisupp.owl#FSI_000239"
        "related sustainability issue" "issuedict" "m");
    (py "has description",
      prd "u" "https://raw.githubusercontent.com/adhollander/FSLschemas/main/fsisupp.owl#projDetails"
        "project details" "" "s");
    (py "Indicators",
      prd "d" "https://raw.githubusercontent.com/adhollander/FSLschemas/main/fsisupp.owl#hasIndicator"
        "has indicator" "" "s");
    (py "inDataset",
      prd "o" "http://purl.obolibrary.org/obo/RO_0002352"
        "input of" "dts" "m");
    (py "outDataset",
      prd "o" "http://purl.obolibrary.org/obo/RO_0002353"
        "output of" "dts" "m");
    (py "Strategies",
      prd "d" "https://raw.githubusercontent.com/adhollander/FSLschemas/main/fsisupp.owl#hasStrategy"
        "has strategy" "" "m");
    (py "URL",
      prd "u" "http://dev.poderopedia.com/vocab/hasURL"
        "has URL" "" "m");
    (py "Taxa",
      prd "d" "https://raw.githubusercontent.com/adhollander/FSLschemas/main/fsisupp.owl#taxa"
        "taxa" "" "m");
    (py "Land Cover - CWHR",
      prd "v" "https://raw.githubusercontent.com/adhollander/FSLschemas/main/fsisupp.owl#habitatType"
        "habitat type" "habtypedict" "m");
    (py "Ecological Process",
      prd "d" "https://raw.githubusercontent.com/adhollander/FSLschemas/main/fsisupp.owl#ecologicalProcess"
        "ecological process" "" "s");
    (py "Start Year",
      prd "d" "http://dbpedia.org/ontology/startYear"
        "startYear" "" "s");
    (py "End Year",
      prd "d" "http://dbpedia.org/ontology/endYear"
        "endYear" "" "s");
    (py "Funding",
      prd "o" "http://purl.org/cerif/frapo/isFundedBy"
        "isFundedBy" "org" "m");
    (py "Latitude",
      prd "d" "https://www.w3.org/2003/01/geo/wgs84_pos#lat"
        "latitude" "" "s");
    (py "Longitude",
      prd "d" "https://www.w3.org/2003/01/geo/wgs84_pos#long"
        "longitude" "" "s");
    (py "FSL doc",
      prd "u" "https://raw.githubusercontent.com/adhollander/FSLschemas/main/fsisupp.owl#FSLdoc"
        "FSL doc" "" "s");
    (py "Use Case (Meat)",
      prd "d" "https://raw.githubusercontent.com/adhollander/FSLschemas/main/fsisupp.owl#usecaseMeat"
        "use case: meat" "" "s");
    (py "Use Case (EPA)",
      prd "d" "https://raw.githubusercontent.com/adhollander/FSLschemas/main/fsisupp.owl#usecaseEPA"
        "use case: EPA" "" "s");
    (py "Use Case (JPA)",
      prd "d" "https://raw.githubusercontent.com/adhollander/FSLschemas/main/fsisupp.owl#usecaseJPA"
        "use case: JPA" "" "s") ].

Definition progpred : schema :=
  [ (py "Program",
      prd "d" "http://purl.org/dc/terms/title"
        "title" "" "s");
    (py "Alias",
      prd "d" "http://www.w3.org/2004/02/skos/core#altLabel"
        "alias" "" "s");
    (py "ProgType",
      prd "v" "https://raw.githubusercontent.com/adhollander/FSLschemas/main/fsisupp.owl#progType"
        "program type" "progtypedict" "m");
    (py "Organization",
      prd "o" "https://raw.githubusercontent.com/adhollander/FSLschemas/main/fsisupp.owl#leadOrg"
        "lead organization" "org" "m");
    (py "Partners",
      prd "o" "http://vivoweb.org/ontology/core#affiliatedOrganization"
        "partner organization" "org" "m");
    (py "Issues",
      prd "v" "https://raw.githubusercontent.com/adhollander/FSLschemas/main/fsisupp.owl#FSI_000239"
        "related sustainability issue" "issuedict" "m");
    (py "Lead Individual",
      prd "d" "https://raw.githubusercontent.com/adhollander/FSLschemas/main/fsisupp.owl#leadIndividual"
        "lead individual" "" "s");
    (py "GM_Name",
      prd "o" "https://raw.githubusercontent.com/adhollander/FSLschemas/main/fsisupp.owl#GM_Name"
        "guideline/mandate name" "gmt" "m");
    (py "County",
      prd "v" "https://raw.githubusercontent.com/adhollander/FSLschemas/main/fsisupp.owl#inCounty"
        "in county" "countydict" "m");
    (py "Ecoregion",
      prd "v" "https://raw.githubusercontent.com/adhollander/FSLschemas/main/fsisupp.owl#inEcoregion"
        "in ecoregion" "ecoregiondict" "m");
    (py "URL",
      prd "u" "http://dev.poderopedia.com/vocab/hasURL"
        "has URL" "" "m");
    (py "Taxa",
      prd "d" "https://raw.githubusercontent.com/adhollander/FSLschemas/main/fsisupp.owl#taxa"
        "taxa" "" "m");
    (py "Use Case (Meat)",
      prd "d" "https://raw.githubusercontent.com/adhollander/FSLschemas/main/fsisupp.owl#usecaseMeat"
        "use case: meat" "" "s");
    (py "Use Case (EPA)",
      prd "d" "https://raw.githubusercontent.com/adhollander/FSLschemas/main/fsisupp.owl#usecaseEPA"
        "use case: EPA" "" "s");
    (py "Use Case (JPA)",
      prd "d" "https://raw.githubusercontent.com/adhollander/FSLschemas/main/fsisupp.owl#usecaseJPA"
        "use case: JPA" "" "s");
    (py "Use Case (SCAG)",
      prd "d" "https://raw.githubusercontent.com/adhollander/FSLschemas/main/fsisupp.owl#usecaseSCAG"
        "use case: SCAG" "" "s") ].

Definition personpred : schema :=
  [ (py "Full Name",
      prd "d" "http://xmlns.com/foaf/0.1/name"
        "full name" "" "s");
    (py "Last Name",
      prd "d" "http://xmlns.com/foaf/0.1/lastName"
        "last name" "" "s");
    (py "First Name",
      prd "d" "http://xmlns.com/foaf/0.1/firstName"
        "first name" "" "s");
    (py "Email",
      prd "d" "http://xmlns.com/foaf/0.1/mbox"
        "email" "" "s");
    (py "Phone",
      prd "d" "http://xmlns.com/foaf/0.1/phone"
        "phone" "" "s");
    (py "Issues",
      prd "v" "https://raw.githubusercontent.com/adhollander/FSLschemas/main/fsisupp.owl#FSI_000239"
        "related sustainability issue" "issuedict" "m");
    (py "Notes",
      prd "d" "https://raw.githubusercontent.com/adhollander/FSLschemas/main/fsisupp.owl#FSI_000243"
        "note" "" "s");
    (py "usecaseConservation",
      prd "d" "https://raw.githubusercontent.com/adhollander/FSLschemas/main/fsisupp.owl#usecaseCons"
        "use case: Conservation" "" "s");
    (py "usecaseMeat",
      prd "d" "https://raw.githubusercontent.com/adhollander/FSLschemas/main/fsisupp.owl#usecaseMeat"
        "use case: meat" "" "s");
    (py "usecaseSac",
      prd "d" "https://raw.githubusercontent.com/adhollander/FSLschemas/main/fsisupp.owl#usecaseSac"
        "use case: Sacramento" "" "s");
    (py "usecaseSCAG",
      prd "d" "https://raw.githubusercontent.com/adhollander/FSLschemas/main/fsisupp.owl#usecaseSCAG"
        "use case: SCAG" "" "s");
    (py "usecaseEcuador",
      prd "d" "https://raw.githubusercontent.com/adhollander/FSLschemas/main/fsisupp.owl#usecaseEcuador"
        "use case: Ecuador" "" "s");
    (py "usecaseBayAreaRAMP",
      prd "d" "https://raw.githubusercontent.com/adhollander/FSLschemas/main/fsisupp.owl#usecaseBayAreaRAMP"
        "use case: Bay Area RAMP" "" "s") ].

Definition personorgpred : schema :=
  [ (py "Full Name",
      prd "o" "http://purl.obolibrary.org/obo/RO_0000057"
        "has participant" "per" "s");
    (py "Organization",
      prd "o" "http://purl.obolibrary.org/obo/RO_0000081"
        "role of" "org" "s");
    (py "Position (Verbatim)",
      prd "d" "http://purl.org/dc/terms/title"
        "title" "" "d");
    (py "Position (Type)",
      prd "o" "https://raw.githubusercontent.com/adhollander/FSLschemas/main/fsisupp.owl#positionType"
        "position type" "positiontypedict" "m");
    (py "Year (Start)",
      prd "d" "http://dbpedia.org/ontology/startYear"
        "startYear" "" "d");
    (py "Year (End)",
      prd "d" "http://dbpedia.org/ontology/endYear"
        "endYear" "" "d") ].

Definition personprojpred : schema :=
  [ (py "Full Name",
      prd "o" "http://purl.obolibrary.org/obo/RO_0000057"
        "has participant" "per" "s");
    (py "Project",
      prd "o" "http://purl.obolibrary.org/obo/RO_0002331"
        "involved in" "prj" "s");
    (py "ProjRole",
      prd "d" "http://purl.obolibrary.org/obo/RO_0000087"
        "has role" "" "s") ].

Definition personprogrampred : schema :=
  [ (py "Full Name",
      prd "o" "http://purl.obolibrary.org/obo/RO_0000057"
        "has participant" "per" "s");
    (py "Program",
      prd "o" "http://purl.obolibrary.org/obo/RO_0002331"
        "involved in" "prg" "s");
    (py "Role",
      prd "d" "http://purl.obolibrary.org/obo/RO_0000087"
        "has role" "" "s");
    (py "Role (Type)",
      prd "u" "https://raw.githubusercontent.com/adhollander/FSLschemas/main/fsisupp.owl#roleType"
        "role type" "" "s");
    (py "Year (Start)",
      prd "d" "http://dbpedia.org/ontology/startYear"
        "start year" "" "s");
    (py "Year (End)",
      prd "d" "http://dbpedia.org/ontology/endYear"
        "end year" "" "s") ].

Definition guidelinespred : schema :=
  [ (py "GM_Name",
      prd "d" "http://purl.org/dc/terms/title"
        "Name" "" "s");
    (py "Alias",
      prd "d" "http://www.w3.org/2004/02/skos/core#altLabel"
        "alias" "" "s");
    (py "GMType",
      prd "v" "https://raw.githubusercontent.com/adhollander/FSLschemas/main/fsisupp.owl#gmType"
        "guideline/mandate type" "gmtypedict" "m");
    (py "Year",
      prd "d" "http://purl.org/dc/terms/date"
        "date" "" "s");
    (py "Issues",
      prd "v" "https://raw.githubusercontent.com/adhollander/FSLschemas/main/fsisupp.owl#FSI_000239"
        "related sustainability issue" "issuedict" "m");
    (py "GovLevel",
      prd "v" "https://raw.githubusercontent.com/adhollander/FSLschemas/main/fsisupp.owl#govLevel"
        "government level" "govleveldict" "m");
    (py "Counties",
      prd "v" "https://raw.githubusercontent.com/adhollander/FSLschemas/main/fsisupp.owl#inCounty"
        "in county" "countydict" "m");
    (py "Ecoregions",
      prd "v" "https://raw.githubusercontent.com/adhollander/FSLschemas/main/fsisupp.owl#inEcoregion"
        "in ecoregion" "ecoregiondict" "m");
    (py "URL",
      prd "u" "http://dev.poderopedia.com/vocab/hasURL"
        "has URL" "" "s");
    (py "Taxa",
      prd "d" "https://raw.githubusercontent.com/adhollander/FSLschemas/main/fsisupp.owl#taxa"
        "taxa" "" "s");
    (py "Land Cover - CWHR",
      prd "v" "https://raw.githubusercontent.com/adhollander/FSLschemas/main/fsisupp.owl#habitatType"
        "habitat type" "habtypedict" "m");
    (py "Ecological Process",
      prd "d" "https://raw.githubusercontent.com/adhollander/FSLschemas/main/fsisupp.owl#ecologicalProcess"
        "ecological process" "" "s");
    (py "Use Case (Meat)",
      prd "d" "https://raw.githubusercontent.com/adhollander/FSLschemas/main/fsisupp.owl#usecaseMeat"
        "use case: meat" "" "s");
    (py "Use Case (EPA)",
      prd "d" "https://raw.githubusercontent.com/adhollander/FSLschemas/main/fsisupp.owl#usecaseEPA"
        "use case: EPA" "" "s") ].

Definition orggmpred : dict (str * str * str) :=
  [ (py "Created",
      (py "o", py "http://iflastandards.info/ns/fr/frbr/frbrer/P2008",
       py "creator of"));
    (py "Was Created By",
      (py "o", py "http://iflastandards.info/ns/fr/frbr/frbrer/P2007",
       py "was created by"));
    (py "Implements",
      (py "o", py "https://w3id.org/dingo#implements",
       py "implements"));
    (py "Mandates",
      (py "o", py "https://raw.githubusercontent.com/adhollander/FSLschemas/main/fsisupp.owl#mandates",
       py "mandates"));
    (py "Is Bound By",
      (py "o", py "https://raw.githubusercontent.com/adhollander/FSLschemas/main/fsisupp.owl#isboundby",
       py "is bound by"));
    (py "Funds Established By",
      (py "o", py "http://vivoweb.org/ontology/core#hasFundingVehicle",
       py "has funding vehicle"));
    (py "Is Certified By",
      (py "o", py "https://raw.githubusercontent.com/adhollander/FSLschemas/main/fsisupp.owl#iscertifiedby",
       py "is certified by"));
    (py "Enforces",
      (py "o", py "https://raw.githubusercontent.com/adhollander/FSLschemas/main/fsisupp.owl#enforces",
       py "enforces")) ].

Definition orgprojgmpred : schema :=
  [ (py "Organization",
      prd "o" "http://purl.obolibrary.org/obo/RO_0000057"
        "has participant" "org" "s");
    (py "OrgProjRelation",
      prd "o" "http://purl.obolibrary.org/obo/RO_0000087"
        "has role" "orgprojrelationdict" "s");
    (py "Project",
      prd "o" "http://purl.obolibrary.org/obo/RO_0002331"
        "involved in" "prj" "s") ].

Definition datasetpred : schema :=
  [ (py "Name",
      prd "d" "http://purl.org/dc/terms/title"
        "title" "" "s");
    (py "Organization (Created By)",
      prd "o" "http://iflastandards.info/ns/fr/frbr/frbrer/P2007"
        "was created by" "org" "s");
    (py "Issues",
      prd "v" "https://raw.githubusercontent.com/adhollander/FSLschemas/main/fsisupp.owl#FSI_000239"
        "related sustainability issue" "issuedict" "m");
    (py "GM_Name",
      prd "o" "https://raw.githubusercontent.com/adhollander/FSLschemas/main/fsisupp.owl#mandatedBy"
        "mandated by" "gmt" "m");
    (py "URL",
      prd "u" "http://dev.poderopedia.com/vocab/hasURL"
        "has URL" "" "s");
    (py "Use Case (Meat)",
      prd "d" "https://raw.githubusercontent.com/adhollander/FSLschemas/main/fsisupp.owl#usecaseMeat"
        "use case: meat" "" "s");
    (py "Use Case (JPA)",
      prd "d" "https://raw.githubusercontent.com/adhollander/FSLschemas/main/fsisupp.owl#usecaseJPA"
        "use case: JPA" "" "s");
    (py "Use Case (EPA)",
      prd "d" "https://raw.githubusercontent.com/adhollander/FSLschemas/main/fsisupp.owl#usecaseEPA"
        "use case: EPA" "" "s") ].

Definition toolpred : schema :=
  [ (py "Tool",
      prd "d" "http://purl.org/dc/terms/title"
        "title" "" "s");
    (py "Alias",
      prd "d" "http://www.w3.org/2004/02/skos/core#altLabel"
        "alias" "" "s");
    (py "Organization",
      prd "o" "http://iflastandards.info/ns/fr/frbr/frbrer/P2007"
        "was created by" "org" "s");
    (py "Issues",
      prd "v" "https://raw.githubusercontent.com/adhollander/FSLschemas/main/fsisupp.owl#FSI_000239"
        "related sustainability issue" "issuedict" "m");
    (py "inDataset",
      prd "o" "http://purl.obolibrary.org/obo/RO_0002233"
        "has input" "dts" "m");
    (py "outDataset",
      prd "o" "http://purl.obolibrary.org/obo/RO_0000087"
        "has output" "dts" "m");
    (py "ToolDetails",
      prd "d" "http://purl.org/dc/terms/references"
        "references" "" "s");
    (py "URL",
      prd "u" "http://dev.poderopedia.com/vocab/hasURL"
        "has URL" "" "s") ].

Definition usecases : dict (str * str) :=
  [ (py "usecaseConservation",
      (py "https://raw.githubusercontent.com/adhollander/FSLschemas/main/CA_PPODterms.ttl#usecaseConservation",
       py "Conservation use case"));
    (py "usecaseMeat",
      (py "https://raw.githubusercontent.com/adhollander/FSLschemas/main/CA_PPODterms.ttl#usecaseMeat",
       py "Meat use case"));
    (py "usecaseSac",
      (py "https://raw.githubusercontent.com/adhollander/FSLschemas/main/CA_PPODterms.ttl#usecaseSac",
       py "Sacramento case"));
    (py "usecaseSCAG",
      (py "https://raw.githubusercontent.com/adhollander/FSLschemas/main/CA_PPODterms.ttl#usecaseSCAG",
       py "SCAG use case"));
    (py "usecaseEcuador",
      (py "https://raw.githubusercontent.com/adhollander/FSLschemas/main/CA_PPODterms.ttl#usecaseEcuador",
       py "Ecuador use case"));
    (py "usecaseBayAreaRAMP",
      (py "https://raw.githubusercontent.com/adhollander/FSLschemas/main/CA_PPODterms.ttl#BayAreaRAMP",
       py "Bay Area RAMP use case"));
    (py "Use Case (Meat)",
      (py "https://raw.githubusercontent.com/adhollander/FSLschemas/main/CA_PPODterms.ttl#usecaseMeat",
       py "Meat use case"));
    (py "Use Case (EPA)",
      (py "https://raw.githubusercontent.com/adhollander/FSLschemas/main/CA_PPODterms.ttl#usecaseEPA",
       py "EPA use case"));
    (py "Use Case (JPA)",
      (py "https://raw.githubusercontent.com/adhollander/FSLschemas/main/CA_PPODterms.ttl#usecaseJPA",
       py "JPA use case"));
    (py "Use Case (SCAG)",
      (py "https://raw.githubusercontent.com/adhollander/FSLschemas/main/CA_PPODterms.ttl#usecaseSCAG",
       py "SCAG use case")) ].

(** ** The triple emitter [addtriple]

<<
def addtriple(g, prdetails, subjval, cellval, subjectstr):
    subj =  rdflib.URIRef(subjval)
    if cellval == 'All':
        if prdetails[3] == 'countydict':
            cellval = ','.join(countydict.keys())
        elif prdetails[3] == 'ecoregiondict':
            cellval = ','.join(ecoregiondict.keys())
    if prdetails[4] == 'm':
        celllist = [s.strip() for s in cellval.split(',')]
    else:
        celllist = [cellval]
    for cell in celllist:
        ...
>> *)

Definition comma : N := 44.

(** The rebinding of [cellval] on the sentinel ['All']. *)
Definition expand_all (env : globals) (pd : prdetails) (cellval : str)
  : M str :=
  if str_eqb cellval (py "All") then
    if str_eqb (pr_target pd) (py "countydict") then
      d <- global env (py "countydict") ;;
      ret (join [comma] (keys d))
    else if str_eqb (pr_target pd) (py "ecoregiondict") then
      d <- global env (py "ecoregiondict") ;;
      ret (join [comma] (keys d))
    else ret cellval
  else ret cellval.

Definition celllist (pd : prdetails) (cellval : str) : list str :=
  if str_eqb (pr_mult pd) (py "m")
  then map strip (split comma cellval)
  else [cellval].

Definition is_flag (cell : str) : bool :=
  str_eqb cell (py "X") || str_eqb cell (py "x").

(** One iteration of [for cell in celllist].  The local variable [obj]
    outlives an iteration, so its binding (if any) is passed in and the
    binding after the iteration is returned; [pred] is assigned in every
    branch before it is read.  [eval(prdetails[3])] is the reading of a
    module global, which is what it is for the dictionary names that the
    predicate dictionaries hold in this place; any other text there is
    outside the model.

<<
        if prdetails[0] == 'd':
            pred = rdflib.URIRef(prdetails[1])
            if 'usecase' in prdetails[1]:
                if cell == 'X' or cell == 'x':
                    pred = rdflib.URIRef(fslsprefix + "usecase")
                    obj = rdflib.URIRef(prdetails[1])
            else:
                if prdetails[3] == 'countydict':
                    cell = cell + " County"
                obj = rdflib.Literal(cell)
            g.add((subj, pred, obj))
        elif prdetails[0] == 'v':
            try:
                obj = rdflib.URIRef(eval(prdetails[3])[cell])
                pred = rdflib.URIRef(prdetails[1])
                g.add((subj, pred, obj))
            except KeyError:
                print(subjectstr + ": " + cell + " not in " + prdetails[3])
                pass
        elif prdetails[0] == 'o':
            pred = rdflib.URIRef(prdetails[1])
            obj = rdflib.URIRef( auxprefix + prdetails[3] + "_" + makeid(cell))
            g.add((subj, pred, obj))
        elif prdetails[0] == 'u':
            pred = rdflib.URIRef(prdetails[1])
            obj = rdflib.URIRef(cell)
            g.add((subj, pred, obj))
>> *)
Definition emit_cell (env : globals) (pd : prdetails) (subj : node)
    (subjectstr : str) (obj : option node) (cell : str)
  : M (option node) :=
  if str_eqb (pr_kind pd) (py "d") then
    if contains (py "usecase") (pr_uri pd) then
      if is_flag cell then
        let o := URIRef (pr_uri pd) in
        g_add (subj, URIRef (fslsprefix ++ py "usecase"), o) ;;
        ret (Some o)
      else
        match obj with
        | Some o => g_add (subj, URIRef (pr_uri pd), o) ;; ret (Some o)
        | None => raise (UnboundLocalError (py "obj"))
        end
    else
      let cell' :=
        if str_eqb (pr_target pd) (py "countydict")
        then cell ++ py " County" else cell in
      let o := Literal cell' in
      g_add (subj, URIRef (pr_uri pd), o) ;;
      ret (Some o)
  else if str_eqb (pr_kind pd) (py "v") then
    d <- global env (pr_target pd) ;;
    match dict_get d cell with
    | Some u =>
        let o := URIRef u in
        g_add (subj, URIRef (pr_uri pd), o) ;;
        ret (Some o)
    | None =>
        print (subjectstr ++ py ": " ++ cell ++ py " not in " ++ pr_target pd) ;;
        ret obj
    end
  else if str_eqb (pr_kind pd) (py "o") then
    let o := URIRef (auxprefix ++ pr_target pd ++ py "_" ++ makeid cell) in
    g_add (subj, URIRef (pr_uri pd), o) ;;
    ret (Some o)
  else if str_eqb (pr_kind pd) (py "u") then
    let o := URIRef cell in
    g_add (subj, URIRef (pr_uri pd), o) ;;
    ret (Some o)
  else ret obj.

(** The loop [for cell in celllist], from a given binding of [obj]. *)
Fixpoint emit_cells (env : globals) (pd : prdetails) (subj : node)
    (subjectstr : str) (obj : option node) (cells : list str) : M unit :=
  match cells with
  | [] => ret tt
  | cell :: rest =>
      obj' <- emit_cell env pd subj subjectstr obj cell ;;
      emit_cells env pd subj subjectstr obj' rest
  end.

Definition addtriple (env : globals) (pd : prdetails)
    (subjval cellval subjectstr : str) : M unit :=
  let subj := URIRef subjval in
  cellval' <- expand_all env pd cellval ;;
  emit_cells env pd subj subjectstr None (celllist pd cellval').

(** ** Tables

    A sheet as a [pandas.DataFrame] of strings: the column labels and
    the rows of cells. *)

Record DataFrame : Type := Frame {
  columns : list str;
  rows : list (list str)
}.

(** [df.shape[0]] and [df.shape[1]] *)
Definition nrows (df : DataFrame) : nat := List.length (rows df).

Definition ncols (df : DataFrame) : nat := List.length (columns df).

(** [df.iloc[r,c]] *)
Definition iloc (df : DataFrame) (r c : nat) : M str :=
  match nth_error (rows df) r with
  | Some row =>
      match nth_error row c with
      | Some v => ret v
      | None => raise IndexError
      end
  | None => raise IndexError
  end.

(** [df.columns[c]] *)
Definition column (df : DataFrame) (c : nat) : M str :=
  match nth_error (columns df) c with
  | Some v => ret v
  | None => raise IndexError
  end.

(** [range(n)] *)
Definition range (n : nat) : list nat := seq 0 n.

Definition rdf_type : node := URIRef (rdfuri ++ py "type").

Definition rdfs_label : node := URIRef (rdfsuri ++ py "label").

Definition Role : node := URIRef (py "http://purl.obolibrary.org/obo/BFO_0000023").

(** ** The row loops of [creategraph] *)

(** The body of the column loop shared by the entity sheets:
<<
            colname = orgdf.columns[c]
            cellval = orgdf.iloc[r,c]
            if cellval != '':
                addtriple(g, orgpred[colname], subjval, cellval, orgname)
>> *)
Definition ingest_cell (env : globals) (pred : schema) (df : DataFrame)
    (subjval name : str) (r c : nat) : M unit :=
  colname <- column df c ;;
  cellval <- iloc df r c ;;
  if negb (str_eqb cellval []) then
    pd <- getitem pred colname ;;
    addtriple env pd subjval cellval name
  else ret tt.

(** What differs between the seven entity loops: the identifier prefix,
    the class of the rows, the predicate dictionary, and whether the
    type triple is added before the label triple (every sheet but
    Guidelines_Mandates) or after it. *)
Record sheet : Type := Sheet {
  sh_prefix : str;
  sh_class : str;
  sh_pred : schema;
  sh_type_first : bool
}.

(** [PPODrefs[k]] for a key of the literal dictionary. *)
Definition PPODrefs_at (k : string) : str :=
  match dict_get PPODrefs (py k) with
  | Some v => v
  | None => []
  end.

Definition organizations : sheet :=
  Sheet (py "org_") (PPODrefs_at "Organizations") orgpred true.

Definition programs : sheet :=
  Sheet (py "prg_") (PPODrefs_at "Programs") progpred true.

Definition projects : sheet :=
  Sheet (py "prj_") (PPODrefs_at "Projects") projpred true.

Definition people : sheet :=
  Sheet (py "per_") (PPODrefs_at "People") personpred true.

Definition guidelines : sheet :=
  Sheet (py "gmt_") (PPODrefs_at "Guidelines_Mandates") guidelinespred false.

Definition datasets : sheet :=
  Sheet (py "dat_") (PPODrefs_at "Datasets") datasetpred true.

Definition tools : sheet :=
  Sheet (py "tol_") (PPODrefs_at "Tools") toolpred true.

Definition entity_sheets : list sheet :=
  [organizations; programs; projects; people; guidelines; datasets; tools].

(** One row of an entity sheet:
<<
        orgname = orgdf.iloc[r,0]
        subjval = auxprefix + "org_" + makeid(orgname)
        g.add((rdflib.URIRef(subjval), rdflib.URIRef(rdfuri + 'type'), rdflib.URIRef(PPODrefs['Organizations'])))
        g.add((rdflib.URIRef(subjval), rdflib.URIRef(rdfsuri + 'label'), rdflib.Literal(orgname)))
        for c in range(orgdf.shape[1]):
            ...
>> *)
Definition entity_subject (sh : sheet) (name : str) : str :=
  auxprefix ++ sh_prefix sh ++ makeid name.

Definition ingest_row (env : globals) (sh : sheet) (df : DataFrame)
    (r : nat) : M unit :=
  name <- iloc df r 0 ;;
  let subjval := entity_subject sh name in
  let ty := (URIRef subjval, rdf_type, URIRef (sh_class sh)) in
  let lb := (URIRef subjval, rdfs_label, Literal name) in
  (if sh_type_first sh then g_add ty ;; g_add lb
   else g_add lb ;; g_add ty) ;;
  for_each (range (ncols df))
    (ingest_cell env (sh_pred sh) df subjval name r).

Definition ingest_sheet (env : globals) (sh : sheet) (df : DataFrame)
  : M unit :=
  for_each (range (nrows df)) (ingest_row env sh df).

(** People-orgs: every row is a Role node.
<<
    for r in range(peopleorgdf.shape[0]):
        rolestr = peopleorgdf.iloc[r,0] + peopleorgdf.iloc[r,1] + peopleorgdf.iloc[r,2]
        subjval = auxprefix + "rol_" + makeid(rolestr)
        g.add((rdflib.URIRef(subjval), rdflib.URIRef(rdfsuri + 'label'), rdflib.Literal(peopleorgdf.iloc[r,2])))
        g.add((rdflib.URIRef(subjval), rdflib.URIRef(rdfuri + 'type'), rdflib.URIRef('http://purl.obolibrary.org/obo/BFO_0000023')))
        for c in range(peopleorgdf.shape[1]):
            colname = peopleorgdf.columns[c]
            cellval = peopleorgdf.iloc[r,c]
            if peopleorgdf.iloc[r,0] == "Rebecca Fris":
                print(peopleorgdf.iloc[r,0],"*" , peopleorgdf.iloc[r,2], "*",  peopleorgdf.iloc[r,3])
            if c == 2:
                if cellval == '':
                    print("empty string")
                    cellval = peopleorgdf.iloc[r,3]
                if cellval == '':
                    cellval = 'Unstated role'
            if cellval != '':
                addtriple(g, personorgpred[colname], subjval, cellval, rolestr)
>> *)
Definition role_subject (rolestr : str) : str :=
  auxprefix ++ py "rol_" ++ makeid rolestr.

Definition peopleorg_cell (env : globals) (peopleorgdf : DataFrame)
    (subjval rolestr : str) (r c : nat) : M unit :=
  colname <- column peopleorgdf c ;;
  cellval <- iloc peopleorgdf r c ;;
  who <- iloc peopleorgdf r 0 ;;
  (if str_eqb who (py "Rebecca Fris") then
     a <- iloc peopleorgdf r 0 ;;
     b <- iloc peopleorgdf r 2 ;;
     d <- iloc peopleorgdf r 3 ;;
     print (join (py " ") [a; py "*"; b; py "*"; d])
   else ret tt) ;;
  cellval <-
    (if Nat.eqb c 2 then
       cellval1 <-
         (if str_eqb cellval [] then
            print (py "empty string") ;;
            iloc peopleorgdf r 3
          else ret cellval) ;;
       ret (if str_eqb cellval1 [] then py "Unstated role" else cellval1)
     else ret cellval) ;;
  if negb (str_eqb cellval []) then
    pd <- getitem personorgpred colname ;;
    addtriple env pd subjval cellval rolestr
  else ret tt.

Definition peopleorg_row (env : globals) (peopleorgdf : DataFrame)
    (r : nat) : M unit :=
  c0 <- iloc peopleorgdf r 0 ;;
  c1 <- iloc peopleorgdf r 1 ;;
  c2 <- iloc peopleorgdf r 2 ;;
  let rolestr := c0 ++ c1 ++ c2 in
  let subjval := role_subject rolestr in
  lab <- iloc peopleorgdf r 2 ;;
  g_add (URIRef subjval, rdfs_label, Literal lab) ;;
  g_add (URIRef subjval, rdf_type, Role) ;;
  for_each (range (ncols peopleorgdf))
    (peopleorg_cell env peopleorgdf subjval rolestr r).

Definition ingest_peopleorg (env : globals) (peopleorgdf : DataFrame)
  : M unit :=
  for_each (range (nrows peopleorgdf)) (peopleorg_row env peopleorgdf).

(** People-proj:
<<
    for r in range(peopleprojdf.shape[0]):
        if peopleprojdf.iloc[r,2] == '':
            newrole = 'Participant'
        else:
            newrole = peopleprojdf.iloc[r,2]
        rolestr = peopleprojdf.iloc[r,0] + peopleprojdf.iloc[r,1] + newrole
        subjval = auxprefix + "rol_" + makeid(rolestr)
        g.add((rdflib.URIRef(subjval), rdflib.URIRef(rdfsuri + 'label'), rdflib.Literal(newrole)))
        g.add((rdflib.URIRef(subjval), rdflib.URIRef(rdfuri + 'type'), rdflib.URIRef('http://purl.obolibrary.org/obo/BFO_0000023')))
        for c in range(peopleprojdf.shape[1]):
            colname = peopleprojdf.columns[c]
            cellval = peopleprojdf.iloc[r,c]
            if c == 2: # handle the case of no stated role
                if cellval == '':
                    cellval = 'Unstated role'
            if cellval != '':
                addtriple(g, personprojpred[colname], subjval, cellval, rolestr)
>> *)
Definition peopleproj_cell (env : globals) (peopleprojdf : DataFrame)
    (subjval rolestr : str) (r c : nat) : M unit :=
  colname <- column peopleprojdf c ;;
  cellval <- iloc peopleprojdf r c ;;
  let cellval :=
    if Nat.eqb c 2 then
      if str_eqb cellval [] then py "Unstated role" else cellval
    else cellval in
  if negb (str_eqb cellval []) then
    pd <- getitem personprojpred colname ;;
    addtriple env pd subjval cellval rolestr
  else ret tt.

Definition peopleproj_row (env : globals) (peopleprojdf : DataFrame)
    (r : nat) : M unit :=
  c2 <- iloc peopleprojdf r 2 ;;
  newrole <-
    (if str_eqb c2 [] then ret (py "Participant")
     else iloc peopleprojdf r 2) ;;
  c0 <- iloc peopleprojdf r 0 ;;
  c1 <- iloc peopleprojdf r 1 ;;
  let rolestr := c0 ++ c1 ++ newrole in
  let subjval := role_subject rolestr in
  g_add (URIRef subjval, rdfs_label, Literal newrole) ;;
  g_add (URIRef subjval, rdf_type, Role) ;;
  for_each (range (ncols peopleprojdf))
    (peopleproj_cell env peopleprojdf subjval rolestr r).

Definition ingest_peopleproj (env : globals) (peopleprojdf : DataFrame)
  : M unit :=
  for_each (range (nrows peopleprojdf)) (peopleproj_row env peopleprojdf).

(** People-program.  The loop runs over the rows of [peopleprogramdf],
    and the text of the role and its label are read from [peopleorgdf]:
<<
    for r in range(peopleprogramdf.shape[0]):
        rolestr = peopleorgdf.iloc[r,0] + peopleorgdf.iloc[r,1] + peopleorgdf.iloc[r,2]
        subjval = auxprefix + "rol_" + makeid(rolestr)
        g.add((rdflib.URIRef(subjval), rdflib.URIRef(rdfsuri + 'label'), rdflib.Literal(peopleorgdf.iloc[r,2])))
        g.add((rdflib.URIRef(subjval), rdflib.URIRef(rdfuri + 'type'), rdflib.URIRef('http://purl.obolibrary.org/obo/BFO_0000023')))
        for c in range(peopleprogramdf.shape[1]):
            colname = peopleprogramdf.columns[c]
            cellval = peopleprogramdf.iloc[r,c]
            if cellval != '':
                addtriple(g, personprogrampred[colname], subjval, cellval, rolestr)
>> *)
Definition peopleprogram_row (env : globals)
    (peopleorgdf peopleprogramdf : DataFrame) (r : nat) : M unit :=
  c0 <- iloc peopleorgdf r 0 ;;
  c1 <- iloc peopleorgdf r 1 ;;
  c2 <- iloc peopleorgdf r 2 ;;
  let rolestr := c0 ++ c1 ++ c2 in
  let subjval := role_subject rolestr in
  lab <- iloc peopleorgdf r 2 ;;
  g_add (URIRef subjval, rdfs_label, Literal lab) ;;
  g_add (URIRef subjval, rdf_type, Role) ;;
  for_each (range (ncols peopleprogramdf))
    (ingest_cell env personprogrampred peopleprogramdf subjval rolestr r).

Definition ingest_peopleprogram (env : globals)
    (peopleorgdf peopleprogramdf : DataFrame) : M unit :=
  for_each (range (nrows peopleprogramdf))
    (peopleprogram_row env peopleorgdf peopleprogramdf).

(** Organizations - guidelines/mandates: the table is of triples.
<<
    for r in range(orggmdf.shape[0]):
        orgname = orggmdf.iloc[r,0]
        subjval = auxprefix + "org_" + makeid(orgname)
        pred = orggmpred[orggmdf.iloc[r,1]][1]
        objval = auxprefix + "gmt_" + makeid(orggmdf.iloc[r,2])
        g.add((rdflib.URIRef(subjval), rdflib.URIRef(pred), rdflib.URIRef(objval)))
>> *)
Definition orggm_row (orggmdf : DataFrame) (r : nat) : M unit :=
  orgname <- iloc orggmdf r 0 ;;
  let subjval := auxprefix ++ py "org_" ++ makeid orgname in
  relname <- iloc orggmdf r 1 ;;
  entry <- getitem orggmpred relname ;;
  let pred := snd (fst entry) in
  gm <- iloc orggmdf r 2 ;;
  let objval := auxprefix ++ py "gmt_" ++ makeid gm in
  g_add (URIRef subjval, URIRef pred, URIRef objval).

Definition ingest_orggm (orggmdf : DataFrame) : M unit :=
  for_each (range (nrows orggmdf)) (orggm_row orggmdf).

(** Running a computation from the empty graph and no output. *)
Definition empty_world : world := World [] [].

Definition run {A} (m : M A) : result A * world := m empty_world.

(** * Vocabulary of the statements

    Renderings, predicates and the sheets, descriptors and dictionaries
    that the examples run on. *)

(** Fixed-width rendering: the [w] low hexadecimal digits of [n], most
    significant first, zero-padded. *)
Fixpoint digits_fixed (w : nat) (n : N) : list N :=
  match w with
  | O => []
  | S w' => digits_fixed w' (n / 16) ++ [n mod 16]
  end.

Definition hex_fixed (w : nat) (n : N) : str :=
  map hexdigit (digits_fixed w n).

(** The hash as the specification words it: the lower 24 bits of the
    checksum, zero-padded to six hexadecimal digits. *)
Definition spec_hash (s : str) : str :=
  hex_fixed 6 (crc32 (encode_utf8 s) mod 2 ^ 24).

(** A computation that never removes a triple. *)
Definition grows {A} (m : M A) : Prop :=
  forall w t, In t (graph w) -> In t (graph (snd (m w))).

(** The scenario of the organizations sheet: one row, labelled
    "Yuba County Resource Conservation District", with an empty Alias. *)
Definition yuba : str := py "Yuba County Resource Conservation District".

Definition yuba_df : DataFrame :=
  Frame [py "Organization"; py "Alias"] [[yuba; []]].

(** The predicate of every use-case triple. *)
Definition has_usecase : node := URIRef (fslsprefix ++ py "usecase").

(** Entries of [orgpred]: the columns usecaseMeat, Land Cover - CWHR,
    Partners, County and Ecoregion. *)
Definition usecaseMeat_pd : prdetails :=
  prd "d"
    "https://raw.githubusercontent.com/adhollander/FSLschemas/main/fsisupp.owl#usecaseMeat"
    "use case: meat" "" "s".

Definition dcterms_title : node := URIRef (py "http://purl.org/dc/terms/title").

Definition has_participant : node :=
  URIRef (py "http://purl.obolibrary.org/obo/RO_0000057").

Definition role_of : node :=
  URIRef (py "http://purl.obolibrary.org/obo/RO_0000081").

Definition involved_in : node :=
  URIRef (py "http://purl.obolibrary.org/obo/RO_0002331").

Definition has_role : node :=
  URIRef (py "http://purl.obolibrary.org/obo/RO_0000087").

(** A PeopleOrg sheet with one row: no verbatim position, no position
    type. *)
Definition peopleorg_unstated : DataFrame :=
  Frame [py "Full Name"; py "Organization"; py "Position (Verbatim)";
         py "Position (Type)"]
        [[py "Ann Lee"; py "Audubon California"; []; []]].

(** A PeopleOrg sheet and a PeopleProgram sheet with one row each. *)
Definition peopleorg_one : DataFrame :=
  Frame [py "Full Name"; py "Organization"; py "Position (Verbatim)";
         py "Position (Type)"]
        [[py "Ann Lee"; py "Audubon California"; py "Director"; []]].

Definition peopleprogram_one : DataFrame :=
  Frame [py "Full Name"; py "Program"; py "Role"]
        [[py "Bo Diaz"; py "Rangeland Program"; py "Advisor"]].

(** An organization - guideline table whose second row names a relation
    that [orggmpred] does not have. *)
Definition orggm_endorses : DataFrame :=
  Frame [py "Organization"; py "OrgGMRelation"; py "GM_Name"]
        [ [py "Org A"; py "Implements"; py "Plan 1"];
          [py "Org B"; py "Endorses"; py "Plan 2"];
          [py "Org C"; py "Mandates"; py "Plan 3"] ].

Definition orggm_triple (org pred gm : string) : triple :=
  (URIRef (auxprefix ++ py "org_" ++ makeid (py org)),
   URIRef (py pred),
   URIRef (auxprefix ++ py "gmt_" ++ makeid (py gm))).

(** The line printed for a value that the dictionary does not have. *)
Definition miss_line (subjectstr cell name : str) : str :=
  subjectstr ++ py ": " ++ cell ++ py " not in " ++ name.

Definition habtype_pd : prdetails :=
  prd "v"
    "https://raw.githubusercontent.com/adhollander/FSLschemas/main/fsisupp.owl#habitatType"
    "habitat type" "habtypedict" "m".

Definition habtype_env : globals :=
  [(py "habtypedict",
    [(py "AGS", py "https://example.org/whr_AGS");
     (py "BOW", py "https://example.org/whr_BOW")])].

Definition partners_pd : prdetails :=
  prd "o" "http://vivoweb.org/ontology/core#hasCollaborator" "has partner"
    "org" "m".

Definition county_pd : prdetails :=
  prd "v"
    "https://raw.githubusercontent.com/adhollander/FSLschemas/main/fsisupp.owl#inCounty"
    "in county" "countydict" "m".

Definition ecoregion_pd : prdetails :=
  prd "v"
    "https://raw.githubusercontent.com/adhollander/FSLschemas/main/fsisupp.owl#inEcoregion"
    "in ecoregion" "ecoregiondict" "m".

Definition two_counties : dict str :=
  [(py "Yolo", py "http://www.wikidata.org/entity/Q109709");
   (py "Napa", py "http://www.wikidata.org/entity/Q108137")].

(** [two_counties] after [countydict.update({"Kern": ...})]. *)
Definition three_counties : dict str :=
  dict_update two_counties (py "Kern")
    (py "http://www.wikidata.org/entity/Q108047").

(** An ecoregion dictionary with one key, which contains a comma. *)
Definition comma_ecoregions : dict str :=
  [(py "Coast, North", auxprefix ++ py "eco_" ++ makeid (py "Coast, North"))].

(** The predicate dictionaries with five-element entries, in the order
    of [predsbyclasslist]. *)
Definition all_schemas : list schema :=
  [orgpred; projpred; progpred; personpred; personorgpred; personprojpred;
   personprogrampred; guidelinespred; orgprojgmpred; datasetpred; toolpred].

Definition usecase_literal (pd : prdetails) : bool :=
  str_eqb (pr_kind pd) (py "d") && contains (py "usecase") (pr_uri pd).

(** Every use-case descriptor of the source is single-valued and names
    no dictionary. *)
Definition plain_single (pd : prdetails) : bool :=
  negb (str_eqb (pr_mult pd) (py "m")) && str_eqb (pr_target pd) [].

(** An organizations sheet whose usecaseMeat column holds "yes". *)
Definition usecase_yes_df : DataFrame :=
  Frame [py "Organization"; py "usecaseMeat"] [[py "Org A"; py "yes"]].

(** * The rest of the conversion

    The dictionaries that [creategraph] builds from the sheets, the
    label passes, the last role table, and [creategraph] itself from the
    point at which the sheets are in memory. *)

(** A loop that rebinds one variable in every iteration. *)
Fixpoint fold_each {A S} (xs : list A) (body : S -> A -> M S) (s : S)
  : M S :=
  match xs with
  | [] => ret s
  | x :: xs' => s' <- body s x ;; fold_each xs' body s'
  end.

(** The position of a column label. *)
Fixpoint index_of (name : str) (cols : list str) : option nat :=
  match cols with
  | [] => None
  | c :: cols' =>
      if str_eqb name c then Some O
      else option_map S (index_of name cols')
  end.

(** [makevocabdict]; [vocabdframe[vocabdfstr]] raises [KeyError] for a
    label that the frame does not have.
<<
def makevocabdict(vocabdframe, vocabdfstr, auxprefix, prefixstr):
    vrole = vocabdframe[vocabdfstr]
    vdict = {}
    for i in range(vrole.shape[0]):
        s = vrole[i]
        if len(s) > 0:
            vdict.update({s : auxprefix + prefixstr + "_"  + makeid(s)})
    return vdict
>> *)
Definition makevocabdict (vocabdframe : DataFrame)
    (vocabdfstr auxprefix prefixstr : str) : M (dict str) :=
  match index_of vocabdfstr (columns vocabdframe) with
  | None => raise (KeyError vocabdfstr)
  | Some c =>
      fold_each (range (nrows vocabdframe))
        (fun vdict i =>
           s <- iloc vocabdframe i c ;;
           ret (if Nat.ltb 0 (List.length s)
                then dict_update vdict s
                       (auxprefix ++ prefixstr ++ py "_" ++ makeid s)
                else vdict))
        []
  end.

(** The dictionaries read off a table, one entry per row: the key from
    one column, the value from another, as it is or behind a prefix.
<<
    for i in range(counties_wd.shape[0]):
        countydict.update( {counties_wd.iloc[i,1] : counties_wd.iloc[i,0] })
>> *)
Definition table_dict (df : DataFrame) (keycol valcol : nat)
    (value : str -> str) : M (dict str) :=
  fold_each (range (nrows df))
    (fun d i =>
       k <- iloc df i keycol ;;
       v <- iloc df i valcol ;;
       ret (dict_update d k (value v)))
    [].

Definition intissueprefix : str :=
  py "https://raw.githubusercontent.com/adhollander/FSLschemas/main/sustsource.owl#".
Definition compissueprefix : str :=
  py "https://raw.githubusercontent.com/adhollander/FSLschemas/main/sustsourceindiv.rdf#".
Definition whrprefix : str :=
  py "https://raw.githubusercontent.com/adhollander/FSLschemas/main/CA_PPODterms.ttl#whr_".

Definition make_intissuedict (intissuedf : DataFrame) : M (dict str) :=
  table_dict intissuedf 1 0 (app intissueprefix).
Definition make_compissuedict (compissuedf : DataFrame) : M (dict str) :=
  table_dict compissuedf 1 0 (app compissueprefix).
Definition make_countydict (counties_wd : DataFrame) : M (dict str) :=
  table_dict counties_wd 1 0 (fun v => v).
Definition make_commoditydict (commoditydf : DataFrame) : M (dict str) :=
  table_dict commoditydf 0 1 (fun v => v).
Definition make_habtypedict (cwhrdf : DataFrame) : M (dict str) :=
  table_dict cwhrdf 0 0 (app whrprefix).

(** [{**a, **b}] *)
Definition dict_merge {V} (a b : dict V) : dict V :=
  fold_left (fun d e => dict_update d (fst e) (snd e)) b a.

(** The ecoregions: the loop starts at row 1.
<<
    ecoregions = vocabdf['Ecoregion_USDA']
    ecoregiondict = {}
    for i in range(1, ecoregions.shape[0]):
        s = ecoregions[i]
        if len(s) > 0:
            ecoregiondict.update( {s : auxprefix + "eco_" + makeid(s)})
>> *)
Definition make_ecoregiondict (vocabdf : DataFrame) : M (dict str) :=
  match index_of (py "Ecoregion_USDA") (columns vocabdf) with
  | None => raise (KeyError (py "Ecoregion_USDA"))
  | Some c =>
      fold_each (seq 1 (nrows vocabdf - 1))
        (fun d i =>
           s <- iloc vocabdf i c ;;
           ret (if Nat.ltb 0 (List.length s)
                then dict_update d s (auxprefix ++ py "eco_" ++ makeid s)
                else d))
        []
  end.

(** [a == b] on dictionaries: the same keys with the same values, in
    whatever order. *)
Definition dict_eqb (a b : dict str) : bool :=
  Nat.eqb (List.length a) (List.length b)
  && forallb (fun e => match dict_get b (fst e) with
                       | Some v => str_eqb (snd e) v
                       | None => false
                       end) a.

(** [adddicttograph]; the graph [gr] is the state.
<<
def adddicttograph(dicttoadd, gr, labeluri):
    for k in dicttoadd.keys():
        subj = rdflib.URIRef(dicttoadd[k])
        pred = rdflib.URIRef(labeluri + 'label')
        if dicttoadd == countydict:
            obj = rdflib.Literal(k + ' County')
        else:
            obj = rdflib.Literal(k)
        gr.add((subj, pred, obj))
>> *)
Definition adddicttograph (env : globals) (dicttoadd : dict str)
    (labeluri : str) : M unit :=
  for_each (keys dicttoadd)
    (fun k =>
       v <- getitem dicttoadd k ;;
       let subj := URIRef v in
       let pred := URIRef (labeluri ++ py "label") in
       countydict <- global env (py "countydict") ;;
       let obj := if dict_eqb dicttoadd countydict
                  then Literal (k ++ py " County")
                  else Literal k in
       g_add (subj, pred, obj)).

(** The property URI and the label of every entry of a predicate
    dictionary ([pred0val[1]] and [pred0val[2]]). *)
Definition uri_labels (s : schema) : list (str * str) :=
  map (fun e => (pr_uri (snd e), pr_label (snd e))) s.

Definition predsbyclasslist : list (list (str * str)) :=
  [uri_labels orgpred; uri_labels projpred; uri_labels progpred;
   uri_labels personpred; uri_labels personorgpred;
   uri_labels personprojpred; uri_labels personprogrampred;
   uri_labels guidelinespred;
   map (fun e => (snd (fst (snd e)), snd (snd e))) orggmpred;
   uri_labels orgprojgmpred; uri_labels datasetpred; uri_labels toolpred].

(** The labels of the properties.
<<
    predlabeldict = {}
    for predsbyclass in predsbyclasslist:
        for pred0 in predsbyclass.keys():
            pred0val = predsbyclass[pred0]
            pred0URI = pred0val[1]
            pred0label = pred0val[2]
            if pred0URI not in predlabeldict: # the first in is the winner
                predlabeldict[pred0URI] = pred0label
>> *)
Definition make_predlabeldict (classes : list (list (str * str)))
  : dict str :=
  fold_left
    (fun d cls =>
       fold_left
         (fun d e =>
            match dict_get d (fst e) with
            | None => dict_update d (fst e) (snd e)
            | Some _ => d
            end)
         cls d)
    classes [].

Definition predlabeldict : dict str := make_predlabeldict predsbyclasslist.

(**
<<
    for k in predlabeldict.keys():
        subj = rdflib.URIRef(k)
        pred = rdflib.URIRef(rdfsuri + 'label')
        obj = rdflib.Literal(predlabeldict[k])
        g.add((subj, pred, obj))
>> *)
Definition add_labels (labels : dict str) : M unit :=
  for_each (keys labels)
    (fun k =>
       l <- getitem labels k ;;
       g_add (URIRef k, rdfs_label, Literal l)).

(** Organizations - projects - guidelines: columns C, D, E make a role
    that the guideline of column A points to.
<<
    for r in range(orgprojgmdf.shape[0]):
        rolestr = orgprojgmdf.iloc[r,2] + orgprojgmdf.iloc[r,3] + orgprojgmdf.iloc[r,4]
        roleval = auxprefix + "rol_" + makeid(rolestr)
        g.add((rdflib.URIRef(roleval), rdflib.URIRef(rdfsuri + 'label'), rdflib.Literal(orgprojgmdf.iloc[r,3])))
        g.add((rdflib.URIRef(roleval), rdflib.URIRef(rdfuri + 'type'), rdflib.URIRef('http://purl.obolibrary.org/obo/BFO_0000023')))
        gmname = orgprojgmdf.iloc[r,0]
        subjval = auxprefix + "gmt_" + makeid(gmname)
        pred = orggmrelationdict[orgprojgmdf.iloc[r,1]]
        objval = roleval
        g.add((rdflib.URIRef(subjval), rdflib.URIRef(pred), rdflib.URIRef(objval)))
>> *)
Definition orgprojgm_row (env : globals) (orgprojgmdf : DataFrame)
    (r : nat) : M unit :=
  c2 <- iloc orgprojgmdf r 2 ;;
  c3 <- iloc orgprojgmdf r 3 ;;
  c4 <- iloc orgprojgmdf r 4 ;;
  let rolestr := c2 ++ c3 ++ c4 in
  let roleval := role_subject rolestr in
  lab <- iloc orgprojgmdf r 3 ;;
  g_add (URIRef roleval, rdfs_label, Literal lab) ;;
  g_add (URIRef roleval, rdf_type, Role) ;;
  gmname <- iloc orgprojgmdf r 0 ;;
  let subjval := auxprefix ++ py "gmt_" ++ makeid gmname in
  orggmrelationdict <- global env (py "orggmrelationdict") ;;
  relname <- iloc orgprojgmdf r 1 ;;
  pred <- getitem orggmrelationdict relname ;;
  let objval := roleval in
  g_add (URIRef subjval, URIRef pred, URIRef objval).

Definition ingest_orgprojgm (env : globals) (orgprojgmdf : DataFrame)
  : M unit :=
  for_each (range (nrows orgprojgmdf)) (orgprojgm_row env orgprojgmdf).

(** The tables that [creategraph] works on: the sheets of the workbook
    and the three lookup files. *)
Record workbook : Type := Workbook {
  wb_vocabdf : DataFrame;
  wb_orgdf : DataFrame;
  wb_projdf : DataFrame;
  wb_progdf : DataFrame;
  wb_peopledf : DataFrame;
  wb_peopleorgdf : DataFrame;
  wb_peopleprojdf : DataFrame;
  wb_peopleprogramdf : DataFrame;
  wb_guidelinesdf : DataFrame;
  wb_orggmdf : DataFrame;
  wb_orgprojgmdf : DataFrame;
  wb_datasetdf : DataFrame;
  wb_tooldf : DataFrame;
  wb_intissuedf : DataFrame;
  wb_compissuedf : DataFrame;
  wb_counties_wd : DataFrame;
  wb_commoditydf : DataFrame;
  wb_cwhrdf : DataFrame
}.

(** The vocabulary dictionaries, in the order in which [creategraph]
    binds them, as the module globals they become. *)
Definition make_globals (wb : workbook) : M globals :=
  intissuedict <- make_intissuedict (wb_intissuedf wb) ;;
  compissuedict <- make_compissuedict (wb_compissuedf wb) ;;
  let issuedict := dict_merge compissuedict intissuedict in
  countydict <- make_countydict (wb_counties_wd wb) ;;
  commoditydict <- make_commoditydict (wb_commoditydf wb) ;;
  ecoregiondict <- make_ecoregiondict (wb_vocabdf wb) ;;
  habtypedict <- make_habtypedict (wb_cwhrdf wb) ;;
  let vocabdf := wb_vocabdf wb in
  orgtypedict <- makevocabdict vocabdf (py "OrgType") auxprefix (py "oty") ;;
  orgactivitydict <-
    makevocabdict vocabdf (py "OrgActivity") auxprefix (py "oac") ;;
  projtypedict <- makevocabdict vocabdf (py "ProjType") auxprefix (py "pjt") ;;
  progtypedict <- makevocabdict vocabdf (py "ProgType") auxprefix (py "pgt") ;;
  gmtypedict <- makevocabdict vocabdf (py "GMType") auxprefix (py "gmn") ;;
  govleveldict <- makevocabdict vocabdf (py "GovLevel") auxprefix (py "gvl") ;;
  positiontypedict <-
    makevocabdict vocabdf (py "PositionType") auxprefix (py "pst") ;;
  projroledict <-
    makevocabdict vocabdf (py "PeopleProjRole") auxprefix (py "prl") ;;
  orggmrelationdict <-
    makevocabdict vocabdf (py "orgGMRelation") auxprefix (py "pst") ;;
  orgprojrelationdict <-
    makevocabdict vocabdf (py "orgProjRelation") auxprefix (py "prl") ;;
  geofeaturedict <-
    makevocabdict vocabdf (py "GeoFeature") auxprefix (py "geo") ;;
  ret [ (py "issuedict", issuedict);
        (py "countydict", countydict);
        (py "commoditydict", commoditydict);
        (py "ecoregiondict", ecoregiondict);
        (py "habtypedict", habtypedict);
        (py "orgtypedict", orgtypedict);
        (py "orgactivitydict", orgactivitydict);
        (py "projtypedict", projtypedict);
        (py "progtypedict", progtypedict);
        (py "gmtypedict", gmtypedict);
        (py "govleveldict", govleveldict);
        (py "positiontypedict", positiontypedict);
        (py "projroledict", projroledict);
        (py "orggmrelationdict", orggmrelationdict);
        (py "orgprojrelationdict", orgprojrelationdict);
        (py "geofeaturedict", geofeaturedict) ].

(** The dictionaries whose terms get a label, in the order of the list
    that [adddicttograph] is mapped over. *)
Definition labelled_dicts : list string :=
  ["ecoregiondict"; "issuedict"; "countydict"; "habtypedict";
   "orgtypedict"; "orgactivitydict"; "projtypedict"; "progtypedict";
   "gmtypedict"; "govleveldict"; "positiontypedict"; "projroledict";
   "orggmrelationdict"; "orgprojrelationdict"; "geofeaturedict";
   "commoditydict"]%string.

(** The passes of [creategraph] over the graph, once the dictionaries
    are bound. *)
Definition fill_graph (env : globals) (wb : workbook) : M unit :=
  for_each labelled_dicts
    (fun name =>
       d <- global env (py name) ;;
       adddicttograph env d rdfsuri) ;;
  add_labels predlabeldict ;;
  ingest_sheet env organizations (wb_orgdf wb) ;;
  ingest_sheet env programs (wb_progdf wb) ;;
  ingest_sheet env projects (wb_projdf wb) ;;
  ingest_sheet env people (wb_peopledf wb) ;;
  g_add (Role, rdfs_label, Literal (py "Role")) ;;
  ingest_peopleorg env (wb_peopleorgdf wb) ;;
  ingest_peopleproj env (wb_peopleprojdf wb) ;;
  ingest_peopleprogram env (wb_peopleorgdf wb) (wb_peopleprogramdf wb) ;;
  ingest_sheet env guidelines (wb_guidelinesdf wb) ;;
  ingest_orggm (wb_orggmdf wb) ;;
  ingest_orgprojgm env (wb_orgprojgmdf wb) ;;
  ingest_sheet env datasets (wb_datasetdf wb) ;;
  ingest_sheet env tools (wb_tooldf wb).

(** [creategraph], from the tables in memory to the graph. *)
Definition creategraph (wb : workbook) : M unit :=
  env <- make_globals wb ;;
  fill_graph env wb.

(** The cells of column [c], top to bottom. *)
Definition column_cells (df : DataFrame) (c : nat) : list str :=
  map (fun row => nth c row []) (rows df).

(** The identifier that a reference with prefix [prefixstr] mints. *)
Definition minted (prefixstr s : str) : str :=
  auxprefix ++ prefixstr ++ py "_" ++ makeid s.

(** The dictionary that the loop of [makevocabdict] makes of a list of
    terms, from the dictionary [d0]. *)
Definition vocab_step (auxprefix prefixstr : str) (d : dict str) (s : str)
  : dict str :=
  if Nat.ltb 0 (List.length s)
  then dict_update d s (auxprefix ++ prefixstr ++ py "_" ++ makeid s)
  else d.

(** The key and the value that [table_dict] reads off a row. *)
Definition table_entry (keycol valcol : nat) (value : str -> str)
    (row : list str) : str * str :=
  (nth keycol row [], value (nth valcol row [])).

(** A Vocabularies sheet with two of its columns. *)
Definition orgtype_df : DataFrame :=
  Frame [py "OrgType"; py "Ecoregion_USDA"]
        [ [py "Government"; py "header"];
          [py "Nonprofit"; py "Sierra Nevada"];
          [[]; py "Great Valley"];
          [py "Government"; []] ].

(** A county table with two rows for the same county. *)
Definition counties_twice : DataFrame :=
  Frame [py "item"; py "itemLabel"]
        [ [py "http://www.wikidata.org/entity/Q1"; py "Yolo"];
          [py "http://www.wikidata.org/entity/Q108137"; py "Napa"];
          [py "http://www.wikidata.org/entity/Q109709"; py "Yolo"] ].

(** Issue tables: the integrated issue "Water" is also a component
    issue. *)
Definition intissue_df : DataFrame :=
  Frame [py "code"; py "issue"] [[py "IntWater"; py "Water"]].

Definition compissue_df : DataFrame :=
  Frame [py "code"; py "issue"]
        [[py "CompWater"; py "Water"]; [py "CompSoil"; py "Soil"]].

(** The label that [adddicttograph] gives to the term [k]. *)
Definition term_label (dicttoadd countydict : dict str) (k : str) : node :=
  if dict_eqb dicttoadd countydict
  then Literal (k ++ py " County")
  else Literal k.

(** The graph after adding, for every [x] of [xs] in turn, the triple
    [f x]. *)
Definition add_all {A} (f : A -> triple) (xs : list A) (g : graph_t)
  : graph_t :=
  fold_left (fun g x => graph_add (f x) g) xs g.

(** The cell is not rewritten by the sentinel "All". *)
Definition no_expansion (pd : prdetails) (cellval : str) : Prop :=
  cellval <> py "All"
  \/ (pr_target pd <> py "countydict"
      /\ pr_target pd <> py "ecoregiondict").

(** The URIs of the values that a dictionary has, in order, and the
    values that it does not have. *)
Definition hits (d : dict str) (cells : list str) : list str :=
  flat_map (fun c => match dict_get d c with
                     | Some u => [u]
                     | None => []
                     end) cells.

Definition misses (d : dict str) (cells : list str) : list str :=
  filter (fun c => match dict_get d c with
                   | Some _ => false
                   | None => true
                   end) cells.

(** Entries of the predicate dictionaries: URL of an organization, Taxa
    of an organization. *)
Definition url_pd : prdetails :=
  prd "u" "http://dev.poderopedia.com/vocab/hasURL" "has URL" "" "m".

Definition taxa_pd : prdetails :=
  prd "d"
    "https://raw.githubusercontent.com/adhollander/FSLschemas/main/fsisupp.owl#taxa"
    "taxa" "" "m".

(** The prefixes under which references are minted and the sheets that
    mint their subjects under the same prefix. *)
Definition resolving_targets : list (str * sheet) :=
  [ (py "org", organizations); (py "prg", programs); (py "prj", projects);
    (py "per", people); (py "gmt", guidelines) ].

Definition dangling_targets : list str :=
  [py "dts"; py "positiontypedict"; py "orgprojrelationdict"].

Definition is_reference (pd : prdetails) : bool :=
  str_eqb (pr_kind pd) (py "o").

(** The cell after the rewriting of "All", when the dictionary that the
    descriptor names is [d]. *)
Definition expanded (pd : prdetails) (d : dict str) (cellval : str) : str :=
  if str_eqb cellval (py "All")
     && (str_eqb (pr_target pd) (py "countydict")
         || str_eqb (pr_target pd) (py "ecoregiondict"))
  then join [comma] (keys d)
  else cellval.

(** A computation whose exceptions are all [NameError]s, and one that
    prints nothing. *)
Definition only_name_errors {A} (m : M A) : Prop :=
  forall w e w', m w = (Raise e, w') -> is_NameError e = true.

Definition silent {A} (m : M A) : Prop :=
  forall w, stdout (snd (m w)) = stdout w.

(** An organizations sheet with a column that [orgpred] does not
    have. *)
Definition unknown_column_df : DataFrame :=
  Frame [py "Organization"; py "Twitter"]
        [ [py "Org A"; []]; [py "Org B"; py "@orgb"]; [py "Org C"; []] ].

(** The column labels of the PeopleProj sheet. *)
Definition personproj_columns : list str :=
  [py "Full Name"; py "Project"; py "ProjRole"].

(** The triple of a cell, unless the cell is empty. *)
Definition unless_empty (cell : str) (t : triple) : list triple :=
  if str_eqb cell [] then [] else [t].

(** A PeopleProj sheet: a stated role, no role. *)
Definition peopleproj_two : DataFrame :=
  Frame personproj_columns
        [ [py "Ann Lee"; py "Creek Restoration"; py "Lead"];
          [py "Bo Diaz"; py "Creek Restoration"; []] ].

(** A PeopleOrg sheet: no verbatim position but a position type. *)
Definition peopleorg_typed : DataFrame :=
  Frame [py "Full Name"; py "Organization"; py "Position (Verbatim)";
         py "Position (Type)"]
        [[py "Ann Lee"; py "Audubon California"; []; py "Staff"]].

(** An OrgProjGM sheet and the dictionary of its relations. *)
Definition orgprojgm_one : DataFrame :=
  Frame [py "GM_Name"; py "orgGMRelation"; py "Organization";
         py "OrgProjRelation"; py "Project"]
        [ [py "Plan 1"; py "Guides"; py "Org A"; py "Funder";
           py "Creek Restoration"];
          [py "Plan 2"; py "Inspires"; py "Org B"; py "Partner";
           py "Creek Restoration"] ].

Definition orggmrelation_env : globals :=
  [(py "orggmrelationdict", [(py "Guides", minted (py "pst") (py "Guides"))])].

(** The entity sheets of a workbook with the loop that reads each. *)
Definition sheet_frames (wb : workbook) : list (sheet * DataFrame) :=
  [ (organizations, wb_orgdf wb); (programs, wb_progdf wb);
    (projects, wb_projdf wb); (people, wb_peopledf wb);
    (guidelines, wb_guidelinesdf wb); (datasets, wb_datasetdf wb);
    (tools, wb_tooldf wb) ].

(** A computation that leaves graph and output as they are. *)
Definition stateless {A} (m : M A) : Prop :=
  forall w, snd (m w) = w.

(** A workbook with one organization, one vocabulary term and nothing
    else. *)
Definition no_rows : DataFrame := Frame [] [].

Definition small_vocabdf : DataFrame :=
  Frame (map py ["Ecoregion_USDA"; "OrgType"; "OrgActivity"; "ProjType";
                 "ProgType"; "GMType"; "GovLevel"; "PositionType";
                 "PeopleProjRole"; "orgGMRelation"; "orgProjRelation";
                 "GeoFeature"]%string)
        [ [[]; []; []; []; []; []; []; []; []; []; []; []];
          [[]; py "Nonprofit"; []; []; []; []; []; []; []; []; []; []] ].

Definition small_workbook : workbook :=
  Workbook small_vocabdf
    (Frame [py "Organization"; py "hasOrgType"] [[yuba; py "Nonprofit"]])
    no_rows no_rows no_rows no_rows no_rows no_rows no_rows no_rows no_rows
    no_rows no_rows no_rows no_rows no_rows no_rows no_rows.

(** The number of commas of a cell. *)
Definition commas (s : str) : nat :=
  List.length (filter (N.eqb comma) s).

(** A value with no whitespace at either end. *)
Definition trimmed (v : str) : Prop :=
  v = []
  \/ (isspace (hd 0 v) = false /\ isspace (last v 0) = false).

(** One column of a row of an entity sheet, given its label and its
    cell: nothing for an empty cell, otherwise [addtriple] with the
    entry that the predicate dictionary has for the label. *)
Definition column_run (env : globals) (sh : sheet) (subjval name : str)
    (cc : str * str) : M unit :=
  if str_eqb (snd cc) [] then ret tt
  else
    pd <- getitem (sh_pred sh) (fst cc) ;;
    addtriple env pd subjval (snd cc) name.

(** The type and the label of the row called [name], in the order in
    which the loop of the sheet adds them. *)
Definition row_header (sh : sheet) (name : str) : list triple :=
  let ty := (URIRef (entity_subject sh name), rdf_type,
             URIRef (sh_class sh)) in
  let lb := (URIRef (entity_subject sh name), rdfs_label, Literal name) in
  if sh_type_first sh then [ty; lb] else [lb; ty].

(** A row of an entity sheet, given the column labels and the cells of
    the row: the subject is minted from the first cell, the type and
    the label are added, and the columns are gone through from left to
    right, each label with its cell. *)
Definition row_run (env : globals) (sh : sheet) (cols row : list str)
  : M unit :=
  let name := hd [] row in
  for_each (row_header sh name) g_add ;;
  for_each (combine cols row)
    (column_run env sh (entity_subject sh name) name).

(** An organizations sheet with a partner, an empty cell and a link. *)
Definition org_three_columns : DataFrame :=
  Frame [py "Organization"; py "Partners"; py "Alias"; py "URL"]
        [ [py "Org A"; py "Org B"; []; py "https://a.example"] ].

(** The names that the ['v'] descriptors of the predicate dictionaries
    hand to [eval]: the sixteen dictionaries that [creategraph] binds as
    module globals, and [progroledict], which nothing binds.  For such a
    name [eval] is the reading of a module global; none of them is a
    local variable of [addtriple] or a built-in name. *)
Definition eval_targets : list str :=
  map py labelled_dicts ++ [py "progroledict"].

(** A workbook whose issue tables share the term "Water", with one
    organization that has the issues Water and Soil. *)
Definition issue_workbook : workbook :=
  Workbook small_vocabdf
    (Frame [py "Organization"; py "Issues"] [[py "Org A"; py "Water, Soil"]])
    no_rows no_rows no_rows no_rows no_rows no_rows no_rows no_rows no_rows
    no_rows no_rows intissue_df compissue_df no_rows no_rows no_rows.

(** The property of the Issues columns. *)
Definition related_issue : node :=
  URIRef (py "https://raw.githubusercontent.com/adhollander/FSLschemas/main/fsisupp.owl#FSI_000239").

(** * Properties *)

(** ** Strings *)


Lemma str_eqb_spec (a b : str) : reflect (a = b) (str_eqb a b).
Proof.
  revert b; induction a as [|x a IH]; intros [|y b]; simpl;
    try (constructor; congruence).
  destruct (N.eqb_spec x y) as [->|Hxy]; simpl.
  - destruct (IH b) as [->|Hab]; constructor; congruence.
  - constructor; congruence.
Qed.

Lemma str_eqb_refl (a : str) : str_eqb a a = true.
Proof. destruct (str_eqb_spec a a); congruence. Qed.

Lemma str_eqb_eq (a b : str) : str_eqb a b = true <-> a = b.
Proof. destruct (str_eqb_spec a b); split; congruence. Qed.

Lemma str_eqb_neq (a b : str) : str_eqb a b = false <-> a <> b.
Proof. destruct (str_eqb_spec a b); split; congruence. Qed.

(** ** The identifier hash *)

Lemma lxor_lt_pow2 (a b n : N) :
  a < 2 ^ n -> b < 2 ^ n -> N.lxor a b < 2 ^ n.
Proof.
  intros Ha Hb.
  destruct (N.eq_dec (N.lxor a b) 0) as [->|Hne].
  - apply N.neq_0_lt_0, N.pow_nonzero; discriminate.
  - apply N.log2_lt_pow2; [lia|].
    eapply N.le_lt_trans; [apply N.log2_lxor|].
    destruct (N.eq_dec a 0) as [->|Ha0], (N.eq_dec b 0) as [->|Hb0].
    + now elim Hne.
    + rewrite N.max_r by (cbn; lia). apply N.log2_lt_pow2; lia.
    + rewrite N.max_l by (cbn; lia). apply N.log2_lt_pow2; lia.
    + apply N.max_lub_lt; apply N.log2_lt_pow2; lia.
Qed.

Lemma crc_shift_bound (c : N) : c < 2 ^ 32 -> crc_shift c < 2 ^ 32.
Proof.
  intros Hc. unfold crc_shift.
  assert (Hs : N.shiftr c 1 < 2 ^ 32).
  { rewrite N.shiftr_div_pow2. change (2 ^ 1) with 2.
    apply N.Div0.div_lt_upper_bound. lia. }
  destruct (N.testbit c 0); [|exact Hs].
  apply lxor_lt_pow2; [exact Hs|]. unfold crc_poly. reflexivity.
Qed.

Lemma crc_byte_bound (c b : N) :
  c < 2 ^ 32 -> b < 2 ^ 32 -> crc_byte c b < 2 ^ 32.
Proof.
  intros Hc Hb. unfold crc_byte.
  assert (H0 : N.lxor c b < 2 ^ 32) by now apply lxor_lt_pow2.
  generalize dependent (N.lxor c b). intros x Hx.
  do 8 (apply crc_shift_bound in Hx). exact Hx.
Qed.

Lemma encode_char_bytes (c : N) : Forall (fun b => b < 256) (encode_char c).
Proof.
  unfold encode_char.
  destruct (N.ltb_spec c 128); [repeat constructor; lia|].
  destruct (N.ltb_spec c 2048).
  { assert (c / 64 < 32) by (apply N.Div0.div_lt_upper_bound; lia).
    pose proof (N.mod_upper_bound c 64).
    repeat constructor; lia. }
  destruct (N.ltb_spec c 65536).
  { assert (c / 4096 < 16) by (apply N.Div0.div_lt_upper_bound; lia).
    pose proof (N.mod_upper_bound c 64).
    pose proof (N.mod_upper_bound (c / 64) 64).
    repeat constructor; lia. }
  pose proof (N.mod_upper_bound c 64).
  pose proof (N.mod_upper_bound (c / 64) 64).
  pose proof (N.mod_upper_bound (c / 4096) 64).
  pose proof (N.mod_upper_bound (c / 262144) 8).
  repeat constructor; lia.
Qed.

Lemma encode_utf8_bytes (s : str) : Forall (fun b => b < 256) (encode_utf8 s).
Proof.
  induction s as [|c s IH]; simpl; [constructor|].
  apply Forall_app; split; [apply encode_char_bytes|exact IH].
Qed.

Lemma crc32_bytes_bound (data : list N) :
  Forall (fun b => b < 256) data -> crc32 data < 2 ^ 32.
Proof.
  intros Hd. unfold crc32.
  apply lxor_lt_pow2; [|reflexivity].
  assert (Hm : crc_mask < 2 ^ 32) by reflexivity.
  revert Hm. generalize crc_mask.
  induction Hd as [|b data Hb _ IH]; intros c Hc; simpl; [exact Hc|].
  apply IH, crc_byte_bound; [exact Hc|].
  eapply N.lt_trans; [exact Hb|reflexivity].
Qed.

Lemma crc32_bound (s : str) : crc32 (encode_utf8 s) < 2 ^ 32.
Proof. apply crc32_bytes_bound, encode_utf8_bytes. Qed.

Lemma length_digits_fixed (w : nat) (n : N) :
  List.length (digits_fixed w n) = w.
Proof.
  revert n; induction w as [|w IH]; intros n; simpl; [reflexivity|].
  rewrite length_app, IH; simpl; lia.
Qed.

Lemma digits_fixed_lt16 (w : nat) (n : N) :
  Forall (fun d => d < 16) (digits_fixed w n).
Proof.
  revert n; induction w as [|w IH]; intros n; simpl; [constructor|].
  apply Forall_app; split; [apply IH|].
  repeat constructor. apply N.mod_upper_bound; discriminate.
Qed.

(** With enough fuel, [hex_digits_fuel] yields the [k+1] digits of a
    number that has exactly that many. *)
Lemma hex_digits_fuel_fixed (k f : nat) (n : N) :
  (k < f)%nat ->
  16 ^ N.of_nat k <= n < 16 ^ N.of_nat (S k) ->
  hex_digits_fuel f n = digits_fixed (S k) n.
Proof.
  revert f n; induction k as [|k IH]; intros f n Hf [Hlo Hhi].
  - destruct f as [|f]; [lia|]. simpl in *.
    change (16 ^ 1) with 16 in Hhi.
    destruct (N.ltb_spec n 16); [|lia].
    rewrite N.mod_small by lia. reflexivity.
  - destruct f as [|f]; [lia|].
    rewrite Nat2N.inj_succ, N.pow_succ_r' in Hlo.
    rewrite (Nat2N.inj_succ (S k)), N.pow_succ_r' in Hhi.
    assert (H16 : 16 <= n).
    { assert (0 < 16 ^ N.of_nat k)
        by (apply N.neq_0_lt_0, N.pow_nonzero; discriminate).
      lia. }
    cbn [hex_digits_fuel].
    destruct (N.ltb_spec n 16); [lia|].
    rewrite (IH f (n / 16)).
    + reflexivity.
    + lia.
    + split.
      * apply N.div_le_lower_bound; [discriminate|exact Hlo].
      * apply N.Div0.div_lt_upper_bound. exact Hhi.
Qed.

(** The fuel that [hex_digits] passes is enough for every number: the
    digits are those of the fixed-width rendering at the width of the
    number. *)
Lemma hex_digits_width (n : N) :
  0 < n ->
  hex_digits n = digits_fixed (S (N.to_nat (N.log2 n / 4))) n.
Proof.
  intros Hn. unfold hex_digits.
  pose proof (N.log2_spec n Hn) as [Hlo Hhi].
  pose proof (N.Div0.mul_div_le (N.log2 n) 4) as Hq.
  pose proof (N.mod_upper_bound (N.log2 n) 4) as Hr.
  pose proof (N.div_mod (N.log2 n) 4) as Hdm.
  set (L := N.log2 n) in *. set (q := L / 4) in *.
  apply hex_digits_fuel_fixed; [lia|].
  rewrite Nat2N.inj_succ, N2Nat.id.
  change 16 with (2 ^ 4). rewrite <- !N.pow_mul_r. split.
  - eapply N.le_trans; [|exact Hlo].
    apply N.pow_le_mono_r; [discriminate|exact Hq].
  - eapply N.lt_le_trans; [exact Hhi|].
    apply N.pow_le_mono_r; [discriminate|]. lia.
Qed.

Example hex_zero : hex 0 = py "0x0".
Proof. reflexivity. Qed.

Lemma firstn_digits_fixed (w : nat) (n : N) :
  firstn w (digits_fixed (S (S w)) n) = digits_fixed w (n / 256).
Proof.
  cbn [digits_fixed].
  rewrite <- app_assoc, firstn_app, length_digits_fixed, Nat.sub_diag.
  rewrite N.Div0.div_div. change (16 * 16) with 256.
  cbn [firstn]. rewrite app_nil_r.
  rewrite <- (length_digits_fixed w (n / 256)) at 1.
  apply firstn_all.
Qed.

Lemma hexdigit_lower (d : N) :
  d < 16 -> In (hexdigit d) (py "0123456789abcdef").
Proof.
  intros Hd. unfold hexdigit.
  assert (Hc : d = 0 \/ d = 1 \/ d = 2 \/ d = 3 \/ d = 4 \/ d = 5 \/ d = 6
               \/ d = 7 \/ d = 8 \/ d = 9 \/ d = 10 \/ d = 11 \/ d = 12
               \/ d = 13 \/ d = 14 \/ d = 15) by lia.
  repeat (destruct Hc as [->|Hc]; [vm_compute; tauto|]).
  subst d; vm_compute; tauto.
Qed.

Lemma makeid_unfold (s : str) :
  makeid s = firstn 6 (map hexdigit (hex_digits (crc32 (encode_utf8 s)))).
Proof. reflexivity. Qed.

(** C1 (as amended).  [makeid] keeps the first six digits of
    [hex(crc32(s.encode("utf-8")))]: whenever the checksum has all of its
    eight hexadecimal digits (it is at least [2^28]), the identifier is
    the upper 24 bits of the 32-bit checksum, the checksum with its last
    two digits cut off, as exactly six lowercase hexadecimal characters
    without a ['0x'] prefix.  The identifier depends on the text alone. *)
Theorem makeid_upper24 (s : str) :
  2 ^ 28 <= crc32 (encode_utf8 s) ->
  makeid s = hex_fixed 6 (crc32 (encode_utf8 s) / 2 ^ 8)
  /\ crc32 (encode_utf8 s) / 2 ^ 8 < 2 ^ 24
  /\ List.length (makeid s) = 6%nat
  /\ Forall (fun c => In c (py "0123456789abcdef")) (makeid s)
  /\ (forall s', s' = s -> makeid s' = makeid s).
Proof.
  intros Hlo.
  pose proof (crc32_bound s) as Hhi.
  set (c := crc32 (encode_utf8 s)) in *.
  assert (Hd : hex_digits c = digits_fixed 8 c).
  { unfold hex_digits. apply hex_digits_fuel_fixed.
    - assert (28 <= N.log2 c).
      { change 28 with (N.log2 (2 ^ 28)). now apply N.log2_le_mono. }
      lia.
    - split.
      + change (16 ^ N.of_nat 7) with (2 ^ 28). exact Hlo.
      + change (16 ^ N.of_nat 8) with (2 ^ 32). exact Hhi. }
  assert (Hm : makeid s = hex_fixed 6 (c / 2 ^ 8)).
  { rewrite makeid_unfold. fold c. rewrite Hd. unfold hex_fixed.
    rewrite firstn_map. change (2 ^ 8) with 256.
    rewrite (firstn_digits_fixed 6 c). reflexivity. }
  split; [exact Hm|]. split.
  { apply N.Div0.div_lt_upper_bound. exact Hhi. }
  split.
  { rewrite Hm. unfold hex_fixed.
    rewrite length_map. apply length_digits_fixed. }
  split.
  { rewrite Hm. unfold hex_fixed. apply Forall_map.
    eapply Forall_impl; [|apply digits_fixed_lt16].
    intros d. apply hexdigit_lower. }
  intros s' ->. reflexivity.
Qed.

Lemma makeid_upper24_witness :
  makeid (py "Audubon California")
    = hex_fixed 6 (crc32 (encode_utf8 (py "Audubon California")) / 2 ^ 8)
  /\ makeid (py "Audubon California") = py "167f6c".
Proof.
  split.
  - refine (proj1 (makeid_upper24 (py "Audubon California") _)).
    vm_compute. discriminate.
  - vm_compute. reflexivity.
Defined.

(** C1 (as stated) fails: for the label of the source's own example the
    identifier is ["167f6c"], the upper digits of the checksum
    [0x167f6c7a], and not its lower 24 bits ["7f6c7a"]. *)
Lemma makeid_not_lower24 :
  makeid (py "Audubon California") = py "167f6c"
  /\ spec_hash (py "Audubon California") = py "7f6c7a"
  /\ makeid (py "Audubon California") <> spec_hash (py "Audubon California").
Proof.
  split; [vm_compute; reflexivity|].
  split; [vm_compute; reflexivity|].
  vm_compute. discriminate.
Qed.

(** The identifiers quoted in the source's comments. *)
Example makeid_yuba :
  makeid (py "Yuba County Resource Conservation District") = py "fb822f".
Proof. vm_compute. reflexivity. Qed.

(** ** The graph only grows *)

Lemma node_eqb_eq (a b : node) : node_eqb a b = true <-> a = b.
Proof.
  destruct a as [x|x], b as [y|y]; simpl;
    try (split; [discriminate|congruence]);
    rewrite str_eqb_eq; split; congruence.
Qed.

Lemma triple_eqb_eq (a b : triple) : triple_eqb a b = true <-> a = b.
Proof.
  destruct a as [[s1 p1] o1], b as [[s2 p2] o2]; simpl.
  rewrite !andb_true_iff, !node_eqb_eq. split.
  - intros [[-> ->] ->]; reflexivity.
  - intros H; inversion H; auto.
Qed.

Lemma in_graph_add_new (t : triple) (g : graph_t) : In t (graph_add t g).
Proof.
  unfold graph_add. destruct (existsb (triple_eqb t) g) eqn:E.
  - apply existsb_exists in E. destruct E as [x [Hx Ht]].
    apply triple_eqb_eq in Ht. now subst.
  - apply in_or_app; right; now left.
Qed.

Lemma in_graph_add_old (t u : triple) (g : graph_t) :
  In u g -> In u (graph_add t g).
Proof.
  unfold graph_add. destruct (existsb (triple_eqb t) g); [easy|].
  intros H; apply in_or_app; now left.
Qed.

Lemma in_graph_add_inv (t u : triple) (g : graph_t) :
  In u (graph_add t g) -> u = t \/ In u g.
Proof.
  unfold graph_add. destruct (existsb (triple_eqb t) g); [now right|].
  intros H. apply in_app_or in H. destruct H as [H|[H|[]]]; auto.
Qed.

Lemma grows_ret {A} (a : A) : grows (ret a).
Proof. intros w t H; exact H. Qed.

Lemma grows_raise {A} (e : exn) : grows (@raise A e).
Proof. intros w t H; exact H. Qed.

Lemma grows_bind {A B} (m : M A) (f : A -> M B) :
  grows m -> (forall a, grows (f a)) -> grows (bind m f).
Proof.
  intros Hm Hf w t H. unfold bind.
  specialize (Hm w t H).
  destruct (m w) as [[a|e] w1]; simpl in *; [now apply Hf|exact Hm].
Qed.

Lemma grows_g_add (t : triple) : grows (g_add t).
Proof. intros w u H; simpl. now apply in_graph_add_old. Qed.

Lemma grows_print (line : str) : grows (print line).
Proof. intros w u H; exact H. Qed.

Lemma grows_for_each {A} (xs : list A) (body : A -> M unit) :
  (forall x, grows (body x)) -> grows (for_each xs body).
Proof.
  intros Hb. induction xs as [|x xs IH]; simpl.
  - apply grows_ret.
  - apply grows_bind; [apply Hb|intros _; exact IH].
Qed.

Lemma grows_getitem {V} (d : dict V) (k : str) : grows (getitem d k).
Proof.
  unfold getitem. destruct (dict_get d k); [apply grows_ret|apply grows_raise].
Qed.

Lemma grows_global (env : globals) (name : str) : grows (global env name).
Proof.
  unfold global.
  destruct (dict_get env name); [apply grows_ret|apply grows_raise].
Qed.

Lemma grows_iloc (df : DataFrame) (r c : nat) : grows (iloc df r c).
Proof.
  unfold iloc. destruct (nth_error (rows df) r) as [row|];
    [destruct (nth_error row c)|]; (apply grows_ret || apply grows_raise).
Qed.

Lemma grows_column (df : DataFrame) (c : nat) : grows (column df c).
Proof.
  unfold column.
  destruct (nth_error (columns df) c); [apply grows_ret|apply grows_raise].
Qed.

Create HintDb grows.

#[local] Hint Resolve grows_ret grows_raise grows_g_add grows_print
  grows_getitem grows_global grows_iloc grows_column : grows.

Ltac grows_step :=
  match goal with
  | |- grows (bind _ _) => apply grows_bind; [|intros]
  | |- grows (for_each _ _) => apply grows_for_each; intros
  | |- grows (if ?b then _ else _) => destruct b
  | |- grows (match ?x with _ => _ end) => destruct x
  | |- grows _ => solve [auto with grows]
  end.

Lemma grows_expand_all env pd cellval : grows (expand_all env pd cellval).
Proof. unfold expand_all. repeat grows_step. Qed.

Lemma grows_emit_cell env pd subj lbl obj cell :
  grows (emit_cell env pd subj lbl obj cell).
Proof. unfold emit_cell. repeat grows_step. Qed.

Lemma grows_emit_cells env pd subj lbl obj cells :
  grows (emit_cells env pd subj lbl obj cells).
Proof.
  revert obj; induction cells as [|cell rest IH]; intros obj; simpl.
  - apply grows_ret.
  - apply grows_bind; [apply grows_emit_cell|intros; apply IH].
Qed.

Lemma grows_addtriple env pd subjval cellval lbl :
  grows (addtriple env pd subjval cellval lbl).
Proof.
  unfold addtriple.
  apply grows_bind; [apply grows_expand_all|intros; apply grows_emit_cells].
Qed.

#[local] Hint Resolve grows_expand_all grows_emit_cell grows_emit_cells
  grows_addtriple : grows.

Lemma grows_ingest_cell env pred df subjval name r c :
  grows (ingest_cell env pred df subjval name r c).
Proof. unfold ingest_cell. repeat grows_step. Qed.

#[local] Hint Resolve grows_ingest_cell : grows.

Lemma grows_ingest_row env sh df r : grows (ingest_row env sh df r).
Proof. unfold ingest_row. repeat grows_step. Qed.

(** When a loop ends normally, whatever one of its iterations left in
    the graph is in the final graph. *)
Lemma for_each_reaches {A} (xs : list A) (body : A -> M unit) :
  (forall x, grows (body x)) ->
  forall w w', for_each xs body w = (Ok tt, w') ->
  forall x, In x xs ->
  exists w1, forall t, In t (graph (snd (body x w1))) -> In t (graph w').
Proof.
  intros Hb. induction xs as [|y xs IH]; intros w w' Hrun x Hx; [easy|].
  simpl in Hrun. unfold bind in Hrun.
  destruct (body y w) as [[[]|e] w1] eqn:Ey; [|discriminate].
  destruct Hx as [->|Hx].
  - exists w. intros t Ht. rewrite Ey in Ht. simpl in Ht.
    pose proof (grows_for_each xs body Hb w1 t Ht) as Hg.
    now rewrite Hrun in Hg.
  - now apply (IH w1 w').
Qed.

(** ** Entity sheets *)

Lemma bind_ok {A B} (m : M A) (f : A -> M B) (w w1 : world) (a : A) :
  m w = (Ok a, w1) -> bind m f w = f a w1.
Proof. intros H. unfold bind. now rewrite H. Qed.

Lemma bind_raise {A B} (m : M A) (f : A -> M B) (w w1 : world) (e : exn) :
  m w = (Raise e, w1) -> bind m f w = (Raise e, w1).
Proof. intros H. unfold bind. now rewrite H. Qed.

Lemma iloc_cell (df : DataFrame) (r c : nat) (row : list str) (v : str)
    (w : world) :
  nth_error (rows df) r = Some row -> nth_error row c = Some v ->
  iloc df r c w = (Ok v, w).
Proof. intros Hr Hc. unfold iloc. now rewrite Hr, Hc. Qed.

Lemma column_at (df : DataFrame) (c : nat) (col : str) (w : world) :
  nth_error (columns df) c = Some col -> column df c w = (Ok col, w).
Proof. intros Hc. unfold column. now rewrite Hc. Qed.

Lemma ingest_row_type_label env sh df r row name w :
  nth_error (rows df) r = Some (name :: row) ->
  let w' := snd (ingest_row env sh df r w) in
  In (URIRef (entity_subject sh name), rdf_type, URIRef (sh_class sh))
     (graph w')
  /\ In (URIRef (entity_subject sh name), rdfs_label, Literal name)
        (graph w').
Proof.
  intros Hr. unfold ingest_row.
  rewrite (bind_ok _ _ _ _ _ (iloc_cell df r 0 _ name w Hr eq_refl)).
  set (loop := for_each _ _).
  assert (Hl : grows loop)
    by (apply grows_for_each; intros; apply grows_ingest_cell).
  unfold bind, g_add.
  destruct (sh_type_first sh); cbv beta iota zeta; split; apply Hl;
    cbn [graph]; auto using in_graph_add_new, in_graph_add_old.
Qed.

Lemma nth_error_combine_inv {A B} (xs : list A) (ys : list B) (i : nat)
    (x : A) (y : B) :
  nth_error (combine xs ys) i = Some (x, y) ->
  nth_error xs i = Some x /\ nth_error ys i = Some y.
Proof.
  revert ys i. induction xs as [|a xs IH]; intros [|b ys] [|i] H;
    try discriminate H.
  - cbn in H. injection H as -> ->. now split.
  - cbn in H |- *. now apply IH.
Qed.

(** A loop over the positions of a list is the loop over its
    elements. *)
Lemma for_each_seq_list {A} (xs : list A) (body : nat -> M unit)
    (body' : A -> M unit) :
  forall k,
    (forall i x w, nth_error xs i = Some x ->
                   body (k + i)%nat w = body' x w) ->
    forall w,
      for_each (seq k (List.length xs)) body w = for_each xs body' w.
Proof.
  induction xs as [|x xs IH]; intros k H w; [reflexivity|].
  cbn [List.length seq for_each]. unfold bind.
  rewrite <- (H 0%nat x w eq_refl), Nat.add_0_r.
  destruct (body k w) as [[[]|e] w1]; [|reflexivity].
  apply IH. intros i y w0 Hy.
  rewrite <- (H (S i) y w0 Hy). now rewrite Nat.add_succ_r.
Qed.

Lemma ingest_cell_column_run env sh df subjval name r c col row cellval w :
  nth_error (columns df) c = Some col ->
  nth_error (rows df) r = Some row ->
  nth_error row c = Some cellval ->
  ingest_cell env (sh_pred sh) df subjval name r c w
  = column_run env sh subjval name (col, cellval) w.
Proof.
  intros Hc Hr Hv. unfold ingest_cell, column_run.
  rewrite (bind_ok _ _ _ _ _ (column_at df c col w Hc)).
  rewrite (bind_ok _ _ _ _ _ (iloc_cell df r c row cellval w Hr Hv)).
  cbn [fst snd]. now destruct (str_eqb cellval []).
Qed.

Lemma row_header_run (sh : sheet) (name : str) (w : world) :
  for_each (row_header sh name) g_add w
  = (Ok tt,
     World (fold_left (fun g t => graph_add t g) (row_header sh name)
              (graph w))
           (stdout w)).
Proof. unfold row_header. now destruct (sh_type_first sh). Qed.

Lemma ingest_row_row_run env sh df r name rest w :
  nth_error (rows df) r = Some (name :: rest) ->
  List.length (name :: rest) = ncols df ->
  ingest_row env sh df r w = row_run env sh (columns df) (name :: rest) w.
Proof.
  intros Hr Hlen. unfold ingest_row, row_run.
  rewrite (bind_ok _ _ _ _ _ (iloc_cell df r 0 _ name w Hr eq_refl)).
  cbn [hd].
  rewrite (bind_ok _ _ _ _ _ (row_header_run sh name w)).
  assert (Hhead :
            (if sh_type_first sh
             then g_add (URIRef (entity_subject sh name), rdf_type,
                         URIRef (sh_class sh)) ;;
                  g_add (URIRef (entity_subject sh name), rdfs_label,
                         Literal name)
             else g_add (URIRef (entity_subject sh name), rdfs_label,
                         Literal name) ;;
                  g_add (URIRef (entity_subject sh name), rdf_type,
                         URIRef (sh_class sh))) w
            = (Ok tt,
               World (fold_left (fun g t => graph_add t g)
                        (row_header sh name) (graph w))
                     (stdout w))).
  { unfold row_header. now destruct (sh_type_first sh). }
  rewrite (bind_ok _ _ _ _ _ Hhead).
  assert (Hn : ncols df
               = List.length (combine (columns df) (name :: rest))).
  { rewrite length_combine. unfold ncols in *. rewrite Hlen.
    now rewrite Nat.min_id. }
  unfold range. rewrite Hn.
  apply for_each_seq_list. intros i [col cellval] w0 Hi.
  apply nth_error_combine_inv in Hi. destruct Hi as [Hc Hv].
  cbn [Nat.add].
  exact (ingest_cell_column_run env sh df _ name r i col (name :: rest)
           cellval w0 Hc Hr Hv).
Qed.

Lemma ingest_sheet_row_run env sh df :
  ncols df <> 0%nat ->
  Forall (fun row => List.length row = ncols df) (rows df) ->
  forall w,
    ingest_sheet env sh df w
    = for_each (rows df) (row_run env sh (columns df)) w.
Proof.
  intros Hn Hrect w. unfold ingest_sheet, range, nrows.
  apply for_each_seq_list. intros r row w0 Hr. cbn [Nat.add].
  assert (Hlen : List.length row = ncols df).
  { rewrite Forall_forall in Hrect. apply Hrect.
    now apply nth_error_In in Hr. }
  destruct row as [|name rest]; [cbn in Hlen; congruence|].
  now apply ingest_row_row_run.
Qed.

(** C2.  The rows of the seven entity sheets.
    - The subject of the row called [name] is
      [auxprefix + prefix + "_" + makeid(name)] with the prefix of its
      sheet: org, prg, prj, per, gmt, dat, tol; the class of the rows is
      the entry of [PPODrefs] for the sheet.
    - The [rdf:type] triple to the class of the sheet and the
      [rdfs:label] triple with the literal [name] are in the graph after
      the row, whatever the columns of the row do, and in the final graph
      of every run of the sheet that ends normally.
    - A column whose cell is empty leaves graph and output as they are
      (nothing is looked up, nothing is emitted).
    - A column whose cell is not empty and whose label has an entry in
      the predicate dictionary is handed to [addtriple] with that entry,
      the subject and the name of the row.
    - The run over a row is this and nothing else: from the graph with
      the type and the label added, the columns are gone through from
      left to right, each label with the cell of the row under it, with
      the subject minted from the first cell; the run over a sheet goes
      through its rows from top to bottom in this way. *)
Theorem entity_sheet_rows (env : globals) (sh : sheet) (df : DataFrame) :
  (forall name,
     entity_subject organizations name
     = auxprefix ++ py "org" ++ py "_" ++ makeid name
     /\ entity_subject programs name
        = auxprefix ++ py "prg" ++ py "_" ++ makeid name
     /\ entity_subject projects name
        = auxprefix ++ py "prj" ++ py "_" ++ makeid name
     /\ entity_subject people name
        = auxprefix ++ py "per" ++ py "_" ++ makeid name
     /\ entity_subject guidelines name
        = auxprefix ++ py "gmt" ++ py "_" ++ makeid name
     /\ entity_subject datasets name
        = auxprefix ++ py "dat" ++ py "_" ++ makeid name
     /\ entity_subject tools name
        = auxprefix ++ py "tol" ++ py "_" ++ makeid name)
  /\ (dict_get PPODrefs (py "Organizations") = Some (sh_class organizations)
      /\ dict_get PPODrefs (py "Programs") = Some (sh_class programs)
      /\ dict_get PPODrefs (py "Projects") = Some (sh_class projects)
      /\ dict_get PPODrefs (py "People") = Some (sh_class people)
      /\ dict_get PPODrefs (py "Guidelines_Mandates")
         = Some (sh_class guidelines)
      /\ dict_get PPODrefs (py "Datasets") = Some (sh_class datasets)
      /\ dict_get PPODrefs (py "Tools") = Some (sh_class tools))
  /\ (forall r row name w,
        nth_error (rows df) r = Some (name :: row) ->
        let w' := snd (ingest_row env sh df r w) in
        In (URIRef (entity_subject sh name), rdf_type, URIRef (sh_class sh))
           (graph w')
        /\ In (URIRef (entity_subject sh name), rdfs_label, Literal name)
              (graph w'))
  /\ (forall w w',
        ingest_sheet env sh df w = (Ok tt, w') ->
        forall r row name,
          nth_error (rows df) r = Some (name :: row) ->
          In (URIRef (entity_subject sh name), rdf_type, URIRef (sh_class sh))
             (graph w')
          /\ In (URIRef (entity_subject sh name), rdfs_label, Literal name)
                (graph w'))
  /\ (forall subjval name r c col row w,
        nth_error (columns df) c = Some col ->
        nth_error (rows df) r = Some row ->
        nth_error row c = Some [] ->
        ingest_cell env (sh_pred sh) df subjval name r c w = (Ok tt, w))
  /\ (forall subjval name r c col row cellval pd w,
        nth_error (columns df) c = Some col ->
        nth_error (rows df) r = Some row ->
        nth_error row c = Some cellval ->
        cellval <> [] ->
        dict_get (sh_pred sh) col = Some pd ->
        ingest_cell env (sh_pred sh) df subjval name r c w
        = addtriple env pd subjval cellval name w)
  /\ (forall r name rest w,
        nth_error (rows df) r = Some (name :: rest) ->
        List.length (name :: rest) = ncols df ->
        ingest_row env sh df r w
        = for_each (combine (columns df) (name :: rest))
            (column_run env sh (entity_subject sh name) name)
            (World (fold_left (fun g t => graph_add t g)
                      (row_header sh name) (graph w))
                   (stdout w))
        /\ ingest_row env sh df r w
           = row_run env sh (columns df) (name :: rest) w)
  /\ (ncols df <> 0%nat ->
      Forall (fun row => List.length row = ncols df) (rows df) ->
      forall w,
        ingest_sheet env sh df w
        = for_each (rows df) (row_run env sh (columns df)) w).
Proof.
  split; [|split; [|split; [|split; [|split; [|split; [|split]]]]]].
  - intros name. repeat split; reflexivity.
  - repeat split; vm_compute; reflexivity.
  - intros r row name w Hr. now apply (ingest_row_type_label env sh df r row).
  - intros w w' Hrun r row name Hr.
    assert (Hin : In r (range (nrows df))).
    { unfold range, nrows. apply in_seq. split; [lia|]. simpl.
      apply nth_error_Some. congruence. }
    destruct (for_each_reaches _ _ (grows_ingest_row env sh df) w w' Hrun r Hin)
      as [w1 Hw1].
    destruct (ingest_row_type_label env sh df r row name w1 Hr) as [Ht Hl].
    split; apply Hw1; assumption.
  - intros subjval name r c col row w Hc Hr Hv.
    unfold ingest_cell, bind.
    rewrite (column_at df c col w Hc), (iloc_cell df r c row [] w Hr Hv).
    reflexivity.
  - intros subjval name r c col row cellval pd w Hc Hr Hv Hne Hpd.
    unfold ingest_cell, bind at 1 2.
    rewrite (column_at df c col w Hc), (iloc_cell df r c row cellval w Hr Hv).
    apply str_eqb_neq in Hne. rewrite Hne. cbn [negb].
    unfold bind at 1, getitem. rewrite Hpd. reflexivity.
  - intros r name rest w Hr Hlen.
    pose proof (ingest_row_row_run env sh df r name rest w Hr Hlen) as E.
    split; [|exact E]. rewrite E. unfold row_run. cbn [hd].
    now rewrite (bind_ok _ _ _ _ _ (row_header_run sh name w)).
  - apply ingest_sheet_row_run.
Qed.

Lemma entity_sheet_rows_witness :
  entity_subject organizations yuba
  = auxprefix ++ py "org" ++ py "_" ++ makeid yuba
  /\ dict_get PPODrefs (py "Organizations") = Some (sh_class organizations)
  /\ (In (URIRef (entity_subject organizations yuba), rdf_type,
          URIRef (sh_class organizations))
         (graph (snd (ingest_row [] organizations yuba_df 0 empty_world)))
      /\ In (URIRef (entity_subject organizations yuba), rdfs_label,
             Literal yuba)
            (graph (snd (ingest_row [] organizations yuba_df 0 empty_world))))
  /\ (In (URIRef (entity_subject organizations yuba), rdf_type,
          URIRef (sh_class organizations))
         (graph (snd (run (ingest_sheet [] organizations yuba_df))))
      /\ In (URIRef (entity_subject organizations yuba), rdfs_label,
             Literal yuba)
            (graph (snd (run (ingest_sheet [] organizations yuba_df)))))
  /\ ingest_cell [] orgpred yuba_df (entity_subject organizations yuba)
       yuba 0 1 empty_world = (Ok tt, empty_world)
  /\ ingest_cell [] orgpred yuba_df (entity_subject organizations yuba)
       yuba 0 0 empty_world
     = addtriple []
         (prd "d" "http://purl.org/dc/terms/title" "title" "" "s")
         (entity_subject organizations yuba) yuba yuba empty_world
  /\ ingest_row [] organizations org_three_columns 0 empty_world
     = for_each
         [ (py "Organization", py "Org A"); (py "Partners", py "Org B");
           (py "Alias", []); (py "URL", py "https://a.example") ]
         (column_run [] organizations
            (entity_subject organizations (py "Org A")) (py "Org A"))
         (World [ (URIRef (entity_subject organizations (py "Org A")),
                   rdf_type, URIRef (sh_class organizations));
                  (URIRef (entity_subject organizations (py "Org A")),
                   rdfs_label, Literal (py "Org A")) ]
                [])
  /\ ingest_sheet [] organizations org_three_columns empty_world
     = for_each (rows org_three_columns)
         (row_run [] organizations (columns org_three_columns)) empty_world.
Proof.
  destruct (entity_sheet_rows [] organizations yuba_df)
    as (H1 & H1' & H2 & H3 & H4 & H5 & _ & _).
  destruct (entity_sheet_rows [] organizations org_three_columns)
    as (_ & _ & _ & _ & _ & _ & H6 & H7).
  split; [apply (H1 yuba)|].
  split; [apply H1'|].
  split; [apply (H2 0%nat [[]] yuba empty_world); reflexivity|].
  split.
  { apply (H3 empty_world
             (snd (run (ingest_sheet [] organizations yuba_df))))
      with (r := 0%nat) (row := [[]]); [|reflexivity].
    vm_compute. reflexivity. }
  split.
  { apply (H4 _ _ 0%nat 1%nat (py "Alias") [yuba; []]); reflexivity. }
  split.
  { apply (H5 _ _ 0%nat 0%nat (py "Organization") [yuba; []] yuba).
    - reflexivity.
    - reflexivity.
    - reflexivity.
    - vm_compute. discriminate.
    - vm_compute. reflexivity. }
  split.
  { refine (proj1 (H6 0%nat (py "Org A")
                     [py "Org B"; []; py "https://a.example"] empty_world
                     _ _)); reflexivity. }
  apply H7.
  - vm_compute. discriminate.
  - repeat constructor.
Defined.

(** The row of [org_three_columns], run: the type, the label, the title
    of the first column, the partner and the link; nothing for the empty
    alias. *)
Example three_columns_run :
  run (ingest_sheet [] organizations org_three_columns)
  = (Ok tt,
     World
       (let subj := URIRef (entity_subject organizations (py "Org A")) in
        [ (subj, rdf_type, URIRef (sh_class organizations));
          (subj, rdfs_label, Literal (py "Org A"));
          (subj, dcterms_title, Literal (py "Org A"));
          (subj, URIRef (pr_uri partners_pd),
           URIRef (entity_subject organizations (py "Org B")));
          (subj, URIRef (pr_uri url_pd), URIRef (py "https://a.example")) ])
       []).
Proof. vm_compute. reflexivity. Qed.

Example yuba_subject :
  entity_subject organizations yuba = auxprefix ++ py "org_fb822f"
  /\ sh_class organizations = py "http://xmlns.com/foaf/0.1/Organization".
Proof. split; vm_compute; reflexivity. Qed.

(** ** Use-case flags *)

Lemma flag_not_All (cell : str) :
  cell = py "X" \/ cell = py "x" -> str_eqb cell (py "All") = false.
Proof. intros [->| ->]; reflexivity. Qed.

Lemma flag_celllist (pd : prdetails) (cell : str) :
  cell = py "X" \/ cell = py "x" -> celllist pd cell = [cell].
Proof.
  intros H. unfold celllist.
  destruct (str_eqb (pr_mult pd) (py "m")); [|reflexivity].
  destruct H as [->| ->]; reflexivity.
Qed.

Lemma flag_is_flag (cell : str) :
  cell = py "X" \/ cell = py "x" -> is_flag cell = true.
Proof. intros [->| ->]; reflexivity. Qed.

(** C3 (as amended).  For a ['d'] descriptor whose property URI contains
    "usecase" and a cell that is "X" or "x", [addtriple] adds exactly one
    triple: its predicate is the generic [fslsprefix + "usecase"] and its
    object is the descriptor's own property URI, as a URI node.  Nothing
    else enters the graph (in particular no literal), nothing is printed
    and no exception is raised. *)
Theorem usecase_flag_triple (env : globals) (pd : prdetails)
    (subjval cell subjectstr : str) (w : world) :
  pr_kind pd = py "d" ->
  contains (py "usecase") (pr_uri pd) = true ->
  cell = py "X" \/ cell = py "x" ->
  addtriple env pd subjval cell subjectstr w
  = (Ok tt,
     World (graph_add (URIRef subjval, has_usecase, URIRef (pr_uri pd))
              (graph w))
           (stdout w))
  /\ forall t,
       In t (graph (snd (addtriple env pd subjval cell subjectstr w))) ->
       In t (graph w)
       \/ t = (URIRef subjval, has_usecase, URIRef (pr_uri pd)).
Proof.
  intros Hk Hu Hc.
  assert (E : addtriple env pd subjval cell subjectstr w
              = (Ok tt,
                 World (graph_add
                          (URIRef subjval, has_usecase, URIRef (pr_uri pd))
                          (graph w))
                       (stdout w))).
  { unfold addtriple, expand_all.
    rewrite (flag_not_All cell Hc).
    rewrite (bind_ok _ _ w w cell eq_refl), (flag_celllist pd cell Hc).
    cbn [emit_cells]. unfold emit_cell.
    rewrite Hk, Hu, (flag_is_flag cell Hc).
    reflexivity. }
  split; [exact E|].
  intros t. rewrite E. cbn [snd graph]. intros Ht.
  apply in_graph_add_inv in Ht. tauto.
Qed.

Lemma usecase_flag_triple_witness :
  addtriple [] usecaseMeat_pd (py "s") (py "X") (py "l") empty_world
  = (Ok tt,
     World [(URIRef (py "s"), has_usecase, URIRef (pr_uri usecaseMeat_pd))]
           []).
Proof.
  refine (proj1 (usecase_flag_triple [] usecaseMeat_pd (py "s") (py "X")
                   (py "l") empty_world _ _ _)).
  - reflexivity.
  - vm_compute. reflexivity.
  - left. reflexivity.
Defined.

(** C3 (as stated) fails: for the column usecaseMeat of the
    organizations sheet and the cell "X" the object of the triple is the
    property URI of the descriptor ([fsisupp.owl#usecaseMeat]); the URI
    that the table [usecases] gives for usecaseMeat
    ([CA_PPODterms.ttl#usecaseMeat]) is not the object of any triple. *)
Lemma usecase_object_not_from_table :
  dict_get orgpred (py "usecaseMeat") = Some usecaseMeat_pd
  /\ dict_get usecases (py "usecaseMeat")
     = Some (py "https://raw.githubusercontent.com/adhollander/FSLschemas/main/CA_PPODterms.ttl#usecaseMeat",
             py "Meat use case")
  /\ run (addtriple [] usecaseMeat_pd (py "s") (py "X") (py "l"))
     = (Ok tt,
        World [(URIRef (py "s"), has_usecase,
                URIRef (py "https://raw.githubusercontent.com/adhollander/FSLschemas/main/fsisupp.owl#usecaseMeat"))]
              [])
  /\ ~ In (URIRef (py "s"), has_usecase,
           URIRef (py "https://raw.githubusercontent.com/adhollander/FSLschemas/main/CA_PPODterms.ttl#usecaseMeat"))
          (graph (snd (run (addtriple [] usecaseMeat_pd (py "s") (py "X")
                              (py "l"))))).
Proof.
  split; [vm_compute; reflexivity|].
  split; [vm_compute; reflexivity|].
  split; [vm_compute; reflexivity|].
  vm_compute. intros [H|[]]. discriminate H.
Qed.

(** ** Role tables *)

(** C4, at the sheet [peopleorg_unstated].  The role is hashed from
    person and organization alone and its [rdfs:label] is the empty
    literal; "Unstated role" is the object of the [dcterms:title] triple
    only, which the column loop adds after the identifier and the label
    are fixed. *)
Theorem peopleorg_unstated_role :
  let role := URIRef (role_subject (py "Ann LeeAudubon California")) in
  run (ingest_peopleorg [] peopleorg_unstated)
  = (Ok tt,
     World [ (role, rdfs_label, Literal []);
             (role, rdf_type, Role);
             (role, has_participant,
                URIRef (auxprefix ++ py "per_" ++ makeid (py "Ann Lee")));
             (role, role_of,
                URIRef (auxprefix ++ py "org_"
                          ++ makeid (py "Audubon California")));
             (role, dcterms_title, Literal (py "Unstated role")) ]
           [py "empty string"])
  /\ ~ In (role, rdfs_label, Literal (py "Unstated role"))
          (graph (snd (run (ingest_peopleorg [] peopleorg_unstated))))
  /\ role_subject (py "Ann LeeAudubon California")
     <> role_subject (py "Ann LeeAudubon CaliforniaUnstated role").
Proof.
  split; [vm_compute; reflexivity|].
  split.
  - vm_compute. intuition discriminate.
  - vm_compute. discriminate.
Qed.

(** The same for every row of the sheet: the label triple carries the
    third cell as it is, and the identifier is hashed from the first
    three cells as they are. *)
Lemma peopleorg_row_label env df r c0 c1 c2 rest w :
  nth_error (rows df) r = Some (c0 :: c1 :: c2 :: rest) ->
  In (URIRef (role_subject (c0 ++ c1 ++ c2)), rdfs_label, Literal c2)
     (graph (snd (peopleorg_row env df r w))).
Proof.
  intros Hr. unfold peopleorg_row.
  rewrite (bind_ok _ _ _ _ _ (iloc_cell df r 0 _ c0 w Hr eq_refl)).
  rewrite (bind_ok _ _ _ _ _ (iloc_cell df r 1 _ c1 w Hr eq_refl)).
  rewrite (bind_ok _ _ _ _ _ (iloc_cell df r 2 _ c2 w Hr eq_refl)).
  rewrite (bind_ok _ _ _ _ _ (iloc_cell df r 2 _ c2 w Hr eq_refl)).
  set (loop := for_each _ _).
  assert (Hl : grows loop).
  { apply grows_for_each; intros. unfold peopleorg_cell. repeat grows_step. }
  unfold bind, g_add. cbv beta iota zeta. apply Hl. cbn [graph].
  apply in_graph_add_old, in_graph_add_new.
Qed.

(** C5, at the sheets [peopleorg_one] and [peopleprogram_one].  The
    role of the PeopleProgram row is hashed from the cells of row 0 of
    the PeopleOrg sheet and labelled with its position; the cells of the
    PeopleProgram row itself only feed the column loop.  Without a
    PeopleOrg row at that index the run stops with [IndexError]. *)
Theorem peopleprogram_reads_peopleorg :
  let role := URIRef (role_subject (py "Ann LeeAudubon CaliforniaDirector")) in
  run (ingest_peopleprogram [] peopleorg_one peopleprogram_one)
  = (Ok tt,
     World [ (role, rdfs_label, Literal (py "Director"));
             (role, rdf_type, Role);
             (role, has_participant,
                URIRef (auxprefix ++ py "per_" ++ makeid (py "Bo Diaz")));
             (role, involved_in,
                URIRef (auxprefix ++ py "prg_"
                          ++ makeid (py "Rangeland Program")));
             (role, has_role, Literal (py "Advisor")) ]
           [])
  /\ role_subject (py "Ann LeeAudubon CaliforniaDirector")
     <> role_subject (py "Bo DiazRangeland ProgramAdvisor")
  /\ (forall t,
        In t (graph (snd (run (ingest_peopleprogram [] peopleorg_one
                                 peopleprogram_one)))) ->
        fst (fst t)
        <> URIRef (role_subject (py "Bo DiazRangeland ProgramAdvisor")))
  /\ run (ingest_peopleprogram [] (Frame (columns peopleorg_one) [])
            peopleprogram_one)
     = (Raise IndexError, empty_world).
Proof.
  split; [vm_compute; reflexivity|].
  split; [vm_compute; discriminate|].
  split; [|vm_compute; reflexivity].
  vm_compute. intros t H.
  repeat (destruct H as [<-|H]; [discriminate|]). destruct H.
Qed.

(** For every row of the PeopleProgram sheet: the role is the one of the
    PeopleOrg row at the same index. *)
Lemma peopleprogram_row_label env orgdf progdf r c0 c1 c2 rest w :
  nth_error (rows orgdf) r = Some (c0 :: c1 :: c2 :: rest) ->
  In (URIRef (role_subject (c0 ++ c1 ++ c2)), rdfs_label, Literal c2)
     (graph (snd (peopleprogram_row env orgdf progdf r w))).
Proof.
  intros Hr. unfold peopleprogram_row.
  rewrite (bind_ok _ _ _ _ _ (iloc_cell orgdf r 0 _ c0 w Hr eq_refl)).
  rewrite (bind_ok _ _ _ _ _ (iloc_cell orgdf r 1 _ c1 w Hr eq_refl)).
  rewrite (bind_ok _ _ _ _ _ (iloc_cell orgdf r 2 _ c2 w Hr eq_refl)).
  rewrite (bind_ok _ _ _ _ _ (iloc_cell orgdf r 2 _ c2 w Hr eq_refl)).
  set (loop := for_each _ _).
  assert (Hl : grows loop)
    by (apply grows_for_each; intros; apply grows_ingest_cell).
  unfold bind, g_add. cbv beta iota zeta. apply Hl. cbn [graph].
  apply in_graph_add_old, in_graph_add_new.
Qed.

(** The two other role tables do read their own row. *)
Lemma peopleproj_row_label env df r c0 c1 c2 rest w :
  nth_error (rows df) r = Some (c0 :: c1 :: c2 :: rest) ->
  let newrole := if str_eqb c2 [] then py "Participant" else c2 in
  In (URIRef (role_subject (c0 ++ c1 ++ newrole)), rdfs_label,
      Literal newrole)
     (graph (snd (peopleproj_row env df r w)))
  /\ In (URIRef (role_subject (c0 ++ c1 ++ newrole)), rdf_type, Role)
        (graph (snd (peopleproj_row env df r w))).
Proof.
  intros Hr newrole. unfold peopleproj_row.
  rewrite (bind_ok _ _ _ _ _ (iloc_cell df r 2 _ c2 w Hr eq_refl)).
  assert (E : (if str_eqb c2 [] then ret (py "Participant")
               else iloc df r 2) w = (Ok newrole, w)).
  { unfold newrole. destruct (str_eqb c2 []); [reflexivity|].
    exact (iloc_cell df r 2 _ c2 w Hr eq_refl). }
  rewrite (bind_ok _ _ _ _ _ E).
  rewrite (bind_ok _ _ _ _ _ (iloc_cell df r 0 _ c0 w Hr eq_refl)).
  rewrite (bind_ok _ _ _ _ _ (iloc_cell df r 1 _ c1 w Hr eq_refl)).
  set (loop := for_each _ _).
  assert (Hl : grows loop).
  { apply grows_for_each; intros. unfold peopleproj_cell. repeat grows_step. }
  unfold bind, g_add. cbv beta iota zeta. split; apply Hl; cbn [graph].
  - apply in_graph_add_old, in_graph_add_new.
  - apply in_graph_add_new.
Qed.

(** ** The organization - guideline table *)

Lemma for_each_app {A} (xs ys : list A) (body : A -> M unit) (w : world) :
  for_each (xs ++ ys) body w
  = (for_each xs body ;; for_each ys body) w.
Proof.
  revert w; induction xs as [|x xs IH]; intros w; simpl.
  - unfold bind, ret. reflexivity.
  - unfold bind. destruct (body x w) as [[[]|e] w1]; [|reflexivity].
    rewrite IH. unfold bind. reflexivity.
Qed.

Lemma range_split (r n : nat) :
  (r < n)%nat -> range n = range r ++ r :: seq (S r) (n - S r).
Proof.
  intros H. unfold range.
  replace n with (r + S (n - S r))%nat at 1 by lia.
  rewrite seq_app. reflexivity.
Qed.

Lemma orggm_row_unknown (df : DataFrame) (r : nat) (org rel : str)
    (rest : list str) (w : world) :
  nth_error (rows df) r = Some (org :: rel :: rest) ->
  dict_get orggmpred rel = None ->
  orggm_row df r w = (Raise (KeyError rel), w).
Proof.
  intros Hr Hrel. unfold orggm_row.
  rewrite (bind_ok _ _ _ _ _ (iloc_cell df r 0 _ org w Hr eq_refl)).
  rewrite (bind_ok _ _ _ _ _ (iloc_cell df r 1 _ rel w Hr eq_refl)).
  apply bind_raise. unfold getitem. now rewrite Hrel.
Qed.

(** Reading the table prints nothing. *)
Lemma orggm_row_silent (df : DataFrame) (r : nat) (w : world) :
  stdout (snd (orggm_row df r w)) = stdout w.
Proof.
  unfold orggm_row, bind, iloc, getitem, ret, raise, g_add.
  destruct (nth_error (rows df) r) as [row|]; [|reflexivity].
  destruct (nth_error row 0) as [org|]; [|reflexivity].
  destruct (nth_error row 1) as [rel|]; [|reflexivity].
  destruct (dict_get orggmpred rel) as [entry|]; [|reflexivity].
  destruct (nth_error row 2) as [gm|]; reflexivity.
Qed.

Lemma for_each_silent {A} (xs : list A) (body : A -> M unit) :
  (forall x w, stdout (snd (body x w)) = stdout w) ->
  forall w, stdout (snd (for_each xs body w)) = stdout w.
Proof.
  intros Hb. induction xs as [|x xs IH]; intros w; simpl; [reflexivity|].
  unfold bind. specialize (Hb x w).
  destruct (body x w) as [[[]|e] w1]; simpl in *; [|exact Hb].
  now rewrite IH.
Qed.

(** C9 (as amended).  When the second cell of row [r] of the
    organization - guideline table is not a key of [orggmpred], the
    lookup raises [KeyError] and nothing catches it: if the rows before
    [r] were read normally, the run over the table ends at row [r] with
    that exception, in the state the earlier rows left; the row adds no
    triple, nothing is printed, and no later row is read. *)
Theorem orggm_unknown_relation (orggmdf : DataFrame) (r : nat)
    (org rel : str) (rest : list str) (w w1 : world) :
  nth_error (rows orggmdf) r = Some (org :: rel :: rest) ->
  dict_get orggmpred rel = None ->
  for_each (range r) (orggm_row orggmdf) w = (Ok tt, w1) ->
  ingest_orggm orggmdf w = (Raise (KeyError rel), w1)
  /\ stdout w1 = stdout w.
Proof.
  intros Hr Hrel Hbefore.
  assert (Hlt : (r < nrows orggmdf)%nat).
  { unfold nrows. apply nth_error_Some. congruence. }
  split.
  - unfold ingest_orggm. rewrite (range_split r _ Hlt), for_each_app.
    rewrite (bind_ok _ _ _ _ _ Hbefore). cbn [for_each].
    apply bind_raise. exact (orggm_row_unknown _ _ _ _ _ _ Hr Hrel).
  - pose proof (for_each_silent (range r) (orggm_row orggmdf)
                  (orggm_row_silent orggmdf) w) as Hs.
    now rewrite Hbefore in Hs.
Qed.

Lemma orggm_unknown_relation_witness :
  ingest_orggm orggm_endorses empty_world
  = (Raise (KeyError (py "Endorses")),
     World [orggm_triple "Org A" "https://w3id.org/dingo#implements" "Plan 1"]
           [])
  /\ @nil str = stdout empty_world.
Proof.
  apply (orggm_unknown_relation orggm_endorses 1 (py "Org B")
           (py "Endorses") [py "Plan 2"] empty_world).
  - reflexivity.
  - vm_compute. reflexivity.
  - vm_compute. reflexivity.
Defined.

(** C9 (as stated) fails: the row with the unknown relation is not
    skipped.  The run ends there with [KeyError]; the next row, whose
    relation is known, adds nothing, and nothing is reported. *)
Lemma orggm_unknown_relation_stops :
  run (ingest_orggm orggm_endorses)
  = (Raise (KeyError (py "Endorses")),
     World [orggm_triple "Org A" "https://w3id.org/dingo#implements" "Plan 1"]
           [])
  /\ dict_get orggmpred (py "Mandates")
     = Some (py "o",
             py "https://raw.githubusercontent.com/adhollander/FSLschemas/main/fsisupp.owl#mandates",
             py "mandates")
  /\ ~ In (orggm_triple "Org C"
             "https://raw.githubusercontent.com/adhollander/FSLschemas/main/fsisupp.owl#mandates"
             "Plan 3")
          (graph (snd (run (ingest_orggm orggm_endorses)))).
Proof.
  split; [vm_compute; reflexivity|].
  split; [vm_compute; reflexivity|].
  vm_compute. intros [H|[]]. discriminate H.
Qed.

(** ** Vocabulary references *)

Lemma expand_all_other (env : globals) (pd : prdetails) (cellval : str)
    (w : world) :
  cellval <> py "All" -> expand_all env pd cellval w = (Ok cellval, w).
Proof.
  intros H. unfold expand_all. apply str_eqb_neq in H. now rewrite H.
Qed.

(** C6.  For a ['v'] descriptor whose dictionary is bound and does not
    have the value [cell]: the iteration adds no triple, prints the one
    line [subjectstr + ": " + cell + " not in " + name], raises nothing
    and leaves the binding of [obj] alone; the loop goes on with the
    remaining values from that state; and a cell that consists of this
    value alone makes [addtriple] return normally, so the caller goes on
    with the next column and row. *)
Theorem vocab_miss (env : globals) (pd : prdetails) (subj : node)
    (subjectstr : str) (obj : option node) (cell : str) (rest : list str)
    (d : dict str) (w : world) :
  pr_kind pd = py "v" ->
  dict_get env (pr_target pd) = Some d ->
  dict_get d cell = None ->
  let w' := World (graph w)
              (stdout w ++ [miss_line subjectstr cell (pr_target pd)]) in
  emit_cell env pd subj subjectstr obj cell w = (Ok obj, w')
  /\ emit_cells env pd subj subjectstr obj (cell :: rest) w
     = emit_cells env pd subj subjectstr obj rest w'
  /\ (forall subjval cellval,
        cellval <> py "All" ->
        celllist pd cellval = [cell] ->
        subj = URIRef subjval ->
        addtriple env pd subjval cellval subjectstr w = (Ok tt, w')).
Proof.
  intros Hk Henv Hmiss w'.
  assert (E : forall o,
             emit_cell env pd subj subjectstr o cell w = (Ok o, w')).
  { intros o. unfold emit_cell. rewrite Hk.
    change (str_eqb (py "v") (py "d")) with false.
    change (str_eqb (py "v") (py "v")) with true. cbv iota.
    unfold global. rewrite Henv.
    rewrite (bind_ok _ _ w w d eq_refl), Hmiss.
    reflexivity. }
  split; [exact (E obj)|]. split.
  - cbn [emit_cells]. now rewrite (bind_ok _ _ _ _ _ (E obj)).
  - intros subjval cellval Hne Hcl Hs. unfold addtriple.
    rewrite (bind_ok _ _ _ _ _ (expand_all_other env pd cellval w Hne)), Hcl.
    cbn [emit_cells]. rewrite <- Hs.
    now rewrite (bind_ok _ _ _ _ _ (E None)).
Qed.

Lemma vocab_miss_witness :
  emit_cell habtype_env habtype_pd (URIRef (py "s")) (py "Org A") None
    (py "Zzz") empty_world
  = (Ok None, World [] [py "Org A: Zzz not in habtypedict"]).
Proof.
  refine (proj1 (vocab_miss habtype_env habtype_pd (URIRef (py "s"))
                   (py "Org A") None (py "Zzz") []
                   [(py "AGS", py "https://example.org/whr_AGS");
                    (py "BOW", py "https://example.org/whr_BOW")]
                   empty_world _ _ _)); reflexivity.
Defined.

(** A cell with a miss between two hits: two triples, one line. *)
Example vocab_miss_between_hits :
  dict_get orgpred (py "Land Cover - CWHR") = Some habtype_pd
  /\ run (addtriple habtype_env habtype_pd (py "s") (py "AGS, Zzz, BOW")
            (py "Org A"))
     = (Ok tt,
        World [ (URIRef (py "s"), URIRef (pr_uri habtype_pd),
                 URIRef (py "https://example.org/whr_AGS"));
                (URIRef (py "s"), URIRef (pr_uri habtype_pd),
                 URIRef (py "https://example.org/whr_BOW")) ]
              [py "Org A: Zzz not in habtypedict"]).
Proof. split; vm_compute; reflexivity. Qed.

(** ** Multiplicity *)

(** C8.  With ['m'] the values of a cell are the pieces between its
    commas, each stripped of surrounding whitespace, so "A, B,C" gives
    "A", "B", "C"; with ['s'] the cell is its only value.  [addtriple]
    runs the rule of the descriptor's kind over these values in order,
    the cell being the one it was given unless that was "All": with the
    descriptor of the Partners column the cell "A, B,C" adds three
    triples, one for each of the three names. *)
Theorem multiplicity_split (env : globals) (pd : prdetails)
    (subjval cellval subjectstr : str) (w : world) :
  (pr_mult pd = py "m" ->
   celllist pd cellval = map strip (split comma cellval)
   /\ celllist pd (py "A, B,C") = [py "A"; py "B"; py "C"])
  /\ (pr_mult pd = py "s" -> celllist pd cellval = [cellval])
  /\ (forall cellval',
        expand_all env pd cellval w = (Ok cellval', w) ->
        addtriple env pd subjval cellval subjectstr w
        = emit_cells env pd (URIRef subjval) subjectstr None
            (celllist pd cellval') w)
  /\ (cellval <> py "All" ->
      expand_all env pd cellval w = (Ok cellval, w))
  /\ addtriple env partners_pd (py "s") (py "A, B,C") subjectstr empty_world
     = (Ok tt,
        World
          (map (fun v => (URIRef (py "s"), URIRef (pr_uri partners_pd),
                          URIRef (auxprefix ++ py "org_" ++ makeid (py v))))
               ["A"; "B"; "C"]%string)
          []).
Proof.
  split; [|split; [|split; [|split]]].
  - intros Hm. unfold celllist. rewrite Hm. split; reflexivity.
  - intros Hs. unfold celllist. rewrite Hs. reflexivity.
  - intros cellval' He. unfold addtriple.
    now rewrite (bind_ok _ _ _ _ _ He).
  - apply expand_all_other.
  - unfold addtriple.
    rewrite (bind_ok _ _ _ empty_world (py "A, B,C") eq_refl).
    change (celllist partners_pd (py "A, B,C"))
      with [py "A"; py "B"; py "C"].
    vm_compute. reflexivity.
Qed.

Lemma multiplicity_split_witness :
  celllist partners_pd (py "Org A ,Org B")
  = map strip (split comma (py "Org A ,Org B"))
  /\ celllist usecaseMeat_pd (py "A, B,C") = [py "A, B,C"]
  /\ addtriple [] partners_pd (py "s") (py "Org A ,Org B") (py "l")
       empty_world
     = emit_cells [] partners_pd (URIRef (py "s")) (py "l") None
         [py "Org A"; py "Org B"] empty_world.
Proof.
  destruct (multiplicity_split [] partners_pd (py "s") (py "Org A ,Org B")
              (py "l") empty_world) as (H1 & _ & H3 & H4 & _).
  destruct (multiplicity_split [] usecaseMeat_pd (py "s") (py "A, B,C")
              (py "l") empty_world) as (_ & H2 & _ & _).
  split; [apply H1; reflexivity|].
  split; [apply H2; reflexivity|].
  apply (H3 (py "Org A ,Org B")). apply H4. vm_compute. discriminate.
Defined.

(** ** The sentinel "All" *)

Lemma split_nosep (sep : N) (p : str) :
  ~ In sep p -> split sep p = [p].
Proof.
  induction p as [|c p IH]; intros Hn; simpl; [reflexivity|].
  destruct (N.eqb_spec c sep) as [->|Hc]; [elim Hn; now left|].
  rewrite IH; [reflexivity|]. intros H; apply Hn; now right.
Qed.

Lemma split_app_sep (sep : N) (p rest : str) :
  ~ In sep p -> split sep (p ++ sep :: rest) = p :: split sep rest.
Proof.
  induction p as [|c p IH]; intros Hn; simpl.
  - now rewrite N.eqb_refl.
  - destruct (N.eqb_spec c sep) as [->|Hc]; [elim Hn; now left|].
    rewrite IH; [reflexivity|]. intros H; apply Hn; now right.
Qed.

Lemma split_join (sep : N) (ks : list str) :
  ks <> [] -> Forall (fun k => ~ In sep k) ks ->
  split sep (join [sep] ks) = ks.
Proof.
  induction ks as [|k ks IH]; intros Hne Hall; [congruence|].
  inversion Hall as [|? ? Hk Hks]; subst.
  destruct ks as [|k2 ks'].
  - simpl. now apply split_nosep.
  - change (join [sep] (k :: k2 :: ks'))
      with (k ++ sep :: join [sep] (k2 :: ks')).
    rewrite (split_app_sep sep k _ Hk).
    rewrite IH; [reflexivity|discriminate|exact Hks].
Qed.

Lemma map_strip_id (ks : list str) :
  Forall (fun k => strip k = k) ks -> map strip ks = ks.
Proof.
  induction 1 as [|k ks Hk _ IH]; simpl; [reflexivity|].
  now rewrite Hk, IH.
Qed.

(** C7 (as amended).  For a descriptor that names [countydict] or
    [ecoregiondict] and the cell "All", [addtriple] replaces the cell by
    the keys of that dictionary, as bound at the time of the call, in
    dictionary order and joined with commas, and only then splits it and
    applies the rule of the kind.  For a ['m'] descriptor the values so
    obtained are exactly the keys, provided the dictionary is not empty
    and no key contains a comma or starts or ends with whitespace. *)
Theorem all_expands_to_keys (env : globals) (pd : prdetails)
    (subjval subjectstr : str) (d : dict str) (w : world) :
  pr_target pd = py "countydict" \/ pr_target pd = py "ecoregiondict" ->
  dict_get env (pr_target pd) = Some d ->
  expand_all env pd (py "All") w = (Ok (join [comma] (keys d)), w)
  /\ addtriple env pd subjval (py "All") subjectstr w
     = emit_cells env pd (URIRef subjval) subjectstr None
         (celllist pd (join [comma] (keys d))) w
  /\ (pr_mult pd = py "m" ->
      keys d <> [] ->
      Forall (fun k => ~ In comma k /\ strip k = k) (keys d) ->
      celllist pd (join [comma] (keys d)) = keys d).
Proof.
  intros Ht Hd.
  assert (E : expand_all env pd (py "All") w
              = (Ok (join [comma] (keys d)), w)).
  { unfold expand_all. rewrite str_eqb_refl.
    destruct Ht as [Ht|Ht]; rewrite Ht in Hd |- *.
    - rewrite str_eqb_refl. unfold global. rewrite Hd. reflexivity.
    - change (str_eqb (py "ecoregiondict") (py "countydict")) with false.
      rewrite str_eqb_refl. unfold global. rewrite Hd. reflexivity. }
  split; [exact E|]. split.
  - unfold addtriple. now rewrite (bind_ok _ _ _ _ _ E).
  - intros Hm Hne Hall. unfold celllist. rewrite Hm, str_eqb_refl.
    rewrite split_join.
    + apply map_strip_id.
      eapply Forall_impl; [|exact Hall]. now intros k [_ Hk].
    + exact Hne.
    + eapply Forall_impl; [|exact Hall]. now intros k [Hk _].
Qed.

Lemma all_expands_to_keys_witness :
  expand_all [(py "countydict", two_counties)] county_pd (py "All")
    empty_world
  = (Ok (py "Yolo,Napa"), empty_world)
  /\ celllist county_pd (py "Yolo,Napa") = [py "Yolo"; py "Napa"].
Proof.
  destruct (all_expands_to_keys [(py "countydict", two_counties)] county_pd
              (py "s") (py "l") two_counties empty_world)
    as (H1 & _ & H3).
  - left. reflexivity.
  - reflexivity.
  - split; [exact H1|]. apply H3.
    + reflexivity.
    + discriminate.
    + repeat constructor; try reflexivity;
        vm_compute; intuition discriminate.
Defined.

Example all_counties_triples :
  dict_get orgpred (py "County") = Some county_pd
  /\ run (addtriple [(py "countydict", two_counties)] county_pd (py "s")
            (py "All") (py "l"))
     = (Ok tt,
        World [ (URIRef (py "s"), URIRef (pr_uri county_pd),
                 URIRef (py "http://www.wikidata.org/entity/Q109709"));
                (URIRef (py "s"), URIRef (pr_uri county_pd),
                 URIRef (py "http://www.wikidata.org/entity/Q108137")) ]
              []).
Proof. split; vm_compute; reflexivity. Qed.

(** The replacement reads the dictionary at the time of the call: one
    more key, one more value. *)
Example all_follows_the_dictionary :
  fst (expand_all [(py "countydict", two_counties)] county_pd (py "All")
         empty_world) = Ok (py "Yolo,Napa")
  /\ fst (expand_all [(py "countydict", three_counties)] county_pd (py "All")
            empty_world) = Ok (py "Yolo,Napa,Kern").
Proof. split; vm_compute; reflexivity. Qed.

(** C7 (as stated) fails: with the descriptor of the Ecoregion column
    and a dictionary whose only key is "Coast, North", the cell "All" is
    processed as the two values "Coast" and "North".  Neither is a key:
    two lines are printed and the triple for the key is not added. *)
Lemma all_not_the_key_set :
  dict_get orgpred (py "Ecoregion") = Some ecoregion_pd
  /\ keys comma_ecoregions = [py "Coast, North"]
  /\ celllist ecoregion_pd (join [comma] (keys comma_ecoregions))
     = [py "Coast"; py "North"]
  /\ celllist ecoregion_pd (join [comma] (keys comma_ecoregions))
     <> keys comma_ecoregions
  /\ run (addtriple [(py "ecoregiondict", comma_ecoregions)] ecoregion_pd
            (py "s") (py "All") (py "Org A"))
     = (Ok tt,
        World []
          [py "Org A: Coast not in ecoregiondict";
           py "Org A: North not in ecoregiondict"]).
Proof.
  split; [vm_compute; reflexivity|].
  split; [vm_compute; reflexivity|].
  split; [vm_compute; reflexivity|].
  split; [vm_compute; discriminate|].
  vm_compute; reflexivity.
Qed.

(** Two more ways in which the values differ from the keys: an empty
    dictionary gives the one value "", and a key with surrounding
    whitespace is looked up without it. *)
Example all_of_empty_dictionary :
  celllist county_pd (join [comma] (@keys str [])) = [[]]
  /\ run (addtriple [(py "countydict", [])] county_pd (py "s") (py "All")
            (py "Org A"))
     = (Ok tt, World [] [py "Org A:  not in countydict"]).
Proof. split; vm_compute; reflexivity. Qed.

Example all_of_padded_key :
  celllist county_pd (join [comma] (keys [(py " Yolo", py "u")]))
  = [py "Yolo"].
Proof. vm_compute. reflexivity. Qed.

(** ** Use-case columns with another value *)

Lemma usecase_descriptors_plain :
  forallb
    (forallb (fun e : str * prdetails =>
                implb (usecase_literal (snd e)) (plain_single (snd e))))
    all_schemas = true.
Proof. vm_compute. reflexivity. Qed.

Lemma dict_get_In {V} (d : dict V) (k : str) (v : V) :
  dict_get d k = Some v -> In (k, v) d.
Proof.
  induction d as [|[k' v'] d IH]; simpl; [discriminate|].
  destruct (str_eqb_spec k k') as [->|Hk].
  - intros H; inversion H; now left.
  - intros H; right; now apply IH.
Qed.

Lemma emit_cell_unbound env pd subj lbl cell w :
  usecase_literal pd = true -> is_flag cell = false ->
  emit_cell env pd subj lbl None cell w
  = (Raise (UnboundLocalError (py "obj")), w).
Proof.
  unfold usecase_literal. intros Hu Hf.
  apply andb_true_iff in Hu. destruct Hu as [Hk Hu].
  unfold emit_cell. now rewrite Hk, Hu, Hf.
Qed.

Lemma addtriple_unbound env pd subjval cellval lbl w :
  usecase_literal pd = true -> plain_single pd = true ->
  is_flag cellval = false ->
  addtriple env pd subjval cellval lbl w
  = (Raise (UnboundLocalError (py "obj")), w).
Proof.
  intros Hu Hp Hf. unfold plain_single in Hp.
  apply andb_true_iff in Hp. destruct Hp as [Hm Ht].
  apply negb_true_iff in Hm. apply str_eqb_eq in Ht.
  assert (E : expand_all env pd cellval w = (Ok cellval, w)).
  { unfold expand_all. rewrite Ht.
    destruct (str_eqb cellval (py "All")); reflexivity. }
  unfold addtriple. rewrite (bind_ok _ _ _ _ _ E).
  unfold celllist. rewrite Hm. cbn [emit_cells].
  apply bind_raise. now apply emit_cell_unbound.
Qed.

(** C10.  For a ['d'] descriptor whose property URI contains "usecase"
    and a value other than "X" and "x", nothing on the path through the
    iteration assigns [obj]: with [obj] still unbound, as it is in the
    first iteration, [g.add] raises [UnboundLocalError], a [NameError],
    and neither the literal nor anything else is added.  For every such
    descriptor of the predicate dictionaries [addtriple] therefore fails
    on every cell other than "X" and "x".  The error is reached from the
    row loop: an organizations row with "yes" under usecaseMeat stops
    the run. *)
Theorem usecase_other_value_raises :
  (forall env pd subj lbl cell rest w,
     usecase_literal pd = true ->
     cell <> py "X" -> cell <> py "x" ->
     emit_cell env pd subj lbl None cell w
     = (Raise (UnboundLocalError (py "obj")), w)
     /\ emit_cells env pd subj lbl None (cell :: rest) w
        = (Raise (UnboundLocalError (py "obj")), w))
  /\ (forall env sch col pd subjval cellval lbl w,
        In sch all_schemas ->
        dict_get sch col = Some pd ->
        usecase_literal pd = true ->
        cellval <> py "X" -> cellval <> py "x" ->
        addtriple env pd subjval cellval lbl w
        = (Raise (UnboundLocalError (py "obj")), w))
  /\ is_NameError (UnboundLocalError (py "obj")) = true
  /\ fst (run (ingest_sheet [] organizations usecase_yes_df))
     = Raise (UnboundLocalError (py "obj")).
Proof.
  assert (Hflag : forall cell,
             cell <> py "X" -> cell <> py "x" -> is_flag cell = false).
  { intros cell HX Hx. unfold is_flag.
    apply str_eqb_neq in HX, Hx. now rewrite HX, Hx. }
  split; [|split; [|split]].
  - intros env pd subj lbl cell rest w Hu HX Hx.
    pose proof (emit_cell_unbound env pd subj lbl cell w Hu
                  (Hflag cell HX Hx)) as E.
    split; [exact E|]. cbn [emit_cells]. now apply bind_raise.
  - intros env sch col pd subjval cellval lbl w Hsch Hget Hu HX Hx.
    apply addtriple_unbound; [exact Hu| |now apply Hflag].
    pose proof usecase_descriptors_plain as Hall.
    rewrite forallb_forall in Hall. specialize (Hall sch Hsch).
    rewrite forallb_forall in Hall.
    specialize (Hall (col, pd) (dict_get_In sch col pd Hget)).
    cbn [snd] in Hall. now rewrite Hu in Hall.
  - reflexivity.
  - vm_compute. reflexivity.
Qed.

Lemma usecase_other_value_raises_witness :
  addtriple [] usecaseMeat_pd (py "s") (py "yes") (py "Org A") empty_world
  = (Raise (UnboundLocalError (py "obj")), empty_world)
  /\ emit_cells [] usecaseMeat_pd (URIRef (py "s")) (py "Org A") None
       [py "no"; py "X"] empty_world
     = (Raise (UnboundLocalError (py "obj")), empty_world).
Proof.
  destruct usecase_other_value_raises as (H1 & H2 & _ & _).
  split.
  - apply (H2 [] orgpred (py "usecaseMeat")).
    + left. reflexivity.
    + vm_compute. reflexivity.
    + vm_compute. reflexivity.
    + vm_compute. discriminate.
    + vm_compute. discriminate.
  - apply H1.
    + vm_compute. reflexivity.
    + vm_compute. discriminate.
    + vm_compute. discriminate.
Defined.

(** What the rows leave behind when the run stops: the type, the label
    and the title of the organization, and no triple for the use case. *)
Example usecase_yes_graph :
  let subj := URIRef (entity_subject organizations (py "Org A")) in
  snd (run (ingest_sheet [] organizations usecase_yes_df))
  = World [ (subj, rdf_type, URIRef (sh_class organizations));
            (subj, rdfs_label, Literal (py "Org A"));
            (subj, dcterms_title, Literal (py "Org A")) ]
          [].
Proof. vm_compute. reflexivity. Qed.

(** The binding of [obj] outlives an iteration.  No descriptor of the
    source combines a use-case URI with ['m'], but with such a descriptor
    a value that follows a flag would not fail: [g.add] would find the
    object of the previous iteration. *)
Example usecase_stale_object :
  let pd := Prd (py "d") (pr_uri usecaseMeat_pd) (py "use case: meat") []
              (py "m") in
  run (addtriple [] pd (py "s") (py "X,yes") (py "Org A"))
  = (Ok tt,
     World [ (URIRef (py "s"), has_usecase, URIRef (pr_uri usecaseMeat_pd));
             (URIRef (py "s"), URIRef (pr_uri usecaseMeat_pd),
              URIRef (pr_uri usecaseMeat_pd)) ]
           []).
Proof. vm_compute. reflexivity. Qed.

(** ** Dictionaries *)

Lemma dict_get_update_same {V} (d : dict V) (k : str) (v : V) :
  dict_get (dict_update d k v) k = Some v.
Proof.
  induction d as [|[k' v'] d IH]; simpl.
  - now rewrite str_eqb_refl.
  - destruct (str_eqb k k') eqn:E; simpl; rewrite ?str_eqb_refl, ?E; auto.
Qed.

Lemma dict_get_update_other {V} (d : dict V) (k k' : str) (v : V) :
  k' <> k -> dict_get (dict_update d k v) k' = dict_get d k'.
Proof.
  intros Hne. induction d as [|[k0 v0] d IH]; simpl.
  - apply str_eqb_neq in Hne. now rewrite Hne.
  - destruct (str_eqb_spec k k0) as [->|Hk]; simpl.
    + apply str_eqb_neq in Hne. now rewrite Hne.
    + now rewrite IH.
Qed.

Lemma dict_get_None {V} (d : dict V) (k : str) :
  dict_get d k = None <-> ~ In k (keys d).
Proof.
  induction d as [|[k' v'] d IH]; simpl; [tauto|].
  destruct (str_eqb_spec k k') as [->|Hk].
  - split; [discriminate|]. intros H; elim H; now left.
  - rewrite IH. split; [intros H [E|E]; [congruence|tauto]|tauto].
Qed.

Lemma dict_get_Some_key {V} (d : dict V) (k : str) (v : V) :
  dict_get d k = Some v -> In k (keys d).
Proof.
  intros H. destruct (in_dec (list_eq_dec N.eq_dec) k (keys d)) as [Hi|Hn];
    [exact Hi|]. apply dict_get_None in Hn. congruence.
Qed.

Lemma keys_update {V} (d : dict V) (k : str) (v : V) :
  keys (dict_update d k v)
  = match dict_get d k with
    | Some _ => keys d
    | None => keys d ++ [k]
    end.
Proof.
  unfold keys. induction d as [|[k' v'] d IH]; simpl; [reflexivity|].
  destruct (str_eqb_spec k k') as [->|Hk]; simpl; [reflexivity|].
  rewrite IH. now destruct (dict_get d k).
Qed.

Lemma keys_update_NoDup {V} (d : dict V) (k : str) (v : V) :
  NoDup (keys d) -> NoDup (keys (dict_update d k v)).
Proof.
  intros Hd. rewrite keys_update.
  destruct (dict_get d k) eqn:E; [exact Hd|].
  apply dict_get_None in E.
  apply NoDup_app; [exact Hd|repeat constructor; simpl; tauto|].
  intros x Hx [<-|[]]. contradiction.
Qed.

Lemma in_keys_update {V} (d : dict V) (k k' : str) (v : V) :
  In k' (keys (dict_update d k v)) <-> k' = k \/ In k' (keys d).
Proof.
  rewrite keys_update. destruct (dict_get d k) eqn:E.
  - apply dict_get_Some_key in E. split; [tauto|intros [->|H]; auto].
  - rewrite in_app_iff. simpl. intuition congruence.
Qed.

Lemma dict_get_app {V} (a b : dict V) (k : str) :
  dict_get (a ++ b) k
  = match dict_get a k with
    | Some v => Some v
    | None => dict_get b k
    end.
Proof.
  induction a as [|[k' v'] a IH]; simpl; [reflexivity|].
  now destruct (str_eqb k k').
Qed.

Lemma dict_get_merge {V} (a b : dict V) (k : str) :
  dict_get (dict_merge a b) k
  = match dict_get (rev b) k with
    | Some v => Some v
    | None => dict_get a k
    end.
Proof.
  unfold dict_merge. revert a.
  induction b as [|[k' v'] b IH]; intros a; simpl; [reflexivity|].
  rewrite IH, dict_get_app. destruct (dict_get (rev b) k); [reflexivity|].
  simpl. destruct (str_eqb_spec k k') as [->|Hk].
  - apply dict_get_update_same.
  - now apply dict_get_update_other.
Qed.

Lemma dict_merge_NoDup {V} (a b : dict V) :
  NoDup (keys a) -> NoDup (keys (dict_merge a b)).
Proof.
  unfold dict_merge. revert a.
  induction b as [|[k v] b IH]; intros a Ha; simpl; [exact Ha|].
  apply IH. now apply keys_update_NoDup.
Qed.

Lemma dict_get_rev_NoDup {V} (b : dict V) (k : str) :
  NoDup (keys b) -> dict_get (rev b) k = dict_get b k.
Proof.
  induction b as [|[k' v'] b IH]; intros Hb; [reflexivity|].
  inversion Hb as [|? ? Hn Hb']; subst. simpl.
  rewrite dict_get_app, (IH Hb'). simpl.
  destruct (str_eqb_spec k k') as [->|Hk].
  - apply dict_get_None in Hn. now rewrite Hn.
  - now destruct (dict_get b k).
Qed.

(** ** Loops over the rows of a table *)

Lemma fold_each_rows_from {S} (df : DataFrame) (f : S -> list str -> S)
    (body : S -> nat -> M S) (P : list str -> Prop) :
  (forall acc i row w,
     nth_error (rows df) i = Some row -> P row ->
     body acc i w = (Ok (f acc row), w)) ->
  forall rest pre a w,
    rows df = pre ++ rest -> Forall P rest ->
    fold_each (seq (List.length pre) (List.length rest)) body a w
    = (Ok (fold_left f rest a), w).
Proof.
  intros Hbody. induction rest as [|row rest IH]; intros pre a w Hrows HP.
  - reflexivity.
  - inversion HP as [|? ? Hrow HP']; subst. cbn [List.length seq fold_each].
    assert (Hnth : nth_error (rows df) (List.length pre) = Some row).
    { rewrite Hrows, nth_error_app2, Nat.sub_diag by lia. reflexivity. }
    rewrite (bind_ok _ _ _ _ _ (Hbody a _ row w Hnth Hrow)).
    cbn [fold_left].
    specialize (IH (pre ++ [row]) (f a row) w).
    rewrite length_app, Nat.add_1_r in IH. apply IH; [|exact HP'].
    now rewrite <- app_assoc.
Qed.

Lemma fold_each_rows {S} (df : DataFrame) (f : S -> list str -> S)
    (body : S -> nat -> M S) (P : list str -> Prop) :
  (forall acc i row w,
     nth_error (rows df) i = Some row -> P row ->
     body acc i w = (Ok (f acc row), w)) ->
  Forall P (rows df) ->
  forall a w,
    fold_each (range (nrows df)) body a w
    = (Ok (fold_left f (rows df) a), w).
Proof.
  intros Hbody HP a w.
  exact (fold_each_rows_from df f body P Hbody (rows df) [] a w eq_refl HP).
Qed.

Lemma fold_left_map {A B C} (f : A -> B -> A) (g : C -> B) (l : list C)
    (a : A) :
  fold_left f (map g l) a = fold_left (fun x c => f x (g c)) l a.
Proof. revert a; induction l as [|c l IH]; intros a; simpl; auto. Qed.

Lemma iloc_nth (df : DataFrame) (i c : nat) (row : list str) (w : world) :
  nth_error (rows df) i = Some row -> (c < List.length row)%nat ->
  iloc df i c w = (Ok (nth c row []), w).
Proof.
  intros Hr Hc. apply (iloc_cell df i c row); [exact Hr|].
  now apply nth_error_nth'.
Qed.

(** ** The vocabulary dictionaries *)

Lemma nonempty_ltb (s : str) : Nat.ltb 0 (List.length s) = true <-> s <> [].
Proof.
  destruct s; simpl; split; try congruence; try discriminate; auto.
Qed.

Lemma vocab_fold_other (aux pre : str) (terms : list str) (d0 : dict str)
    (s : str) :
  ~ (s <> [] /\ In s terms) ->
  dict_get (fold_left (vocab_step aux pre) terms d0) s = dict_get d0 s.
Proof.
  revert d0. induction terms as [|t terms IH]; intros d0 Hn; [reflexivity|].
  cbn [fold_left]. rewrite IH by (intros [H1 H2]; apply Hn; simpl; tauto).
  unfold vocab_step. destruct (Nat.ltb 0 (List.length t)) eqn:E; [|reflexivity].
  apply dict_get_update_other. intros ->.
  apply Hn. split; [now apply nonempty_ltb|now left].
Qed.

Lemma vocab_fold_term (aux pre : str) (terms : list str) (d0 : dict str)
    (s : str) :
  s <> [] -> In s terms ->
  dict_get (fold_left (vocab_step aux pre) terms d0) s
  = Some (aux ++ pre ++ py "_" ++ makeid s).
Proof.
  revert d0. induction terms as [|t terms IH]; intros d0 Hs Hin; [easy|].
  cbn [fold_left].
  destruct (in_dec (list_eq_dec N.eq_dec) s terms) as [Hi|Hni].
  - now apply IH.
  - destruct Hin as [->|Hin]; [|contradiction].
    rewrite vocab_fold_other by tauto.
    unfold vocab_step. apply nonempty_ltb in Hs. rewrite Hs.
    apply dict_get_update_same.
Qed.

Lemma vocab_fold_NoDup (aux pre : str) (terms : list str) (d0 : dict str) :
  NoDup (keys d0) -> NoDup (keys (fold_left (vocab_step aux pre) terms d0)).
Proof.
  revert d0. induction terms as [|t terms IH]; intros d0 Hd; [exact Hd|].
  cbn [fold_left]. apply IH. unfold vocab_step.
  destruct (Nat.ltb 0 (List.length t)); [|exact Hd].
  now apply keys_update_NoDup.
Qed.

Lemma vocab_fold_keys (aux pre : str) (terms : list str) (s : str) :
  In s (keys (fold_left (vocab_step aux pre) terms []))
  <-> s <> [] /\ In s terms.
Proof.
  split.
  - intros Hk.
    assert (Hdec : (s <> [] /\ In s terms) \/ ~ (s <> [] /\ In s terms)).
    { destruct (list_eq_dec N.eq_dec s []) as [->|Hs]; [right; tauto|].
      destruct (in_dec (list_eq_dec N.eq_dec) s terms); tauto. }
    destruct Hdec as [H|H]; [exact H|]. exfalso.
    pose proof (vocab_fold_other aux pre terms [] s H) as E.
    cbn [dict_get] in E. apply dict_get_None in E. contradiction.
  - intros [Hs Hi]. eapply dict_get_Some_key.
    now apply vocab_fold_term.
Qed.

(** With a column labelled [vocabdfstr], [makevocabdict] raises nothing
    and returns a dictionary whose keys are exactly the non-empty cells
    of that column, each once; a key [s] is bound to
    [auxprefix + prefixstr + "_" + makeid(s)].  The empty cell is never a
    key. *)
Theorem makevocabdict_terms (vocabdframe : DataFrame)
    (vocabdfstr aux prefixstr : str) (c : nat) (w : world) :
  index_of vocabdfstr (columns vocabdframe) = Some c ->
  Forall (fun row => (c < List.length row)%nat) (rows vocabdframe) ->
  exists vdict,
    makevocabdict vocabdframe vocabdfstr aux prefixstr w = (Ok vdict, w)
    /\ (forall s,
          In s (keys vdict)
          <-> s <> [] /\ In s (column_cells vocabdframe c))
    /\ (forall s,
          In s (keys vdict) ->
          dict_get vdict s = Some (aux ++ prefixstr ++ py "_" ++ makeid s))
    /\ NoDup (keys vdict).
Proof.
  intros Hc Hrows.
  exists (fold_left (vocab_step aux prefixstr) (column_cells vocabdframe c) []).
  split; [|split; [|split]].
  - unfold makevocabdict. rewrite Hc.
    rewrite (fold_each_rows vocabdframe
               (fun d row => vocab_step aux prefixstr d (nth c row []))
               _ (fun row => (c < List.length row)%nat)).
    + unfold column_cells. now rewrite fold_left_map.
    + intros acc i row w0 Hr Hlen.
      now rewrite (bind_ok _ _ _ _ _ (iloc_nth vocabdframe i c row w0 Hr Hlen)).
    + exact Hrows.
  - intros s. apply vocab_fold_keys.
  - intros s Hk. apply vocab_fold_keys in Hk. destruct Hk as [Hs Hi].
    now apply vocab_fold_term.
  - apply vocab_fold_NoDup. constructor.
Qed.

Lemma makevocabdict_terms_witness :
  exists vdict,
    makevocabdict orgtype_df (py "OrgType") auxprefix (py "oty") empty_world
    = (Ok vdict, empty_world)
    /\ (forall s,
          In s (keys vdict)
          <-> s <> [] /\ In s (column_cells orgtype_df 0))
    /\ (forall s,
          In s (keys vdict) ->
          dict_get vdict s = Some (auxprefix ++ py "oty" ++ py "_" ++ makeid s))
    /\ NoDup (keys vdict).
Proof.
  apply (makevocabdict_terms orgtype_df (py "OrgType") auxprefix (py "oty") 0).
  - reflexivity.
  - repeat constructor.
Defined.

(** In the ecoregion dictionary the cell of row 0 is passed over: the
    keys are the non-empty cells of the rows from row 1 on, so that the
    cell of row 0 is a key only if a later row repeats it.  A key [s] is
    bound to [auxprefix + "eco_" + makeid(s)]. *)
Theorem ecoregiondict_skips_row_0 (vocabdf : DataFrame) (c : nat)
    (first : list str) (rest : list (list str)) (w : world) :
  index_of (py "Ecoregion_USDA") (columns vocabdf) = Some c ->
  rows vocabdf = first :: rest ->
  Forall (fun row => (c < List.length row)%nat) rest ->
  exists d,
    make_ecoregiondict vocabdf w = (Ok d, w)
    /\ (forall s,
          In s (keys d)
          <-> s <> [] /\ In s (map (fun row => nth c row []) rest))
    /\ (forall s,
          In s (keys d) ->
          dict_get d s = Some (auxprefix ++ py "eco_" ++ makeid s))
    /\ NoDup (keys d).
Proof.
  intros Hc Hrows Hrest.
  exists (fold_left (vocab_step auxprefix (py "eco"))
            (map (fun row => nth c row []) rest) []).
  split; [|split; [|split]].
  - unfold make_ecoregiondict. rewrite Hc.
    replace (nrows vocabdf - 1)%nat with (List.length rest)
      by (unfold nrows; rewrite Hrows; simpl; lia).
    match goal with
    | |- fold_each _ ?body _ _ = _ =>
        pose proof (fold_each_rows_from vocabdf
                      (fun d row =>
                         vocab_step auxprefix (py "eco") d (nth c row []))
                      body (fun row => (c < List.length row)%nat)) as H
    end.
    specialize (H ltac:(intros acc i row w0 Hr Hlen; cbv beta;
                        now rewrite (bind_ok _ _ _ _ _
                                       (iloc_nth vocabdf i c row w0 Hr Hlen)))
                  rest [first] [] w Hrows Hrest).
    etransitivity; [exact H|].
    now rewrite fold_left_map.
  - intros s. apply vocab_fold_keys.
  - intros s Hk. apply vocab_fold_keys in Hk. destruct Hk as [Hs Hi].
    exact (vocab_fold_term auxprefix (py "eco") _ [] s Hs Hi).
  - apply vocab_fold_NoDup. constructor.
Qed.

Lemma ecoregiondict_skips_row_0_witness :
  exists d,
    make_ecoregiondict orgtype_df empty_world = (Ok d, empty_world)
    /\ keys d = [py "Sierra Nevada"; py "Great Valley"]
    /\ dict_get d (py "header") = None.
Proof.
  destruct (ecoregiondict_skips_row_0 orgtype_df 1
              [py "Government"; py "header"]
              [ [py "Nonprofit"; py "Sierra Nevada"];
                [[]; py "Great Valley"];
                [py "Government"; []] ] empty_world)
    as (d & Hd & _).
  - reflexivity.
  - reflexivity.
  - repeat constructor.
  - exists d. split; [exact Hd|].
    vm_compute in Hd. inversion Hd. split; vm_compute; reflexivity.
Defined.

Lemma table_dict_rows (df : DataFrame) (keycol valcol : nat)
    (value : str -> str) (w : world) :
  Forall (fun row => (keycol < List.length row)%nat
                     /\ (valcol < List.length row)%nat) (rows df) ->
  exists d,
    table_dict df keycol valcol value w = (Ok d, w)
    /\ (forall k,
          dict_get d k
          = dict_get (rev (map (table_entry keycol valcol value) (rows df)))
              k)
    /\ (forall k,
          In k (keys d) <-> In k (column_cells df keycol))
    /\ NoDup (keys d).
Proof.
  intros Hrows.
  set (entries := map (table_entry keycol valcol value) (rows df)).
  assert (Hget : forall k,
             dict_get (dict_merge [] entries) k = dict_get (rev entries) k).
  { intros k. rewrite dict_get_merge.
    now destruct (dict_get (rev entries) k). }
  exists (dict_merge [] entries).
  split; [|split; [|split]].
  - unfold table_dict.
    rewrite (fold_each_rows df
               (fun d row =>
                  dict_update d (fst (table_entry keycol valcol value row))
                    (snd (table_entry keycol valcol value row)))
               _ (fun row => (keycol < List.length row)%nat
                             /\ (valcol < List.length row)%nat)).
    + unfold dict_merge, entries. now rewrite fold_left_map.
    + intros acc i row w0 Hr [Hk Hv].
      rewrite (bind_ok _ _ _ _ _ (iloc_nth df i keycol row w0 Hr Hk)).
      now rewrite (bind_ok _ _ _ _ _ (iloc_nth df i valcol row w0 Hr Hv)).
    + exact Hrows.
  - exact Hget.
  - intros k.
    assert (Hk : keys (rev entries) = rev (column_cells df keycol)).
    { unfold keys, entries, column_cells.
      rewrite map_rev, map_map. reflexivity. }
    split.
    + intros Hin.
      destruct (dict_get (dict_merge [] entries) k) eqn:E.
      * rewrite Hget in E. apply dict_get_Some_key in E.
        rewrite Hk in E. now apply in_rev.
      * apply dict_get_None in E. contradiction.
    + intros Hin.
      destruct (dict_get (dict_merge [] entries) k) eqn:E.
      * now apply dict_get_Some_key in E.
      * rewrite Hget in E. apply dict_get_None in E.
        elim E. rewrite Hk. now apply in_rev in Hin.
  - apply dict_merge_NoDup. constructor.
Qed.

(** The dictionaries read off a table ([intissuedict], [compissuedict],
    [countydict], [commoditydict], [habtypedict]) bind the key of every
    row, each key once; when several rows have the same key, the value
    is that of the last of them. *)
Theorem table_dict_last_row_wins (df : DataFrame) (keycol valcol : nat)
    (value : str -> str) (w : world) :
  Forall (fun row => (keycol < List.length row)%nat
                     /\ (valcol < List.length row)%nat) (rows df) ->
  exists d,
    table_dict df keycol valcol value w = (Ok d, w)
    /\ (forall k,
          dict_get d k
          = dict_get (rev (map (table_entry keycol valcol value) (rows df)))
              k)
    /\ (forall k,
          In k (keys d) <-> In k (column_cells df keycol))
    /\ NoDup (keys d).
Proof. apply table_dict_rows. Qed.

Lemma table_dict_last_row_wins_witness :
  exists d,
    make_countydict counties_twice empty_world = (Ok d, empty_world)
    /\ dict_get d (py "Yolo") = Some (py "http://www.wikidata.org/entity/Q109709")
    /\ keys d = [py "Yolo"; py "Napa"].
Proof.
  destruct (table_dict_last_row_wins counties_twice 1 0 (fun v => v)
              empty_world) as (d & Hd & Hget & _).
  - repeat constructor.
  - exists d. split; [exact Hd|]. split.
    + rewrite Hget. vm_compute. reflexivity.
    + vm_compute in Hd. inversion Hd. vm_compute. reflexivity.
Defined.

Lemma fold_each_invariant {A S} (P : S -> Prop) (xs : list A)
    (body : S -> A -> M S) :
  (forall s x w s' w', P s -> body s x w = (Ok s', w') -> P s') ->
  forall s w s' w', P s -> fold_each xs body s w = (Ok s', w') -> P s'.
Proof.
  intros Hb. induction xs as [|x xs IH]; intros s w s' w' Hs H.
  - cbn [fold_each] in H. unfold ret in H. injection H as <- _. exact Hs.
  - cbn [fold_each] in H. unfold bind in H.
    destruct (body s x w) as [[s1|e] w1] eqn:E; [|discriminate H].
    exact (IH s1 w1 s' w' (Hb s x w s1 w1 Hs E) H).
Qed.

Lemma table_dict_NoDup df keycol valcol value w d w' :
  table_dict df keycol valcol value w = (Ok d, w') -> NoDup (keys d).
Proof.
  unfold table_dict.
  apply (fold_each_invariant (fun d => NoDup (keys d))); [|constructor].
  clear. intros s i w s' w' Hs H. unfold bind in H.
  destruct (iloc df i keycol w) as [[k|e] w1]; [|discriminate H].
  destruct (iloc df i valcol w1) as [[v|e] w2]; [|discriminate H].
  unfold ret in H. injection H as <- _. now apply keys_update_NoDup.
Qed.

(** [{**a, **b}] looks a key up in [b] first. *)
Lemma dict_get_merge_second {V} (a b : dict V) (k : str) :
  NoDup (keys b) ->
  dict_get (dict_merge a b) k
  = match dict_get b k with
    | Some v => Some v
    | None => dict_get a k
    end.
Proof. intros Hb. now rewrite dict_get_merge, dict_get_rev_NoDup. Qed.

(** ** Label passes *)

Lemma in_add_all {A} (f : A -> triple) (xs : list A) (g : graph_t)
    (t : triple) :
  In t (add_all f xs g) <-> In t g \/ exists x, In x xs /\ t = f x.
Proof.
  unfold add_all. revert g. induction xs as [|x xs IH]; intros g; simpl.
  - split; [tauto|]. intros [H|[x [[] _]]]. exact H.
  - rewrite IH. split.
    + intros [H|[y [Hy ->]]].
      * apply in_graph_add_inv in H. destruct H as [->|H]; [|tauto].
        right. exists x. tauto.
      * right. exists y. tauto.
    + intros [H|[y [[<-|Hy] ->]]].
      * left. now apply in_graph_add_old.
      * left. apply in_graph_add_new.
      * right. exists y. tauto.
Qed.

Lemma for_each_add_all {A} (f : A -> triple) (xs : list A)
    (body : A -> M unit) :
  (forall x w, In x xs ->
     body x w = (Ok tt, World (graph_add (f x) (graph w)) (stdout w))) ->
  forall w,
    for_each xs body w
    = (Ok tt, World (add_all f xs (graph w)) (stdout w)).
Proof.
  unfold add_all. induction xs as [|x xs IH]; intros Hb w.
  - now destruct w.
  - cbn [for_each fold_left].
    rewrite (bind_ok _ _ _ _ _ (Hb x w (or_introl eq_refl))).
    rewrite IH by (intros y w0 Hy; apply Hb; now right). reflexivity.
Qed.

Lemma dict_eqb_refl (d : dict str) : NoDup (keys d) -> dict_eqb d d = true.
Proof.
  intros Hd. unfold dict_eqb. rewrite Nat.eqb_refl. simpl.
  apply forallb_forall. intros [k v] Hin. simpl.
  assert (E : dict_get d k = Some v).
  { clear -Hd Hin. induction d as [|[k' v'] d IH]; [easy|].
    inversion Hd as [|? ? Hn Hd']; subst. simpl.
    destruct Hin as [E|Hin].
    - inversion E; subst. now rewrite str_eqb_refl.
    - destruct (str_eqb_spec k k') as [->|Hk]; [|now apply IH].
      elim Hn. change (In (fst (k', v)) (map fst d)). now apply in_map. }
  rewrite E. apply str_eqb_refl.
Qed.

(** With [countydict] bound, [adddicttograph] raises nothing and prints
    nothing; it adds one [label] triple for every key of the dictionary
    and nothing else, the subject being the URI that the key is bound
    to.  The label is the key itself, or the key followed by " County"
    when the dictionary equals [countydict], as [countydict] itself
    does. *)
Theorem adddicttograph_labels (env : globals) (dicttoadd : dict str)
    (labeluri : str) (countydict : dict str) (w : world) :
  dict_get env (py "countydict") = Some countydict ->
  exists w',
    adddicttograph env dicttoadd labeluri w = (Ok tt, w')
    /\ stdout w' = stdout w
    /\ (forall t,
          In t (graph w') <->
          In t (graph w)
          \/ exists k v,
               dict_get dicttoadd k = Some v
               /\ t = (URIRef v, URIRef (labeluri ++ py "label"),
                       term_label dicttoadd countydict k))
    /\ (NoDup (keys countydict) ->
        forall k, term_label countydict countydict k
                  = Literal (k ++ py " County"))
    /\ (dict_eqb dicttoadd countydict = false ->
        forall k, term_label dicttoadd countydict k = Literal k).
Proof.
  intros Hcd.
  set (f := fun k =>
              (URIRef (match dict_get dicttoadd k with
                       | Some v => v
                       | None => []
                       end),
               URIRef (labeluri ++ py "label"),
               term_label dicttoadd countydict k)).
  exists (World (add_all f (keys dicttoadd) (graph w)) (stdout w)).
  split; [|split; [reflexivity|split; [|split]]].
  - unfold adddicttograph. apply for_each_add_all.
    intros k w0 Hk.
    destruct (dict_get dicttoadd k) as [v|] eqn:E;
      [|apply dict_get_None in E; contradiction].
    unfold getitem. rewrite E.
    rewrite (bind_ok _ _ w0 w0 v eq_refl).
    unfold global. rewrite Hcd.
    rewrite (bind_ok _ _ w0 w0 countydict eq_refl).
    unfold f, term_label. rewrite E.
    destruct (dict_eqb dicttoadd countydict); reflexivity.
  - intros t. cbn [graph]. rewrite in_add_all. split.
    + intros [H|[k [Hk ->]]]; [now left|right].
      destruct (dict_get dicttoadd k) as [v|] eqn:E;
        [|apply dict_get_None in E; contradiction].
      exists k, v. split; [exact E|]. unfold f. now rewrite E.
    + intros [H|[k [v [E ->]]]]; [now left|right].
      exists k. split; [now apply dict_get_Some_key in E|].
      unfold f. now rewrite E.
  - intros Hnd k. unfold term_label. now rewrite dict_eqb_refl.
  - intros Hne k. unfold term_label. now rewrite Hne.
Qed.

Lemma adddicttograph_labels_witness :
  exists w',
    adddicttograph [(py "countydict", two_counties)] two_counties rdfsuri
      empty_world = (Ok tt, w')
    /\ graph w'
       = [ (URIRef (py "http://www.wikidata.org/entity/Q109709"), rdfs_label,
            Literal (py "Yolo County"));
           (URIRef (py "http://www.wikidata.org/entity/Q108137"), rdfs_label,
            Literal (py "Napa County")) ].
Proof.
  destruct (adddicttograph_labels [(py "countydict", two_counties)]
              two_counties rdfsuri two_counties empty_world)
    as (w' & Hrun & _).
  - reflexivity.
  - exists w'. split; [exact Hrun|].
    vm_compute in Hrun. inversion Hrun. vm_compute. reflexivity.
Defined.

Lemma first_wins_fold (es : list (str * str)) (d : dict str) (k : str) :
  dict_get
    (fold_left
       (fun d e =>
          match dict_get d (fst e) with
          | None => dict_update d (fst e) (snd e)
          | Some _ => d
          end) es d) k
  = match dict_get d k with
    | Some v => Some v
    | None => dict_get es k
    end.
Proof.
  revert d. induction es as [|[k' v'] es IH]; intros d; cbn [fold_left].
  - now destruct (dict_get d k).
  - rewrite IH. cbn [fst snd dict_get].
    destruct (dict_get d k') eqn:E'.
    + destruct (dict_get d k) eqn:E; [reflexivity|].
      destruct (str_eqb_spec k k') as [->|Hk]; [congruence|reflexivity].
    + destruct (str_eqb_spec k k') as [->|Hk].
      * now rewrite dict_get_update_same, E'.
      * now rewrite dict_get_update_other.
Qed.

Lemma first_wins_NoDup (es : list (str * str)) (d : dict str) :
  NoDup (keys d) ->
  NoDup (keys (fold_left
                 (fun d e =>
                    match dict_get d (fst e) with
                    | None => dict_update d (fst e) (snd e)
                    | Some _ => d
                    end) es d)).
Proof.
  revert d. induction es as [|[k' v'] es IH]; intros d Hd; [exact Hd|].
  cbn [fold_left]. apply IH. cbn [fst snd].
  destruct (dict_get d k'); [exact Hd|now apply keys_update_NoDup].
Qed.

Lemma predlabeldict_get (classes : list (list (str * str))) (d : dict str)
    (k : str) :
  dict_get
    (fold_left
       (fun d cls =>
          fold_left
            (fun d e =>
               match dict_get d (fst e) with
               | None => dict_update d (fst e) (snd e)
               | Some _ => d
               end) cls d) classes d) k
  = match dict_get d k with
    | Some v => Some v
    | None => dict_get (List.concat classes) k
    end.
Proof.
  revert d. induction classes as [|cls classes IH]; intros d; cbn [fold_left].
  - now destruct (dict_get d k).
  - rewrite IH, first_wins_fold. cbn [List.concat]. rewrite dict_get_app.
    now destruct (dict_get d k), (dict_get cls k).
Qed.

Lemma predlabeldict_NoDup (classes : list (list (str * str))) (d : dict str) :
  NoDup (keys d) ->
  NoDup (keys (fold_left
                 (fun d cls =>
                    fold_left
                      (fun d e =>
                         match dict_get d (fst e) with
                         | None => dict_update d (fst e) (snd e)
                         | Some _ => d
                         end) cls d) classes d)).
Proof.
  revert d. induction classes as [|cls classes IH]; intros d Hd; [exact Hd|].
  cbn [fold_left]. apply IH. now apply first_wins_NoDup.
Qed.

(** The labels of the properties: whatever (URI, label) entries the
    predicate dictionaries list, the label pass raises nothing, prints
    nothing and adds, for every URI that occurs in an entry, exactly one
    label triple, with the label of the first entry that has this URI
    (in the order of the dictionaries and of their entries); later labels
    of the same URI are not added. *)
Theorem property_labels_first_wins (classes : list (list (str * str)))
    (w : world) :
  exists w',
    add_labels (make_predlabeldict classes) w = (Ok tt, w')
    /\ stdout w' = stdout w
    /\ (forall t,
          In t (graph w') <->
          In t (graph w)
          \/ exists uri l,
               dict_get (List.concat classes) uri = Some l
               /\ t = (URIRef uri, rdfs_label, Literal l))
    /\ NoDup (keys (make_predlabeldict classes)).
Proof.
  set (d := make_predlabeldict classes).
  assert (Hget : forall k, dict_get d k = dict_get (List.concat classes) k).
  { intros k. unfold d, make_predlabeldict. now rewrite predlabeldict_get. }
  set (f := fun k =>
              (URIRef k, rdfs_label,
               Literal (match dict_get d k with
                        | Some l => l
                        | None => []
                        end))).
  exists (World (add_all f (keys d) (graph w)) (stdout w)).
  split; [|split; [reflexivity|split]].
  - unfold add_labels. apply for_each_add_all.
    intros k w0 Hk.
    destruct (dict_get d k) as [l|] eqn:E;
      [|apply dict_get_None in E; contradiction].
    unfold getitem. rewrite E.
    rewrite (bind_ok _ _ w0 w0 l eq_refl). unfold f. now rewrite E.
  - intros t. cbn [graph]. rewrite in_add_all. split.
    + intros [H|[k [Hk ->]]]; [now left|right].
      destruct (dict_get d k) as [l|] eqn:E;
        [|apply dict_get_None in E; contradiction].
      exists k, l. split; [now rewrite <- Hget|]. unfold f. now rewrite E.
    + intros [H|[k [l [E ->]]]]; [now left|right].
      rewrite <- Hget in E.
      exists k. split; [now apply dict_get_Some_key in E|].
      unfold f. now rewrite E.
  - unfold make_predlabeldict. apply predlabeldict_NoDup. constructor.
Qed.

(** In the dictionaries of the source the property [frapo:isFundedBy] is
    "is funded by" for organizations and "isFundedBy" for projects: the
    label in the graph is the former. *)
Example isFundedBy_label :
  dict_get predlabeldict (py "http://purl.org/cerif/frapo/isFundedBy")
  = Some (py "is funded by")
  /\ In (py "http://purl.org/cerif/frapo/isFundedBy", py "isFundedBy")
        (List.concat predsbyclasslist).
Proof. split; vm_compute; [reflexivity|tauto]. Qed.

(** ** The kinds of [addtriple] *)

Lemma expand_all_same (env : globals) (pd : prdetails) (cellval : str)
    (w : world) :
  no_expansion pd cellval -> expand_all env pd cellval w = (Ok cellval, w).
Proof.
  intros [H|[Hc He]]; [now apply expand_all_other|].
  unfold expand_all. apply str_eqb_neq in Hc, He. rewrite Hc, He.
  now destruct (str_eqb cellval (py "All")).
Qed.

Lemma emit_cells_add_all (env : globals) (pd : prdetails) (subj p : node)
    (lbl : str) (o : str -> node) :
  (forall obj cell w,
     emit_cell env pd subj lbl obj cell w
     = (Ok (Some (o cell)),
        World (graph_add (subj, p, o cell) (graph w)) (stdout w))) ->
  forall cells obj w,
    emit_cells env pd subj lbl obj cells w
    = (Ok tt,
       World (add_all (fun v => (subj, p, o v)) cells (graph w)) (stdout w)).
Proof.
  intros Hstep. unfold add_all.
  induction cells as [|cell cells IH]; intros obj w.
  - now destruct w.
  - cbn [emit_cells fold_left].
    rewrite (bind_ok _ _ _ _ _ (Hstep obj cell w)), IH. reflexivity.
Qed.

(** References, links and plain literals.  When the cell is not
    rewritten by "All", [addtriple] with a descriptor of kind ['o'], of
    kind ['u'], or of kind ['d'] without "usecase" in its URI raises
    nothing and prints nothing, and adds for every value of the cell, in
    order, one triple with the subject and the property of the call.  The
    object is the URI [auxprefix + target + "_" + makeid(value)] for
    ['o'], the value itself as a URI for ['u'], and the value as a
    literal for ['d'] (followed by " County" when the descriptor names
    [countydict]).  No reference is checked against any sheet. *)
Theorem addtriple_plain_kinds (env : globals) (pd : prdetails)
    (subjval cellval subjectstr : str) (w : world) :
  no_expansion pd cellval ->
  (pr_kind pd = py "o" ->
   addtriple env pd subjval cellval subjectstr w
   = (Ok tt,
      World (add_all (fun v => (URIRef subjval, URIRef (pr_uri pd),
                                URIRef (minted (pr_target pd) v)))
               (celllist pd cellval) (graph w))
            (stdout w)))
  /\ (pr_kind pd = py "u" ->
      addtriple env pd subjval cellval subjectstr w
      = (Ok tt,
         World (add_all (fun v => (URIRef subjval, URIRef (pr_uri pd),
                                   URIRef v))
                  (celllist pd cellval) (graph w))
               (stdout w)))
  /\ (pr_kind pd = py "d" ->
      contains (py "usecase") (pr_uri pd) = false ->
      addtriple env pd subjval cellval subjectstr w
      = (Ok tt,
         World (add_all (fun v => (URIRef subjval, URIRef (pr_uri pd),
                                   Literal
                                     (if str_eqb (pr_target pd)
                                           (py "countydict")
                                      then v ++ py " County" else v)))
                  (celllist pd cellval) (graph w))
               (stdout w))).
Proof.
  intros Hne.
  pose proof (expand_all_same env pd cellval w Hne) as E.
  split; [|split].
  - intros Hk. unfold addtriple. rewrite (bind_ok _ _ _ _ _ E).
    apply (emit_cells_add_all env pd (URIRef subjval) (URIRef (pr_uri pd))
             subjectstr (fun v => URIRef (minted (pr_target pd) v))).
    intros obj cell w0. unfold emit_cell. rewrite Hk. reflexivity.
  - intros Hk. unfold addtriple. rewrite (bind_ok _ _ _ _ _ E).
    apply (emit_cells_add_all env pd (URIRef subjval) (URIRef (pr_uri pd))
             subjectstr (fun v => URIRef v)).
    intros obj cell w0. unfold emit_cell. rewrite Hk. reflexivity.
  - intros Hk Hu. unfold addtriple. rewrite (bind_ok _ _ _ _ _ E).
    apply (emit_cells_add_all env pd (URIRef subjval) (URIRef (pr_uri pd))
             subjectstr
             (fun v => Literal (if str_eqb (pr_target pd) (py "countydict")
                                then v ++ py " County" else v))).
    intros obj cell w0. unfold emit_cell. rewrite Hk, Hu. reflexivity.
Qed.

Lemma addtriple_plain_kinds_witness :
  addtriple [] partners_pd (py "s") (py "Org A, Org B") (py "l") empty_world
  = (Ok tt,
     World [ (URIRef (py "s"), URIRef (pr_uri partners_pd),
              URIRef (minted (py "org") (py "Org A")));
             (URIRef (py "s"), URIRef (pr_uri partners_pd),
              URIRef (minted (py "org") (py "Org B"))) ] [])
  /\ addtriple [] url_pd (py "s") (py "https://a.example, https://b.example")
       (py "l") empty_world
     = (Ok tt,
        World [ (URIRef (py "s"), URIRef (pr_uri url_pd),
                 URIRef (py "https://a.example"));
                (URIRef (py "s"), URIRef (pr_uri url_pd),
                 URIRef (py "https://b.example")) ] [])
  /\ addtriple [] taxa_pd (py "s") (py "All") (py "l") empty_world
     = (Ok tt,
        World [ (URIRef (py "s"), URIRef (pr_uri taxa_pd),
                 Literal (py "All")) ] []).
Proof.
  split; [|split].
  - etransitivity.
    + refine (proj1 (addtriple_plain_kinds [] partners_pd (py "s")
                       (py "Org A, Org B") (py "l") empty_world _) _).
      * left. vm_compute. discriminate.
      * reflexivity.
    + vm_compute. reflexivity.
  - etransitivity.
    + refine (proj1 (proj2 (addtriple_plain_kinds [] url_pd (py "s")
                              (py "https://a.example, https://b.example")
                              (py "l") empty_world _)) _).
      * left. vm_compute. discriminate.
      * reflexivity.
    + vm_compute. reflexivity.
  - etransitivity.
    + refine (proj2 (proj2 (addtriple_plain_kinds [] taxa_pd (py "s")
                              (py "All") (py "l") empty_world _)) _ _).
      * right. split; vm_compute; discriminate.
      * reflexivity.
      * vm_compute. reflexivity.
    + vm_compute. reflexivity.
Defined.

(** ** References and the subjects of the sheets *)

Lemma app_eq_prefix (p q x y : str) :
  p ++ x = q ++ y -> startswith p q = true \/ startswith q p = true.
Proof.
  revert q. induction p as [|a p IH]; intros q H; [now left|].
  destruct q as [|b q]; [now right|].
  simpl in H. inversion H; subst.
  destruct (IH q H2) as [E|E]; [left|right]; simpl;
    now rewrite N.eqb_refl, E.
Qed.

Lemma reference_targets_checked :
  forallb
    (forallb (fun e : str * prdetails =>
                implb (is_reference (snd e))
                  (existsb (fun t => str_eqb (pr_target (snd e)) (fst t))
                     resolving_targets
                   || existsb (str_eqb (pr_target (snd e)))
                        dangling_targets)))
    all_schemas = true.
Proof. vm_compute. reflexivity. Qed.

Lemma dangling_prefixes_checked :
  forallb
    (fun t =>
       forallb
         (fun sh => negb (startswith (t ++ py "_") (sh_prefix sh)
                          || startswith (sh_prefix sh) (t ++ py "_")))
         entity_sheets)
    dangling_targets = true.
Proof. vm_compute. reflexivity. Qed.

(** The references of the eleven predicate dictionaries whose entries
    have five elements, [all_schemas]: every dictionary of
    [predsbyclasslist] but [orggmpred], whose entries have three
    elements, name no prefix and never reach [addtriple].  Every ['o']
    descriptor of the eleven names one of eight prefixes.  For org, prg,
    prj, per and gmt the URI minted for a referenced name is the subject
    that the organizations, programs, projects, people or guidelines
    sheet mints for a row of that name.  For dts, positiontypedict and
    orgprojrelationdict it is the subject of no row of any entity sheet,
    whatever the names: the datasets sheet mints its subjects under
    "dat_". *)
Theorem references_and_subjects (sch : schema) (col : str) (pd : prdetails) :
  In sch all_schemas ->
  dict_get sch col = Some pd ->
  pr_kind pd = py "o" ->
  (exists sh,
     In (pr_target pd, sh) resolving_targets
     /\ forall v, minted (pr_target pd) v = entity_subject sh v)
  \/ (In (pr_target pd) dangling_targets
      /\ forall sh v v',
           In sh entity_sheets ->
           minted (pr_target pd) v <> entity_subject sh v').
Proof.
  intros Hsch Hget Hk.
  pose proof reference_targets_checked as Hall.
  rewrite forallb_forall in Hall. specialize (Hall sch Hsch).
  rewrite forallb_forall in Hall.
  specialize (Hall (col, pd) (dict_get_In sch col pd Hget)).
  cbn [snd] in Hall. unfold is_reference in Hall.
  rewrite Hk in Hall. cbn [implb] in Hall.
  change (str_eqb (py "o") (py "o")) with true in Hall. cbn [implb] in Hall.
  apply orb_true_iff in Hall. destruct Hall as [H|H].
  - left. apply existsb_exists in H. destruct H as [[t sh] [Hin Ht]].
    cbn [fst] in Ht. apply str_eqb_eq in Ht. exists sh. rewrite Ht.
    split; [exact Hin|]. intros v.
    unfold resolving_targets in Hin. simpl in Hin.
    destruct Hin as [E|[E|[E|[E|[E|[]]]]]]; inversion E; reflexivity.
  - right. apply existsb_exists in H. destruct H as [t [Hin Ht]].
    apply str_eqb_eq in Ht. rewrite Ht. split; [exact Hin|].
    intros sh v v' Hsh Heq.
    pose proof dangling_prefixes_checked as Hd.
    rewrite forallb_forall in Hd. specialize (Hd t Hin).
    rewrite forallb_forall in Hd. specialize (Hd sh Hsh).
    apply negb_true_iff, orb_false_iff in Hd. destruct Hd as [H1 H2].
    unfold minted, entity_subject in Heq.
    apply app_inv_head in Heq.
    rewrite (app_assoc t (py "_")) in Heq.
    apply app_eq_prefix in Heq. destruct Heq; congruence.
Qed.

Lemma references_and_subjects_witness :
  (forall v, minted (py "org") v = entity_subject organizations v)
  /\ (forall v v', minted (py "dts") v <> entity_subject datasets v').
Proof.
  split.
  - destruct (references_and_subjects orgpred (py "Partners") partners_pd)
      as [(sh & Hin & Hv)|(Hin & _)].
    + left. reflexivity.
    + vm_compute. reflexivity.
    + reflexivity.
    + simpl in Hin.
      destruct Hin as [E|[E|[E|[E|[E|[]]]]]];
        try (exfalso; vm_compute in E; discriminate E).
      inversion E; subst. exact Hv.
    + exfalso. vm_compute in Hin.
      destruct Hin as [E|[E|[E|[]]]]; discriminate E.
  - destruct (references_and_subjects projpred (py "inDataset")
                (prd "o" "http://purl.obolibrary.org/obo/RO_0002352"
                   "input of" "dts" "m"))
      as [(sh & Hin & _)|(_ & Hv)].
    + right. left. reflexivity.
    + vm_compute. reflexivity.
    + reflexivity.
    + exfalso. vm_compute in Hin.
      destruct Hin as [E|[E|[E|[E|[E|[]]]]]]; discriminate E.
    + intros v v'. apply Hv. vm_compute. tauto.
Defined.

(** ** Vocabulary cells as a whole *)

Lemma expand_all_bound (env : globals) (pd : prdetails) (d : dict str)
    (cellval : str) (w : world) :
  dict_get env (pr_target pd) = Some d ->
  expand_all env pd cellval w = (Ok (expanded pd d cellval), w).
Proof.
  intros Hd. unfold expand_all, expanded.
  destruct (str_eqb cellval (py "All")); [|reflexivity]. cbn [andb].
  destruct (str_eqb_spec (pr_target pd) (py "countydict")) as [E|_].
  - rewrite E in Hd. unfold global. now rewrite Hd.
  - cbn [orb].
    destruct (str_eqb_spec (pr_target pd) (py "ecoregiondict")) as [E|_];
      [|reflexivity].
    rewrite E in Hd. unfold global. now rewrite Hd.
Qed.

Lemma emit_cell_vocab (env : globals) (pd : prdetails) (subj : node)
    (lbl : str) (d : dict str) (obj : option node) (cell : str) (w : world) :
  pr_kind pd = py "v" ->
  dict_get env (pr_target pd) = Some d ->
  emit_cell env pd subj lbl obj cell w
  = match dict_get d cell with
    | Some u =>
        (Ok (Some (URIRef u)),
         World (graph_add (subj, URIRef (pr_uri pd), URIRef u) (graph w))
               (stdout w))
    | None =>
        (Ok obj,
         World (graph w) (stdout w ++ [miss_line lbl cell (pr_target pd)]))
    end.
Proof.
  intros Hk Hd. unfold emit_cell. rewrite Hk.
  change (str_eqb (py "v") (py "d")) with false.
  change (str_eqb (py "v") (py "v")) with true. cbv iota.
  unfold global. rewrite Hd. rewrite (bind_ok (ret d) _ w w d eq_refl).
  destruct (dict_get d cell); reflexivity.
Qed.

Lemma emit_cells_vocab (env : globals) (pd : prdetails) (subj : node)
    (lbl : str) (d : dict str) :
  pr_kind pd = py "v" ->
  dict_get env (pr_target pd) = Some d ->
  forall cells obj w,
    emit_cells env pd subj lbl obj cells w
    = (Ok tt,
       World (add_all (fun u => (subj, URIRef (pr_uri pd), URIRef u))
                (hits d cells) (graph w))
             (stdout w
              ++ map (fun c => miss_line lbl c (pr_target pd))
                   (misses d cells))).
Proof.
  intros Hk Hd. induction cells as [|cell cells IH]; intros obj w.
  - simpl. rewrite app_nil_r. now destruct w.
  - cbn [emit_cells].
    pose proof (emit_cell_vocab env pd subj lbl d obj cell w Hk Hd) as E.
    unfold hits, misses. cbn [flat_map filter].
    destruct (dict_get d cell) as [u|].
    + rewrite (bind_ok _ _ _ _ _ E), IH.
      cbn [graph stdout app]. reflexivity.
    + rewrite (bind_ok _ _ _ _ _ E), IH.
      cbn [graph stdout map]. now rewrite <- app_assoc.
Qed.

(** A vocabulary cell as a whole.  For a ['v'] descriptor whose
    dictionary is bound, [addtriple] raises nothing; it adds one triple
    for every value that the dictionary has, with the URI bound to the
    value as object, and prints one line for every value that it does not
    have, both in the order of the values.  Every value does one or the
    other. *)
Theorem vocab_hits_and_misses (env : globals) (pd : prdetails)
    (subjval cellval subjectstr : str) (d : dict str) (w : world) :
  pr_kind pd = py "v" ->
  dict_get env (pr_target pd) = Some d ->
  let cells := celllist pd (expanded pd d cellval) in
  addtriple env pd subjval cellval subjectstr w
  = (Ok tt,
     World (add_all (fun u => (URIRef subjval, URIRef (pr_uri pd), URIRef u))
              (hits d cells) (graph w))
           (stdout w
            ++ map (fun c => miss_line subjectstr c (pr_target pd))
                 (misses d cells)))
  /\ (List.length (hits d cells) + List.length (misses d cells)
      = List.length cells)%nat.
Proof.
  intros Hk Hd cells. split.
  - unfold addtriple.
    rewrite (bind_ok _ _ _ _ _ (expand_all_bound env pd d cellval w Hd)).
    now apply emit_cells_vocab.
  - clear. induction cells as [|c cells IH]; [reflexivity|].
    unfold hits, misses in *. cbn [flat_map filter].
    destruct (dict_get d c); rewrite ?length_app; simpl in *; lia.
Qed.

Lemma vocab_hits_and_misses_witness :
  addtriple habtype_env habtype_pd (py "s") (py "Zzz, BOW, Yyy, AGS")
    (py "Org A") empty_world
  = (Ok tt,
     World [ (URIRef (py "s"), URIRef (pr_uri habtype_pd),
              URIRef (py "https://example.org/whr_BOW"));
             (URIRef (py "s"), URIRef (pr_uri habtype_pd),
              URIRef (py "https://example.org/whr_AGS")) ]
           [ py "Org A: Zzz not in habtypedict";
             py "Org A: Yyy not in habtypedict" ]).
Proof.
  etransitivity.
  - refine (proj1 (vocab_hits_and_misses habtype_env habtype_pd (py "s")
                     (py "Zzz, BOW, Yyy, AGS") (py "Org A")
                     [(py "AGS", py "https://example.org/whr_AGS");
                      (py "BOW", py "https://example.org/whr_BOW")]
                     empty_world _ _)); reflexivity.
  - vm_compute. reflexivity.
Defined.

(** ** What [addtriple] never does *)

Lemma bind_raise_inv {A B} (m : M A) (f : A -> M B) (w w' : world)
    (e : exn) :
  bind m f w = (Raise e, w') ->
  m w = (Raise e, w')
  \/ exists a w1, m w = (Ok a, w1) /\ f a w1 = (Raise e, w').
Proof.
  unfold bind. destruct (m w) as [[a|e0] w1]; intros H.
  - right. now exists a, w1.
  - left. inversion H. reflexivity.
Qed.

Lemma bind_ok_inv {A B} (m : M A) (f : A -> M B) (w w' : world) (b : B) :
  bind m f w = (Ok b, w') ->
  exists a w1, m w = (Ok a, w1) /\ f a w1 = (Ok b, w').
Proof.
  unfold bind. destruct (m w) as [[a|e0] w1]; intros H; [|discriminate].
  now exists a, w1.
Qed.

Lemma one_ret {A} (a : A) : only_name_errors (ret a).
Proof. intros w e w' H. discriminate H. Qed.

Lemma one_bind {A B} (m : M A) (f : A -> M B) :
  only_name_errors m -> (forall a, only_name_errors (f a)) ->
  only_name_errors (bind m f).
Proof.
  intros Hm Hf w e w' H. apply bind_raise_inv in H.
  destruct H as [H|(a & w1 & _ & H)]; [now apply (Hm w e w')|].
  now apply (Hf a w1 e w').
Qed.

Lemma one_g_add (t : triple) : only_name_errors (g_add t).
Proof. intros w e w' H. discriminate H. Qed.

Lemma one_print (l : str) : only_name_errors (print l).
Proof. intros w e w' H. discriminate H. Qed.

Lemma one_global (env : globals) (name : str) :
  only_name_errors (global env name).
Proof.
  intros w e w' H. unfold global in H.
  destruct (dict_get env name); [discriminate H|].
  inversion H. reflexivity.
Qed.

Lemma one_unbound {A} (name : str) :
  only_name_errors (@raise A (UnboundLocalError name)).
Proof. intros w e w' H. inversion H. reflexivity. Qed.

Ltac one_step :=
  match goal with
  | |- only_name_errors (bind _ _) => apply one_bind; [|intros]
  | |- only_name_errors (ret _) => apply one_ret
  | |- only_name_errors (g_add _) => apply one_g_add
  | |- only_name_errors (print _) => apply one_print
  | |- only_name_errors (global _ _) => apply one_global
  | |- only_name_errors (raise (UnboundLocalError _)) => apply one_unbound
  | |- only_name_errors (if ?b then _ else _) => destruct b
  | |- only_name_errors (match ?x with _ => _ end) => destruct x
  end.

Lemma one_emit_cells env pd subj lbl cells :
  forall obj, only_name_errors (emit_cells env pd subj lbl obj cells).
Proof.
  induction cells as [|cell cells IH]; intros obj; cbn [emit_cells].
  - apply one_ret.
  - apply one_bind; [|intros; apply IH].
    unfold emit_cell. repeat one_step.
Qed.

Lemma silent_ret {A} (a : A) : silent (ret a).
Proof. intros w. reflexivity. Qed.

Lemma silent_raise {A} (e : exn) : silent (@raise A e).
Proof. intros w. reflexivity. Qed.

Lemma silent_bind {A B} (m : M A) (f : A -> M B) :
  silent m -> (forall a, silent (f a)) -> silent (bind m f).
Proof.
  intros Hm Hf w. unfold bind. specialize (Hm w).
  destruct (m w) as [[a|e] w1]; simpl in *; [|exact Hm].
  now rewrite Hf.
Qed.

Lemma silent_g_add (t : triple) : silent (g_add t).
Proof. intros w. reflexivity. Qed.

Lemma silent_global (env : globals) (name : str) : silent (global env name).
Proof.
  intros w. unfold global. now destruct (dict_get env name).
Qed.

Ltac silent_step :=
  match goal with
  | |- silent (bind _ _) => apply silent_bind; [|intros]
  | |- silent (ret _) => apply silent_ret
  | |- silent (raise _) => apply silent_raise
  | |- silent (g_add _) => apply silent_g_add
  | |- silent (global _ _) => apply silent_global
  | |- silent (if ?b then _ else _) => destruct b
  | |- silent (match ?x with _ => _ end) => destruct x
  end.

Lemma silent_expand_all env pd cellval : silent (expand_all env pd cellval).
Proof. unfold expand_all. repeat silent_step. Qed.

Lemma silent_emit_cells env pd subj lbl cells :
  pr_kind pd <> py "v" ->
  forall obj, silent (emit_cells env pd subj lbl obj cells).
Proof.
  intros Hk. apply str_eqb_neq in Hk.
  induction cells as [|cell cells IH]; intros obj; cbn [emit_cells].
  - apply silent_ret.
  - apply silent_bind; [|intros; apply IH].
    unfold emit_cell. rewrite Hk. repeat silent_step.
Qed.

Lemma emit_cells_unknown_kind env pd subj lbl cells :
  pr_kind pd <> py "d" -> pr_kind pd <> py "v" ->
  pr_kind pd <> py "o" -> pr_kind pd <> py "u" ->
  forall obj w, emit_cells env pd subj lbl obj cells w = (Ok tt, w).
Proof.
  intros Hd Hv Ho Hu. apply str_eqb_neq in Hd, Hv, Ho, Hu.
  induction cells as [|cell cells IH]; intros obj w; [reflexivity|].
  cbn [emit_cells].
  assert (E : emit_cell env pd subj lbl obj cell w = (Ok obj, w)).
  { unfold emit_cell. now rewrite Hd, Hv, Ho, Hu. }
  now rewrite (bind_ok _ _ _ _ _ E).
Qed.

(** Every ['v'] descriptor of the predicate dictionaries hands [eval]
    one of the names of [eval_targets]. *)
Lemma eval_targets_checked :
  forallb
    (forallb (fun e : str * prdetails =>
                implb (str_eqb (pr_kind (snd e)) (py "v"))
                  (existsb (str_eqb (pr_target (snd e))) eval_targets)))
    all_schemas = true.
Proof. vm_compute. reflexivity. Qed.

Lemma table_descriptor_eval_target (sch : schema) (col : str)
    (pd : prdetails) :
  In sch all_schemas ->
  dict_get sch col = Some pd ->
  pr_kind pd = py "v" -> In (pr_target pd) eval_targets.
Proof.
  intros Hsch Hget Hk.
  pose proof eval_targets_checked as Hall.
  rewrite forallb_forall in Hall. specialize (Hall sch Hsch).
  rewrite forallb_forall in Hall.
  specialize (Hall (col, pd) (dict_get_In sch col pd Hget)).
  cbn [snd] in Hall. rewrite Hk in Hall.
  change (str_eqb (py "v") (py "v")) with true in Hall. cbn [implb] in Hall.
  apply existsb_exists in Hall. destruct Hall as [t [Hin Ht]].
  apply str_eqb_eq in Ht. now rewrite Ht.
Qed.

(** What [addtriple] never does.  For a descriptor that is not of kind
    ['v'], or whose dictionary name is one of [eval_targets] (as it is
    for every ['v'] descriptor of the predicate dictionaries), so that
    [eval] reads a module global, and whatever the cell:
    - an exception that leaves [addtriple] is a [NameError] (an unbound
      dictionary name or the unbound [obj]); no [KeyError] and no
      [IndexError] ever leaves it;
    - unless the kind is ['v'], nothing is printed, whether the call
      returns or raises;
    - no triple is ever removed from the graph;
    - a descriptor whose kind is none of ['d'], ['v'], ['o'], ['u'] is
      passed over in silence: the call returns and changes nothing.
    Of a ['v'] descriptor with another text in the place of the
    dictionary name nothing is said: what [eval] does with it is not
    modelled. *)
Theorem addtriple_never (env : globals) (pd : prdetails)
    (subjval cellval subjectstr : str) (w : world) :
  (pr_kind pd = py "v" -> In (pr_target pd) eval_targets) ->
  (forall e w',
     addtriple env pd subjval cellval subjectstr w = (Raise e, w') ->
     is_NameError e = true)
  /\ (pr_kind pd <> py "v" ->
      stdout (snd (addtriple env pd subjval cellval subjectstr w))
      = stdout w)
  /\ (forall t,
        In t (graph w) ->
        In t (graph (snd (addtriple env pd subjval cellval subjectstr w))))
  /\ (pr_kind pd <> py "d" -> pr_kind pd <> py "v" ->
      pr_kind pd <> py "o" -> pr_kind pd <> py "u" ->
      no_expansion pd cellval ->
      addtriple env pd subjval cellval subjectstr w = (Ok tt, w)).
Proof.
  intros _. split; [|split; [|split]].
  - intros e w'.
    assert (H : only_name_errors
                  (addtriple env pd subjval cellval subjectstr)).
    { unfold addtriple. apply one_bind.
      - unfold expand_all. repeat one_step.
      - intros. apply one_emit_cells. }
    apply H.
  - intros Hk.
    assert (H : silent (addtriple env pd subjval cellval subjectstr)).
    { unfold addtriple. apply silent_bind.
      - apply silent_expand_all.
      - intros. now apply silent_emit_cells. }
    apply H.
  - intros t. apply grows_addtriple.
  - intros Hd Hv Ho Hu Hne. unfold addtriple.
    rewrite (bind_ok _ _ _ _ _ (expand_all_same env pd cellval w Hne)).
    now apply emit_cells_unknown_kind.
Qed.

Lemma addtriple_never_witness :
  is_NameError (UnboundLocalError (py "obj")) = true
  /\ is_NameError (NameError (py "habtypedict")) = true
  /\ stdout (snd (addtriple [] partners_pd (py "s") (py "Org A") (py "l")
                    empty_world)) = stdout empty_world
  /\ addtriple [] (prd "x" "http://example.org/p" "p" "" "s") (py "s")
       (py "value") (py "l") empty_world
     = (Ok tt, empty_world).
Proof.
  split; [|split; [|split]].
  - refine (proj1 (addtriple_never [] usecaseMeat_pd (py "s") (py "yes")
                     (py "l") empty_world _) _ empty_world _).
    + intros H. vm_compute in H. discriminate H.
    + vm_compute. reflexivity.
  - refine (proj1 (addtriple_never [] habtype_pd (py "s") (py "AGS")
                     (py "l") empty_world _) _ empty_world _).
    + intros Hk.
      apply (table_descriptor_eval_target orgpred (py "Land Cover - CWHR")).
      * left. reflexivity.
      * vm_compute. reflexivity.
      * exact Hk.
    + vm_compute. reflexivity.
  - refine (proj1 (proj2 (addtriple_never [] partners_pd (py "s")
                            (py "Org A") (py "l") empty_world _)) _).
    + intros H. vm_compute in H. discriminate H.
    + vm_compute. discriminate.
  - refine (proj2 (proj2 (proj2
              (addtriple_never [] (prd "x" "http://example.org/p" "p" "" "s")
                 (py "s") (py "value") (py "l") empty_world _)))
              _ _ _ _ _); try (vm_compute; discriminate).
    left. vm_compute. discriminate.
Defined.

(** ** Columns without a descriptor *)

Lemma for_each_ok_each {A} (xs : list A) (body : A -> M unit) :
  forall w w', for_each xs body w = (Ok tt, w') ->
  forall x, In x xs -> exists w1 w2, body x w1 = (Ok tt, w2).
Proof.
  induction xs as [|y xs IH]; intros w w' H x Hx; [easy|].
  cbn [for_each] in H. apply bind_ok_inv in H.
  destruct H as ([] & w1 & Hy & Hrest).
  destruct Hx as [->|Hx]; [now exists w, w1|].
  now apply (IH w1 w').
Qed.

Lemma ingest_cell_no_entry env pred df subjval name r c col row cellval w :
  nth_error (columns df) c = Some col ->
  nth_error (rows df) r = Some row ->
  nth_error row c = Some cellval ->
  cellval <> [] ->
  dict_get pred col = None ->
  ingest_cell env pred df subjval name r c w = (Raise (KeyError col), w).
Proof.
  intros Hc Hr Hv Hne Hpd. unfold ingest_cell.
  rewrite (bind_ok _ _ _ _ _ (column_at df c col w Hc)).
  rewrite (bind_ok _ _ _ _ _ (iloc_cell df r c row cellval w Hr Hv)).
  apply str_eqb_neq in Hne. rewrite Hne. cbn [negb].
  apply bind_raise. unfold getitem. now rewrite Hpd.
Qed.

(** A column that the predicate dictionary of the sheet does not have.
    An empty cell under it is passed over like every empty cell; the
    first cell under it that is not empty raises [KeyError] with the
    column label, before anything is added for the cell.  So a run over
    a sheet that returns has found a descriptor for every cell that is
    not empty. *)
Theorem column_without_descriptor (env : globals) (sh : sheet)
    (df : DataFrame) (r c : nat) (col : str) (row : list str)
    (cellval : str) :
  nth_error (columns df) c = Some col ->
  nth_error (rows df) r = Some row ->
  nth_error row c = Some cellval ->
  (dict_get (sh_pred sh) col = None ->
   forall subjval name w,
     ingest_cell env (sh_pred sh) df subjval name r c w
     = if str_eqb cellval [] then (Ok tt, w) else (Raise (KeyError col), w))
  /\ (forall w w',
        ingest_sheet env sh df w = (Ok tt, w') ->
        cellval <> [] ->
        dict_get (sh_pred sh) col <> None).
Proof.
  intros Hc Hr Hv. split.
  - intros Hpd subjval name w.
    destruct (str_eqb_spec cellval []) as [->|Hne].
    + unfold ingest_cell.
      rewrite (bind_ok _ _ _ _ _ (column_at df c col w Hc)).
      now rewrite (bind_ok _ _ _ _ _ (iloc_cell df r c row [] w Hr Hv)).
    + exact (ingest_cell_no_entry env _ df subjval name r c col row cellval
               w Hc Hr Hv Hne Hpd).
  - intros w w' Hrun Hne Hpd.
    assert (Hrin : In r (range (nrows df))).
    { apply in_seq. split; [lia|]. simpl. unfold nrows.
      apply nth_error_Some. congruence. }
    assert (Hcin : In c (range (ncols df))).
    { apply in_seq. split; [lia|]. simpl. unfold ncols.
      apply nth_error_Some. congruence. }
    destruct (for_each_ok_each _ _ w w' Hrun r Hrin) as (w1 & w2 & Hrow).
    unfold ingest_row in Hrow.
    apply bind_ok_inv in Hrow. destruct Hrow as (name & wa & _ & Hrow).
    apply bind_ok_inv in Hrow. destruct Hrow as ([] & wb & _ & Hloop).
    destruct (for_each_ok_each _ _ wb w2 Hloop c Hcin) as (w3 & w4 & Hcell).
    rewrite (ingest_cell_no_entry env _ df _ name r c col row cellval w3
               Hc Hr Hv Hne Hpd) in Hcell.
    discriminate Hcell.
Qed.

Lemma column_without_descriptor_witness :
  ingest_cell [] orgpred unknown_column_df (py "s") (py "Org B") 1 1
    empty_world
  = (Raise (KeyError (py "Twitter")), empty_world)
  /\ ingest_cell [] orgpred unknown_column_df (py "s") (py "Org A") 0 1
       empty_world
     = (Ok tt, empty_world)
  /\ dict_get orgpred (py "Organization") <> None.
Proof.
  split; [|split].
  - refine (proj1 (column_without_descriptor [] organizations
                     unknown_column_df 1 1 (py "Twitter")
                     [py "Org B"; py "@orgb"] (py "@orgb") _ _ _)
              _ (py "s") (py "Org B") empty_world);
      vm_compute; reflexivity.
  - refine (proj1 (column_without_descriptor [] organizations
                     unknown_column_df 0 1 (py "Twitter")
                     [py "Org A"; []] [] _ _ _)
              _ (py "s") (py "Org A") empty_world);
      vm_compute; reflexivity.
  - refine (proj2 (column_without_descriptor [] organizations yuba_df 0 0
                     (py "Organization") [yuba; []] yuba _ _ _)
              empty_world
              (snd (run (ingest_sheet [] organizations yuba_df))) _ _).
    + reflexivity.
    + reflexivity.
    + reflexivity.
    + vm_compute. reflexivity.
    + vm_compute. discriminate.
Defined.

(** The run over [unknown_column_df] stops in its second row: the first
    row is complete, the second has its type, label and title, the third
    is never read. *)
Example unknown_column_run :
  fst (run (ingest_sheet [] organizations unknown_column_df))
  = Raise (KeyError (py "Twitter"))
  /\ List.length (graph (snd (run (ingest_sheet [] organizations
                                     unknown_column_df)))) = 6%nat.
Proof. split; vm_compute; reflexivity. Qed.

(** ** Role tables, row by row *)

Lemma add_all_app {A} (f : A -> triple) (xs ys : list A) (g : graph_t) :
  add_all f (xs ++ ys) g = add_all f ys (add_all f xs g).
Proof. unfold add_all. apply fold_left_app. Qed.

Lemma g_add_run (t : triple) (w : world) :
  g_add t w = (Ok tt, World (graph_add t (graph w)) (stdout w)).
Proof. reflexivity. Qed.

Lemma addtriple_single_reference env pd subjval cellval lbl w :
  pr_kind pd = py "o" ->
  str_eqb (pr_mult pd) (py "m") = false ->
  no_expansion pd cellval ->
  addtriple env pd subjval cellval lbl w
  = (Ok tt,
     World (graph_add (URIRef subjval, URIRef (pr_uri pd),
                       URIRef (minted (pr_target pd) cellval)) (graph w))
           (stdout w)).
Proof.
  intros Hk Hm Hne. unfold addtriple.
  rewrite (bind_ok _ _ _ _ _ (expand_all_same env pd cellval w Hne)).
  unfold celllist. rewrite Hm. cbn [emit_cells].
  unfold emit_cell. rewrite Hk. reflexivity.
Qed.

Lemma addtriple_single_literal env pd subjval cellval lbl w :
  pr_kind pd = py "d" ->
  contains (py "usecase") (pr_uri pd) = false ->
  str_eqb (pr_mult pd) (py "m") = false ->
  pr_target pd = [] ->
  addtriple env pd subjval cellval lbl w
  = (Ok tt,
     World (graph_add (URIRef subjval, URIRef (pr_uri pd), Literal cellval)
              (graph w))
           (stdout w)).
Proof.
  intros Hk Hu Hm Ht. unfold addtriple.
  assert (Hne : no_expansion pd cellval).
  { right. rewrite Ht. split; discriminate. }
  rewrite (bind_ok _ _ _ _ _ (expand_all_same env pd cellval w Hne)).
  unfold celllist. rewrite Hm. cbn [emit_cells].
  unfold emit_cell. rewrite Hk, Hu, Ht. reflexivity.
Qed.

Lemma world_eta (w : world) : World (graph w) (stdout w) = w.
Proof. now destruct w. Qed.

(** A row of the PeopleProj sheet (columns Full Name, Project, ProjRole).
    The run over the row raises nothing and prints nothing.  The role is
    hashed from person, project and role, with "Participant" standing in
    for an empty role, and is labelled with that role; it gets its type,
    a participant and a project (each unless the cell is empty) and a
    [has role] literal, which for an empty role is "Unstated role" and
    not the label. *)
Theorem peopleproj_row_triples (env : globals) (df : DataFrame) (r : nat)
    (c0 c1 c2 : str) (w : world) :
  columns df = personproj_columns ->
  nth_error (rows df) r = Some [c0; c1; c2] ->
  let newrole := if str_eqb c2 [] then py "Participant" else c2 in
  let stated := if str_eqb c2 [] then py "Unstated role" else c2 in
  let role := URIRef (role_subject (c0 ++ c1 ++ newrole)) in
  peopleproj_row env df r w
  = (Ok tt,
     World
       (add_all (fun t => t)
          ([ (role, rdfs_label, Literal newrole); (role, rdf_type, Role) ]
           ++ unless_empty c0
                (role, has_participant, URIRef (minted (py "per") c0))
           ++ unless_empty c1
                (role, involved_in, URIRef (minted (py "prj") c1))
           ++ [ (role, has_role, Literal stated) ])
          (graph w))
       (stdout w)).
Proof.
  intros Hcols Hr newrole stated role.
  unfold peopleproj_row.
  rewrite (bind_ok _ _ _ _ _ (iloc_cell df r 2 _ c2 w Hr eq_refl)).
  assert (E : (if str_eqb c2 [] then ret (py "Participant")
               else iloc df r 2) w = (Ok newrole, w)).
  { unfold newrole. destruct (str_eqb c2 []); [reflexivity|].
    exact (iloc_cell df r 2 _ c2 w Hr eq_refl). }
  rewrite (bind_ok _ _ _ _ _ E).
  rewrite (bind_ok _ _ _ _ _ (iloc_cell df r 0 _ c0 w Hr eq_refl)).
  rewrite (bind_ok _ _ _ _ _ (iloc_cell df r 1 _ c1 w Hr eq_refl)).
  fold role.
  rewrite (bind_ok _ _ _ _ _ (g_add_run _ w)).
  rewrite (bind_ok _ _ _ _ _ (g_add_run _ _)).
  unfold ncols. rewrite Hcols.
  change (range (List.length personproj_columns)) with [0; 1; 2]%nat.
  set (subjval := role_subject (c0 ++ c1 ++ newrole)) in *.
  set (rolestr := c0 ++ c1 ++ newrole).
  assert (Hc0 : nth_error (columns df) 0 = Some (py "Full Name"))
    by now rewrite Hcols.
  assert (Hc1 : nth_error (columns df) 1 = Some (py "Project"))
    by now rewrite Hcols.
  assert (Hc2 : nth_error (columns df) 2 = Some (py "ProjRole"))
    by now rewrite Hcols.
  assert (H0 : forall w0,
             peopleproj_cell env df subjval rolestr r 0 w0
             = (Ok tt,
                World (add_all (fun t => t)
                         (unless_empty c0
                            (role, has_participant,
                             URIRef (minted (py "per") c0)))
                         (graph w0))
                      (stdout w0))).
  { intros w0. unfold peopleproj_cell.
    rewrite (bind_ok _ _ _ _ _ (column_at df 0 (py "Full Name") w0 Hc0)).
    rewrite (bind_ok _ _ _ _ _ (iloc_cell df r 0 _ c0 w0 Hr eq_refl)).
    cbn [Nat.eqb]. unfold unless_empty.
    destruct (str_eqb c0 []) eqn:E0; cbn [negb].
    - unfold ret, add_all. cbn [fold_left]. now rewrite world_eta.
    - rewrite (bind_ok _ _ w0 w0
                 (prd "o" "http://purl.obolibrary.org/obo/RO_0000057"
                    "has participant" "per" "s") eq_refl).
      rewrite addtriple_single_reference;
        [reflexivity|reflexivity|reflexivity|right; split; discriminate]. }
  assert (H1 : forall w0,
             peopleproj_cell env df subjval rolestr r 1 w0
             = (Ok tt,
                World (add_all (fun t => t)
                         (unless_empty c1
                            (role, involved_in,
                             URIRef (minted (py "prj") c1)))
                         (graph w0))
                      (stdout w0))).
  { intros w0. unfold peopleproj_cell.
    rewrite (bind_ok _ _ _ _ _ (column_at df 1 (py "Project") w0 Hc1)).
    rewrite (bind_ok _ _ _ _ _ (iloc_cell df r 1 _ c1 w0 Hr eq_refl)).
    cbn [Nat.eqb]. unfold unless_empty.
    destruct (str_eqb c1 []) eqn:E1; cbn [negb].
    - unfold ret, add_all. cbn [fold_left]. now rewrite world_eta.
    - rewrite (bind_ok _ _ w0 w0
                 (prd "o" "http://purl.obolibrary.org/obo/RO_0002331"
                    "involved in" "prj" "s") eq_refl).
      rewrite addtriple_single_reference;
        [reflexivity|reflexivity|reflexivity|right; split; discriminate]. }
  assert (H2 : forall w0,
             peopleproj_cell env df subjval rolestr r 2 w0
             = (Ok tt,
                World (graph_add (role, has_role, Literal stated) (graph w0))
                      (stdout w0))).
  { intros w0. unfold peopleproj_cell.
    rewrite (bind_ok _ _ _ _ _ (column_at df 2 (py "ProjRole") w0 Hc2)).
    rewrite (bind_ok _ _ _ _ _ (iloc_cell df r 2 _ c2 w0 Hr eq_refl)).
    cbn [Nat.eqb]. fold stated.
    assert (Hs : str_eqb stated [] = false).
    { unfold stated. destruct (str_eqb c2 []) eqn:E2; [reflexivity|exact E2]. }
    rewrite Hs. cbn [negb].
    rewrite (bind_ok _ _ w0 w0
               (prd "d" "http://purl.obolibrary.org/obo/RO_0000087"
                  "has role" "" "s") eq_refl).
    rewrite addtriple_single_literal; reflexivity. }
  cbn [for_each].
  rewrite (bind_ok _ _ _ _ _ (H0 _)), (bind_ok _ _ _ _ _ (H1 _)),
    (bind_ok _ _ _ _ _ (H2 _)).
  unfold ret. cbn [graph stdout].
  rewrite !add_all_app. reflexivity.
Qed.

Lemma peopleproj_row_triples_witness :
  peopleproj_row [] peopleproj_two 1 empty_world
  = (Ok tt,
     World
       (let role :=
          URIRef (role_subject (py "Bo DiazCreek RestorationParticipant")) in
        [ (role, rdfs_label, Literal (py "Participant"));
          (role, rdf_type, Role);
          (role, has_participant, URIRef (minted (py "per") (py "Bo Diaz")));
          (role, involved_in,
           URIRef (minted (py "prj") (py "Creek Restoration")));
          (role, has_role, Literal (py "Unstated role")) ])
       []).
Proof.
  etransitivity.
  - apply (peopleproj_row_triples [] peopleproj_two 1 (py "Bo Diaz")
             (py "Creek Restoration") [] empty_world); reflexivity.
  - vm_compute. reflexivity.
Defined.

(** The position of a PeopleOrg row.  Under the column Position
    (Verbatim) the cell is replaced, when it is empty, by the cell of
    the next column (the position type), and by "Unstated role" only when
    that is empty too; the result is the [dcterms:title] literal of the
    role.  The replacement prints "empty string"; a row of Rebecca Fris
    prints a line of its own first.  Nothing is raised. *)
Theorem peopleorg_position (env : globals) (df : DataFrame)
    (subjval rolestr : str) (r : nat) (c0 c1 c2 c3 : str)
    (rest : list str) (w : world) :
  nth_error (columns df) 2 = Some (py "Position (Verbatim)") ->
  nth_error (rows df) r = Some (c0 :: c1 :: c2 :: c3 :: rest) ->
  let title :=
    if negb (str_eqb c2 []) then c2
    else if negb (str_eqb c3 []) then c3
    else py "Unstated role" in
  peopleorg_cell env df subjval rolestr r 2 w
  = (Ok tt,
     World (graph_add (URIRef subjval, dcterms_title, Literal title)
              (graph w))
           (stdout w
            ++ (if str_eqb c0 (py "Rebecca Fris")
                then [join (py " ") [c0; py "*"; c2; py "*"; c3]]
                else [])
            ++ (if str_eqb c2 [] then [py "empty string"] else []))).
Proof.
  intros Hc Hr title. unfold peopleorg_cell.
  rewrite (bind_ok _ _ _ _ _ (column_at df 2 _ w Hc)).
  rewrite (bind_ok _ _ _ _ _ (iloc_cell df r 2 _ c2 w Hr eq_refl)).
  rewrite (bind_ok _ _ _ _ _ (iloc_cell df r 0 _ c0 w Hr eq_refl)).
  set (w1 := World (graph w)
               (stdout w
                ++ (if str_eqb c0 (py "Rebecca Fris")
                    then [join (py " ") [c0; py "*"; c2; py "*"; c3]]
                    else []))).
  assert (E1 : (if str_eqb c0 (py "Rebecca Fris")
                then a <- iloc df r 0 ;;
                     b <- iloc df r 2 ;;
                     d <- iloc df r 3 ;;
                     print (join (py " ") [a; py "*"; b; py "*"; d])
                else ret tt) w = (Ok tt, w1)).
  { unfold w1. destruct (str_eqb c0 (py "Rebecca Fris")).
    - rewrite (bind_ok _ _ _ _ _ (iloc_cell df r 0 _ c0 w Hr eq_refl)).
      rewrite (bind_ok _ _ _ _ _ (iloc_cell df r 2 _ c2 w Hr eq_refl)).
      rewrite (bind_ok _ _ _ _ _ (iloc_cell df r 3 _ c3 w Hr eq_refl)).
      reflexivity.
    - unfold ret. now rewrite app_nil_r, world_eta. }
  rewrite (bind_ok _ _ _ _ _ E1). cbn [Nat.eqb].
  set (w2 := World (graph w)
               (stdout w1
                ++ (if str_eqb c2 [] then [py "empty string"] else []))).
  assert (E2 : (cellval1 <-
                  (if str_eqb c2 []
                   then print (py "empty string") ;; iloc df r 3
                   else ret c2) ;;
                ret (if str_eqb cellval1 [] then py "Unstated role"
                     else cellval1)) w1 = (Ok title, w2)).
  { unfold w2, title. destruct (str_eqb c2 []) eqn:E; cbn [negb].
    - assert (Ei : (print (py "empty string") ;; iloc df r 3) w1
                   = (Ok c3,
                      World (graph w1) (stdout w1 ++ [py "empty string"]))).
      { rewrite (bind_ok (print (py "empty string")) _ w1 _ tt eq_refl).
        exact (iloc_cell df r 3 _ c3 _ Hr eq_refl). }
      rewrite (bind_ok _ _ _ _ _ Ei). unfold ret. cbn [graph].
      destruct (str_eqb c3 []); reflexivity.
    - rewrite (bind_ok (ret c2) _ w1 w1 c2 eq_refl).
      unfold ret. rewrite E, app_nil_r. unfold w1. reflexivity. }
  rewrite (bind_ok _ _ _ _ _ E2).
  assert (Ht : str_eqb title [] = false).
  { unfold title. destruct (str_eqb c2 []) eqn:E; cbn [negb]; [|exact E].
    destruct (str_eqb c3 []) eqn:E3; cbn [negb]; [reflexivity|exact E3]. }
  rewrite Ht. cbn [negb].
  rewrite (bind_ok _ _ w2 w2
             (prd "d" "http://purl.org/dc/terms/title" "title" "" "d")
             eq_refl).
  rewrite addtriple_single_literal by reflexivity.
  unfold w2, w1. cbn [graph stdout]. now rewrite <- app_assoc.
Qed.

Lemma peopleorg_position_witness :
  peopleorg_cell [] peopleorg_typed (py "s") (py "r") 0 2 empty_world
  = (Ok tt,
     World [(URIRef (py "s"), dcterms_title, Literal (py "Staff"))]
           [py "empty string"]).
Proof.
  etransitivity.
  - apply (peopleorg_position [] peopleorg_typed (py "s") (py "r") 0
             (py "Ann Lee") (py "Audubon California") [] (py "Staff") []
             empty_world); reflexivity.
  - vm_compute. reflexivity.
Defined.

(** A row of the organization - project - guideline table.  The role
    made of columns C, D, E is labelled with column D and typed before
    the relation of column B is looked up in [orggmrelationdict].  With
    the relation in the dictionary the guideline of column A is linked to
    the role by the URI bound to the relation; without it the lookup
    raises [KeyError] and the run stops, the label and the type of the
    role being in the graph already and the link missing. *)
Theorem orgprojgm_row_triples (env : globals) (df : DataFrame) (r : nat)
    (c0 c1 c2 c3 c4 : str) (rest : list str) (d : dict str) (w : world) :
  nth_error (rows df) r = Some (c0 :: c1 :: c2 :: c3 :: c4 :: rest) ->
  dict_get env (py "orggmrelationdict") = Some d ->
  let role := URIRef (role_subject (c2 ++ c3 ++ c4)) in
  let typed := graph_add (role, rdf_type, Role)
                 (graph_add (role, rdfs_label, Literal c3) (graph w)) in
  orgprojgm_row env df r w
  = match dict_get d c1 with
    | Some p =>
        (Ok tt,
         World (graph_add
                  (URIRef (auxprefix ++ py "gmt_" ++ makeid c0), URIRef p,
                   role) typed)
               (stdout w))
    | None => (Raise (KeyError c1), World typed (stdout w))
    end.
Proof.
  intros Hr Hd role typed. unfold orgprojgm_row.
  rewrite (bind_ok _ _ _ _ _ (iloc_cell df r 2 _ c2 w Hr eq_refl)).
  rewrite (bind_ok _ _ _ _ _ (iloc_cell df r 3 _ c3 w Hr eq_refl)).
  rewrite (bind_ok _ _ _ _ _ (iloc_cell df r 4 _ c4 w Hr eq_refl)).
  rewrite (bind_ok _ _ _ _ _ (iloc_cell df r 3 _ c3 w Hr eq_refl)).
  fold role.
  rewrite (bind_ok _ _ _ _ _ (g_add_run _ w)).
  rewrite (bind_ok _ _ _ _ _ (g_add_run _ _)).
  cbn [graph stdout]. fold typed.
  rewrite (bind_ok _ _ _ _ _ (iloc_cell df r 0 _ c0 _ Hr eq_refl)).
  unfold global. rewrite Hd.
  rewrite (bind_ok (ret d) _ _ _ d eq_refl).
  rewrite (bind_ok _ _ _ _ _ (iloc_cell df r 1 _ c1 _ Hr eq_refl)).
  unfold getitem. destruct (dict_get d c1) as [p|].
  - rewrite (bind_ok (ret p) _ _ _ p eq_refl). reflexivity.
  - apply bind_raise. reflexivity.
Qed.

Lemma orgprojgm_row_triples_witness :
  orgprojgm_row orggmrelation_env orgprojgm_one 0 empty_world
  = (Ok tt,
     World
       (let role :=
          URIRef (role_subject (py "Org AFunderCreek Restoration")) in
        [ (role, rdfs_label, Literal (py "Funder"));
          (role, rdf_type, Role);
          (URIRef (minted (py "gmt") (py "Plan 1")),
           URIRef (minted (py "pst") (py "Guides")), role) ])
       [])
  /\ fst (orgprojgm_row orggmrelation_env orgprojgm_one 1 empty_world)
     = Raise (KeyError (py "Inspires")).
Proof.
  split.
  - etransitivity.
    + apply (orgprojgm_row_triples orggmrelation_env orgprojgm_one 0
               (py "Plan 1") (py "Guides") (py "Org A") (py "Funder")
               (py "Creek Restoration") []
               [(py "Guides", minted (py "pst") (py "Guides"))] empty_world);
        reflexivity.
    + vm_compute. reflexivity.
  - rewrite (orgprojgm_row_triples orggmrelation_env orgprojgm_one 1
               (py "Plan 2") (py "Inspires") (py "Org B") (py "Partner")
               (py "Creek Restoration") []
               [(py "Guides", minted (py "pst") (py "Guides"))] empty_world
               eq_refl eq_refl).
    vm_compute. reflexivity.
Defined.

(** ** [creategraph] as a whole *)

Lemma stateless_ret {A} (a : A) : stateless (ret a).
Proof. intros w. reflexivity. Qed.

Lemma stateless_raise {A} (e : exn) : stateless (@raise A e).
Proof. intros w. reflexivity. Qed.

Lemma stateless_bind {A B} (m : M A) (f : A -> M B) :
  stateless m -> (forall a, stateless (f a)) -> stateless (bind m f).
Proof.
  intros Hm Hf w. unfold bind. specialize (Hm w).
  destruct (m w) as [[a|e] w1]; simpl in *; subst; [apply Hf|reflexivity].
Qed.

Lemma stateless_iloc (df : DataFrame) (r c : nat) : stateless (iloc df r c).
Proof.
  intros w. unfold iloc. destruct (nth_error (rows df) r) as [row|];
    [destruct (nth_error row c)|]; reflexivity.
Qed.

Lemma stateless_fold_each {A S} (xs : list A) (body : S -> A -> M S) :
  (forall s x, stateless (body s x)) ->
  forall s, stateless (fold_each xs body s).
Proof.
  intros Hb. induction xs as [|x xs IH]; intros s; cbn [fold_each].
  - apply stateless_ret.
  - apply stateless_bind; [apply Hb|intros; apply IH].
Qed.

Lemma stateless_table_dict df kc vc value :
  stateless (table_dict df kc vc value).
Proof.
  unfold table_dict. apply stateless_fold_each. intros s x.
  repeat (apply stateless_bind; [apply stateless_iloc|intros]).
  apply stateless_ret.
Qed.

Lemma stateless_makevocabdict df name aux pre :
  stateless (makevocabdict df name aux pre).
Proof.
  unfold makevocabdict. destruct (index_of name (columns df));
    [|apply stateless_raise].
  apply stateless_fold_each. intros s x.
  apply stateless_bind; [apply stateless_iloc|intros; apply stateless_ret].
Qed.

Lemma stateless_make_ecoregiondict df : stateless (make_ecoregiondict df).
Proof.
  unfold make_ecoregiondict.
  destruct (index_of (py "Ecoregion_USDA") (columns df));
    [|apply stateless_raise].
  apply stateless_fold_each. intros s x.
  apply stateless_bind; [apply stateless_iloc|intros; apply stateless_ret].
Qed.

Lemma stateless_make_globals (wb : workbook) : stateless (make_globals wb).
Proof.
  unfold make_globals, make_intissuedict, make_compissuedict,
    make_countydict, make_commoditydict, make_habtypedict.
  repeat (apply stateless_bind;
          [first [apply stateless_table_dict
                 |apply stateless_makevocabdict
                 |apply stateless_make_ecoregiondict]
          |intros]).
  apply stateless_ret.
Qed.

Lemma grows_ingest_sheet env sh df : grows (ingest_sheet env sh df).
Proof.
  unfold ingest_sheet. apply grows_for_each. intros.
  apply grows_ingest_row.
Qed.

Lemma grows_adddicttograph env d labeluri :
  grows (adddicttograph env d labeluri).
Proof. unfold adddicttograph. repeat grows_step. Qed.

Lemma grows_add_labels d : grows (add_labels d).
Proof. unfold add_labels. repeat grows_step. Qed.

Lemma grows_ingest_peopleorg env df : grows (ingest_peopleorg env df).
Proof.
  unfold ingest_peopleorg, peopleorg_row, peopleorg_cell.
  repeat grows_step.
Qed.

Lemma grows_ingest_peopleproj env df : grows (ingest_peopleproj env df).
Proof.
  unfold ingest_peopleproj, peopleproj_row, peopleproj_cell.
  repeat grows_step.
Qed.

Lemma grows_ingest_peopleprogram env odf pdf :
  grows (ingest_peopleprogram env odf pdf).
Proof.
  unfold ingest_peopleprogram, peopleprogram_row. repeat grows_step.
Qed.

Lemma grows_ingest_orggm df : grows (ingest_orggm df).
Proof. unfold ingest_orggm, orggm_row. repeat grows_step. Qed.

Lemma grows_ingest_orgprojgm env df : grows (ingest_orgprojgm env df).
Proof. unfold ingest_orgprojgm, orgprojgm_row. repeat grows_step. Qed.

Lemma grows_step_ok {A} (m : M A) (w w' : world) (a : A) :
  grows m -> m w = (Ok a, w') ->
  forall t, In t (graph w) -> In t (graph w').
Proof. intros Hg Hm t Ht. specialize (Hg w t Ht). now rewrite Hm in Hg. Qed.

Lemma ingest_sheet_type_label env sh df w w' r row name :
  ingest_sheet env sh df w = (Ok tt, w') ->
  nth_error (rows df) r = Some (name :: row) ->
  In (URIRef (entity_subject sh name), rdf_type, URIRef (sh_class sh))
     (graph w')
  /\ In (URIRef (entity_subject sh name), rdfs_label, Literal name)
        (graph w').
Proof.
  intros Hrun Hr.
  assert (Hin : In r (range (nrows df))).
  { apply in_seq. split; [lia|]. simpl. unfold nrows.
    apply nth_error_Some. congruence. }
  destruct (for_each_reaches _ _ (grows_ingest_row env sh df) w w' Hrun r Hin)
    as [w1 Hw1].
  destruct (ingest_row_type_label env sh df r row name w1 Hr) as [Ht Hl].
  split; apply Hw1; assumption.
Qed.

Lemma for_each_reaches_ok {A} (xs : list A) (body : A -> M unit) :
  (forall x, grows (body x)) ->
  forall w w', for_each xs body w = (Ok tt, w') ->
  forall x, In x xs ->
  exists w1 w2,
    body x w1 = (Ok tt, w2)
    /\ forall t, In t (graph w2) -> In t (graph w').
Proof.
  intros Hb. induction xs as [|y xs IH]; intros w w' Hrun x Hx; [easy|].
  cbn [for_each] in Hrun. apply bind_ok_inv in Hrun.
  destruct Hrun as ([] & w1 & Hy & Hrest).
  destruct Hx as [->|Hx].
  - exists w, w1. split; [exact Hy|].
    exact (grows_step_ok _ _ _ _ (grows_for_each xs body Hb) Hrest).
  - now apply (IH w1 w').
Qed.

Lemma add_labels_run (d : dict str) (w : world) :
  add_labels d w
  = (Ok tt,
     World (add_all (fun k => (URIRef k, rdfs_label,
                               Literal (match dict_get d k with
                                        | Some l => l
                                        | None => []
                                        end)))
              (keys d) (graph w))
           (stdout w)).
Proof.
  unfold add_labels. apply for_each_add_all. intros k w0 Hk.
  destruct (dict_get d k) as [l|] eqn:E;
    [|apply dict_get_None in E; contradiction].
  unfold getitem. rewrite E. now rewrite (bind_ok (ret l) _ w0 w0 l eq_refl).
Qed.

Lemma adddicttograph_run env d labeluri cd w :
  dict_get env (py "countydict") = Some cd ->
  adddicttograph env d labeluri w
  = (Ok tt,
     World (add_all (fun k => (URIRef (match dict_get d k with
                                       | Some v => v
                                       | None => []
                                       end),
                               URIRef (labeluri ++ py "label"),
                               term_label d cd k))
              (keys d) (graph w))
           (stdout w)).
Proof.
  intros Hcd. unfold adddicttograph. apply for_each_add_all.
  intros k w0 Hk.
  destruct (dict_get d k) as [v|] eqn:E;
    [|apply dict_get_None in E; contradiction].
  unfold getitem. rewrite E. rewrite (bind_ok (ret v) _ w0 w0 v eq_refl).
  unfold global. rewrite Hcd. rewrite (bind_ok (ret cd) _ w0 w0 cd eq_refl).
  unfold term_label. destruct (dict_eqb d cd); reflexivity.
Qed.

Ltac keep_going :=
  repeat first
    [ assumption
    | match goal with
      | G : forall t, In t (graph ?a) -> In t (graph ?b)
        |- In _ (graph ?b) => apply G
      end ].

(** [creategraph] as a whole.  Building the dictionaries touches neither
    the graph nor the output.  When [creategraph] returns, the graph
    holds
    - for every dictionary of the label pass and every key of it, the
      label of the key on the URI bound to it;
    - for every property URI of the predicate dictionaries, its label;
    - for every row of the seven entity sheets, the type and the label
      of its subject;
    - the label of the class Role;
    - and whatever the graph held before. *)
Theorem creategraph_contents (wb : workbook) (w w' : world) :
  creategraph wb w = (Ok tt, w') ->
  exists env,
    make_globals wb w = (Ok env, w)
    /\ (forall name d cd k v,
          In name labelled_dicts ->
          dict_get env (py name) = Some d ->
          dict_get env (py "countydict") = Some cd ->
          dict_get d k = Some v ->
          In (URIRef v, rdfs_label, term_label d cd k) (graph w'))
    /\ (forall uri l,
          dict_get predlabeldict uri = Some l ->
          In (URIRef uri, rdfs_label, Literal l) (graph w'))
    /\ (forall sh df r row name,
          In (sh, df) (sheet_frames wb) ->
          nth_error (rows df) r = Some (name :: row) ->
          In (URIRef (entity_subject sh name), rdf_type,
              URIRef (sh_class sh)) (graph w')
          /\ In (URIRef (entity_subject sh name), rdfs_label, Literal name)
                (graph w'))
    /\ In (Role, rdfs_label, Literal (py "Role")) (graph w')
    /\ (forall t, In t (graph w) -> In t (graph w')).
Proof.
  intros Hrun. unfold creategraph in Hrun.
  apply bind_ok_inv in Hrun. destruct Hrun as (env & w0 & Hg & Hf).
  assert (w0 = w) as ->.
  { pose proof (stateless_make_globals wb w) as Hs. now rewrite Hg in Hs. }
  exists env. split; [exact Hg|].
  unfold fill_graph in Hf.
  set (labels := predlabeldict) in *. clearbody labels.
  apply bind_ok_inv in Hf. destruct Hf as ([] & w1 & H1 & Hf).
  apply bind_ok_inv in Hf. destruct Hf as ([] & w2 & H2 & Hf).
  apply bind_ok_inv in Hf. destruct Hf as ([] & w3 & H3 & Hf).
  apply bind_ok_inv in Hf. destruct Hf as ([] & w4 & H4 & Hf).
  apply bind_ok_inv in Hf. destruct Hf as ([] & w5 & H5 & Hf).
  apply bind_ok_inv in Hf. destruct Hf as ([] & w6 & H6 & Hf).
  apply bind_ok_inv in Hf. destruct Hf as ([] & w7 & H7 & Hf).
  apply bind_ok_inv in Hf. destruct Hf as ([] & w8 & H8 & Hf).
  apply bind_ok_inv in Hf. destruct Hf as ([] & w9 & H9 & Hf).
  apply bind_ok_inv in Hf. destruct Hf as ([] & w10 & H10 & Hf).
  apply bind_ok_inv in Hf. destruct Hf as ([] & w11 & H11 & Hf).
  apply bind_ok_inv in Hf. destruct Hf as ([] & w12 & H12 & Hf).
  apply bind_ok_inv in Hf. destruct Hf as ([] & w13 & H13 & Hf).
  apply bind_ok_inv in Hf. destruct Hf as ([] & w14 & H14 & H15).
  assert (Hbody : forall name : string,
             grows (d <- global env (py name) ;;
                    adddicttograph env d rdfsuri)).
  { intros name. apply grows_bind; [apply grows_global|].
    intros. apply grows_adddicttograph. }
  pose proof (grows_step_ok _ _ _ _
                (grows_for_each labelled_dicts _ Hbody) H1) as G1.
  pose proof (grows_step_ok _ _ _ _ (grows_add_labels _) H2) as G2.
  pose proof (grows_step_ok _ _ _ _ (grows_ingest_sheet _ _ _) H3) as G3.
  pose proof (grows_step_ok _ _ _ _ (grows_ingest_sheet _ _ _) H4) as G4.
  pose proof (grows_step_ok _ _ _ _ (grows_ingest_sheet _ _ _) H5) as G5.
  pose proof (grows_step_ok _ _ _ _ (grows_ingest_sheet _ _ _) H6) as G6.
  pose proof (grows_step_ok _ _ _ _ (grows_g_add _) H7) as G7.
  pose proof (grows_step_ok _ _ _ _ (grows_ingest_peopleorg _ _) H8) as G8.
  pose proof (grows_step_ok _ _ _ _ (grows_ingest_peopleproj _ _) H9) as G9.
  pose proof (grows_step_ok _ _ _ _ (grows_ingest_peopleprogram _ _ _) H10)
    as G10.
  pose proof (grows_step_ok _ _ _ _ (grows_ingest_sheet _ _ _) H11) as G11.
  pose proof (grows_step_ok _ _ _ _ (grows_ingest_orggm _) H12) as G12.
  pose proof (grows_step_ok _ _ _ _ (grows_ingest_orgprojgm _ _) H13) as G13.
  pose proof (grows_step_ok _ _ _ _ (grows_ingest_sheet _ _ _) H14) as G14.
  pose proof (grows_step_ok _ _ _ _ (grows_ingest_sheet _ _ _) H15) as G15.
  split; [|split; [|split; [|split]]].
  - intros name d cd k v Hname Hd Hcd Hk.
    destruct (for_each_reaches_ok labelled_dicts _ Hbody w w1 H1 name Hname)
      as (wa & wz & Hrun & Hsub).
    unfold global in Hrun. rewrite Hd in Hrun.
    rewrite (bind_ok (ret d) _ wa wa d eq_refl) in Hrun.
    rewrite (adddicttograph_run env d rdfsuri cd wa Hcd) in Hrun.
    apply (f_equal snd) in Hrun. cbn [snd] in Hrun.
    assert (Hin : In (URIRef v, rdfs_label, term_label d cd k) (graph w1)).
    { apply Hsub. rewrite <- Hrun. cbn [graph]. apply in_add_all. right.
      exists k. split; [exact (dict_get_Some_key _ _ _ Hk)|].
      now rewrite Hk. }
    keep_going.
  - intros uri l Hl.
    assert (Hin : In (URIRef uri, rdfs_label, Literal l) (graph w2)).
    { rewrite add_labels_run in H2.
      apply (f_equal snd) in H2. cbn [snd] in H2.
      rewrite <- H2. cbn [graph]. apply in_add_all. right.
      exists uri. split; [exact (dict_get_Some_key _ _ _ Hl)|].
      now rewrite Hl. }
    keep_going.
  - intros sh df r row name Hin Hr.
    unfold sheet_frames in Hin. cbn [In] in Hin.
    destruct Hin as [E|[E|[E|[E|[E|[E|[E|[]]]]]]]];
      apply pair_equal_spec in E; destruct E as [<- <-];
      match goal with
      | H : ingest_sheet env ?s ?f _ = (Ok tt, ?wi),
        Hr : nth_error (rows ?f) _ = _ |- context [entity_subject ?s _] =>
          destruct (ingest_sheet_type_label env s f _ wi r row name H Hr)
            as [Ht Hl]
      end; split; keep_going.
  - assert (Hin : In (Role, rdfs_label, Literal (py "Role")) (graph w7)).
    { apply (f_equal snd) in H7. cbn [snd] in H7. rewrite <- H7.
      unfold g_add. cbn [snd graph]. apply in_graph_add_new. }
    keep_going.
  - intros t Ht. keep_going.
Qed.

Lemma creategraph_contents_witness :
  (In (URIRef (entity_subject organizations yuba), rdf_type,
       URIRef (sh_class organizations))
      (graph (snd (run (creategraph small_workbook))))
   /\ In (URIRef (entity_subject organizations yuba), rdfs_label,
          Literal yuba)
         (graph (snd (run (creategraph small_workbook)))))
  /\ In (Role, rdfs_label, Literal (py "Role"))
        (graph (snd (run (creategraph small_workbook)))).
Proof.
  destruct (creategraph_contents small_workbook empty_world
              (snd (run (creategraph small_workbook))))
    as (env & _ & _ & _ & Hrows & Hrole & _).
  - vm_compute. reflexivity.
  - split; [|exact Hrole].
    apply (Hrows organizations (wb_orgdf small_workbook) 0%nat
             [py "Nonprofit"] yuba).
    + left. reflexivity.
    + reflexivity.
Defined.

Lemma in_graph_check (t : triple) (g : graph_t) :
  existsb (triple_eqb t) g = true -> In t g.
Proof.
  intros H. apply existsb_exists in H. destruct H as [x [Hx Ht]].
  apply triple_eqb_eq in Ht. now subst.
Qed.

(** The run over [small_workbook]: the organization is linked to the
    term of the vocabulary sheet, and the term has its label. *)
Example small_workbook_run :
  fst (run (creategraph small_workbook)) = Ok tt
  /\ In (URIRef (entity_subject organizations yuba),
         URIRef (py "http://www.w3.org/ns/org#classification"),
         URIRef (minted (py "oty") (py "Nonprofit")))
        (graph (snd (run (creategraph small_workbook))))
  /\ In (URIRef (minted (py "oty") (py "Nonprofit")), rdfs_label,
         Literal (py "Nonprofit"))
        (graph (snd (run (creategraph small_workbook))))
  /\ stdout (snd (run (creategraph small_workbook))) = [].
Proof.
  split; [vm_compute; reflexivity|].
  split; [|split; [|vm_compute; reflexivity]].
  - apply in_graph_check. vm_compute. reflexivity.
  - apply in_graph_check. vm_compute. reflexivity.
Qed.

(** ** The identifier hash on every text *)

Lemma hex_digits_length (n : N) :
  List.length (hex_digits n) = S (N.to_nat (N.log2 n / 4)).
Proof.
  destruct (N.eq_dec n 0) as [->|Hn]; [reflexivity|].
  rewrite hex_digits_width by lia. apply length_digits_fixed.
Qed.

Lemma hex_digits_lt16 (n : N) : Forall (fun d => d < 16) (hex_digits n).
Proof.
  destruct (N.eq_dec n 0) as [->|Hn].
  - repeat constructor.
  - rewrite hex_digits_width by lia. apply digits_fixed_lt16.
Qed.

Lemma Forall_firstn_keep {A} (P : A -> Prop) (n : nat) (l : list A) :
  Forall P l -> Forall P (firstn n l).
Proof.
  revert l. induction n as [|n IH]; intros l H; [constructor|].
  destruct H as [|x l Hx Hl]; [constructor|].
  simpl. constructor; [exact Hx|now apply IH].
Qed.

(** The identifier of every text: between one and six lowercase
    hexadecimal characters, as many as the checksum has digits but at
    most six.  It has six characters exactly when the checksum is at
    least [2^20]; below that it is shorter (the empty text, whose
    checksum is 0, has the identifier "0"). *)
Theorem makeid_shape (s : str) :
  List.length (makeid s)
  = Nat.min 6 (S (N.to_nat (N.log2 (crc32 (encode_utf8 s)) / 4)))
  /\ (1 <= List.length (makeid s) <= 6)%nat
  /\ Forall (fun ch => In ch (py "0123456789abcdef")) (makeid s)
  /\ (2 ^ 20 <= crc32 (encode_utf8 s) -> List.length (makeid s) = 6%nat)
  /\ (crc32 (encode_utf8 s) < 2 ^ 20 -> (List.length (makeid s) < 6)%nat).
Proof.
  set (c := crc32 (encode_utf8 s)).
  assert (Hlen : List.length (makeid s)
                 = Nat.min 6 (S (N.to_nat (N.log2 c / 4)))).
  { rewrite makeid_unfold. fold c.
    now rewrite length_firstn, length_map, hex_digits_length. }
  split; [exact Hlen|]. split.
  { rewrite Hlen. generalize (N.to_nat (N.log2 c / 4)). intros k. lia. }
  split.
  { rewrite makeid_unfold. fold c. apply Forall_firstn_keep, Forall_map.
    eapply Forall_impl; [|apply hex_digits_lt16].
    intros d. apply hexdigit_lower. }
  split.
  - intros Hc. rewrite Hlen.
    assert (20 <= N.log2 c).
    { change 20 with (N.log2 (2 ^ 20)). now apply N.log2_le_mono. }
    assert (H5 : 5 <= N.log2 c / 4)
      by (apply N.div_le_lower_bound; [discriminate|exact H]).
    revert H5. generalize (N.log2 c / 4). intros k Hk. lia.
  - intros Hc. rewrite Hlen.
    destruct (N.eq_dec c 0) as [E|Hn]; [rewrite E; simpl; lia|].
    assert (N.log2 c < 20) by (apply N.log2_lt_pow2; [lia|exact Hc]).
    assert (H5 : N.log2 c / 4 < 5)
      by (apply N.Div0.div_lt_upper_bound; exact H).
    revert H5. generalize (N.log2 c / 4). intros k Hk. lia.
Qed.

Lemma makeid_shape_witness :
  List.length (makeid (py "Audubon California")) = 6%nat
  /\ (List.length (makeid []) < 6)%nat.
Proof.
  split.
  - refine (proj1 (proj2 (proj2 (proj2
              (makeid_shape (py "Audubon California"))))) _).
    vm_compute. discriminate.
  - refine (proj2 (proj2 (proj2 (proj2 (makeid_shape [])))) _).
    vm_compute. reflexivity.
Defined.

(** ** The rows of the organization - guideline table *)

(** A row of the organization - guideline table whose relation is a key
    of [orggmpred] adds one triple and nothing else: from the subject
    that the organizations sheet mints for the name in column A, by the
    property URI of the relation, to the subject that the guidelines
    sheet mints for the name in column C.  Neither name is looked up in
    its sheet. *)
Theorem orggm_row_triple (orggmdf : DataFrame) (r : nat)
    (org rel gm : str) (rest : list str) (entry : str * str * str)
    (w : world) :
  nth_error (rows orggmdf) r = Some (org :: rel :: gm :: rest) ->
  dict_get orggmpred rel = Some entry ->
  orggm_row orggmdf r w
  = (Ok tt,
     World (graph_add (URIRef (entity_subject organizations org),
                       URIRef (snd (fst entry)),
                       URIRef (entity_subject guidelines gm)) (graph w))
           (stdout w)).
Proof.
  intros Hr He. unfold orggm_row.
  rewrite (bind_ok _ _ _ _ _ (iloc_cell orggmdf r 0 _ org w Hr eq_refl)).
  rewrite (bind_ok _ _ _ _ _ (iloc_cell orggmdf r 1 _ rel w Hr eq_refl)).
  unfold getitem. rewrite He.
  rewrite (bind_ok (ret entry) _ w w entry eq_refl).
  rewrite (bind_ok _ _ _ _ _ (iloc_cell orggmdf r 2 _ gm w Hr eq_refl)).
  reflexivity.
Qed.

Lemma orggm_row_triple_witness :
  orggm_row orggm_endorses 0 empty_world
  = (Ok tt,
     World [orggm_triple "Org A" "https://w3id.org/dingo#implements" "Plan 1"]
           []).
Proof.
  etransitivity.
  - apply (orggm_row_triple orggm_endorses 0 (py "Org A") (py "Implements")
             (py "Plan 1") []
             (py "o", py "https://w3id.org/dingo#implements",
              py "implements") empty_world); reflexivity.
  - vm_compute. reflexivity.
Defined.

(** ** The values of a multi-valued cell *)

Lemma split_nonempty (sep : N) (s : str) : split sep s <> [].
Proof.
  destruct s as [|c s]; simpl; [discriminate|].
  destruct (c =? sep); [discriminate|].
  destruct (split sep s); discriminate.
Qed.

Lemma split_length (sep : N) (s : str) :
  List.length (split sep s) = S (List.length (filter (N.eqb sep) s)).
Proof.
  induction s as [|c s IH]; [reflexivity|]. cbn [split filter].
  rewrite (N.eqb_sym sep c). destruct (c =? sep).
  - cbn [List.length]. now rewrite IH.
  - destruct (split sep s) as [|p ps] eqn:E.
    + now elim (split_nonempty sep s).
    + exact IH.
Qed.

Lemma split_no_sep (sep : N) (s : str) :
  Forall (fun p => ~ In sep p) (split sep s).
Proof.
  induction s as [|c s IH]; cbn [split].
  - repeat constructor. intros [].
  - destruct (N.eqb_spec c sep) as [->|Hc].
    + constructor; [intros []|exact IH].
    + destruct (split sep s) as [|p ps]; [repeat constructor|].
      * intros [E|[]]. congruence.
      * inversion IH as [|? ? Hp Hps]; subst.
        constructor; [|exact Hps]. intros [E|E]; [congruence|tauto].
Qed.

Lemma lstrip_suffix (s : str) :
  exists sp, s = sp ++ lstrip s /\ forallb isspace sp = true.
Proof.
  induction s as [|c s (sp & E & Hsp)]; [now exists []|].
  cbn [lstrip]. destruct (isspace c) eqn:Ec.
  - exists (c :: sp). cbn [app forallb]. now rewrite Ec, Hsp, <- E.
  - now exists [].
Qed.

Lemma lstrip_head (s : str) :
  lstrip s = [] \/ isspace (hd 0 (lstrip s)) = false.
Proof.
  induction s as [|c s IH]; [now left|].
  cbn [lstrip]. destruct (isspace c) eqn:Ec; [exact IH|].
  right. exact Ec.
Qed.

Lemma lstrip_incl (s : str) (x : N) : In x (lstrip s) -> In x s.
Proof.
  destruct (lstrip_suffix s) as (sp & E & _). intros H.
  rewrite E. apply in_or_app. now right.
Qed.

Lemma rstrip_prefix (t : str) :
  exists sp, t = rstrip t ++ sp /\ forallb isspace sp = true.
Proof.
  unfold rstrip. destruct (lstrip_suffix (rev t)) as (sp & E & Hsp).
  exists (rev sp). split.
  - rewrite <- rev_app_distr, <- E. now rewrite rev_involutive.
  - rewrite forallb_forall in *. intros x Hx. apply Hsp. now apply in_rev.
Qed.

Lemma last_rev_hd (u : str) : last (rev u) 0 = hd 0 u.
Proof.
  destruct u as [|x u]; [reflexivity|]. simpl. apply last_last.
Qed.

Lemma strip_trimmed (s : str) : trimmed (strip s).
Proof.
  unfold trimmed, strip.
  set (t := lstrip s).
  destruct (rstrip t) as [|h v] eqn:Ev; [now left|]. right.
  split.
  - destruct (rstrip_prefix t) as (sp & E & Hsp). rewrite Ev in E.
    destruct (lstrip_head s) as [H|H]; fold t in H.
    + rewrite H in E. discriminate E.
    + rewrite E in H. exact H.
  - rewrite <- Ev. unfold rstrip. rewrite last_rev_hd.
    destruct (lstrip_head (rev t)) as [H|H]; [|exact H].
    unfold rstrip in Ev. rewrite H in Ev. discriminate Ev.
Qed.

Lemma strip_incl (s : str) (x : N) : In x (strip s) -> In x s.
Proof.
  unfold strip, rstrip. intros H. apply in_rev in H.
  apply lstrip_incl in H. apply in_rev in H. now apply lstrip_incl.
Qed.

(** The values of a multi-valued cell.  With ['m'] a cell has one value
    more than it has commas, so always at least one: the pieces between
    the commas are all kept, the empty ones too.  No value contains a
    comma, and none starts or ends with whitespace. *)
Theorem multi_values (pd : prdetails) (cellval : str) :
  pr_mult pd = py "m" ->
  List.length (celllist pd cellval) = S (commas cellval)
  /\ Forall (fun v => ~ In comma v /\ trimmed v) (celllist pd cellval).
Proof.
  intros Hm. unfold celllist. rewrite Hm, str_eqb_refl. split.
  - rewrite length_map. apply split_length.
  - apply Forall_map.
    eapply Forall_impl; [|apply (split_no_sep comma cellval)].
    intros p Hp. split; [|apply strip_trimmed].
    intros H. apply Hp. now apply strip_incl in H.
Qed.

Lemma multi_values_witness :
  List.length (celllist partners_pd (py "Org A, ,Org B,")) = 4%nat
  /\ celllist partners_pd (py "Org A, ,Org B,")
     = [py "Org A"; []; py "Org B"; []].
Proof.
  split.
  - refine (proj1 (multi_values partners_pd (py "Org A, ,Org B,") _)).
    reflexivity.
  - vm_compute. reflexivity.
Defined.

(** An empty piece is a value like the others: a reference to it is
    minted from the identifier of the empty text. *)
Example empty_piece_is_minted :
  run (addtriple [] partners_pd (py "s") (py "Org A,") (py "l"))
  = (Ok tt,
     World [ (URIRef (py "s"), URIRef (pr_uri partners_pd),
              URIRef (minted (py "org") (py "Org A")));
             (URIRef (py "s"), URIRef (pr_uri partners_pd),
              URIRef (auxprefix ++ py "org_0")) ]
           []).
Proof. vm_compute. reflexivity. Qed.

(** ** The issue dictionary that [creategraph] binds *)

Lemma not_in_graph_check (t : triple) (g : graph_t) :
  existsb (triple_eqb t) g = false -> ~ In t g.
Proof.
  intros H Hin.
  assert (E : existsb (triple_eqb t) g = true).
  { apply existsb_exists. exists t. split; [exact Hin|].
    now apply triple_eqb_eq. }
  congruence.
Qed.

(** The [issuedict] that [creategraph] binds for [addtriple] (the
    dictionary that the Issues columns name).  When the dictionaries are
    built, the global [issuedict] binds a term as the table of the
    integrated issues binds it, and as the table of the component issues
    binds it only if the term is no integrated issue: of a term that is
    in both tables the integrated issue wins. *)
Theorem issuedict_prefers_integrated (wb : workbook) (env : globals)
    (w w' : world) :
  make_globals wb w = (Ok env, w') ->
  exists intissuedict compissuedict issuedict,
    make_intissuedict (wb_intissuedf wb) w = (Ok intissuedict, w)
    /\ make_compissuedict (wb_compissuedf wb) w = (Ok compissuedict, w)
    /\ dict_get env (py "issuedict") = Some issuedict
    /\ forall k,
         dict_get issuedict k
         = match dict_get intissuedict k with
           | Some v => Some v
           | None => dict_get compissuedict k
           end.
Proof.
  intros Hg. unfold make_globals in Hg.
  apply bind_ok_inv in Hg. destruct Hg as (intd & w1 & Hi & Hg).
  assert (E1 : w1 = w).
  { pose proof (stateless_table_dict (wb_intissuedf wb) 1 0
                  (app intissueprefix) w) as S1.
    unfold make_intissuedict in Hi. now rewrite Hi in S1. }
  subst w1.
  apply bind_ok_inv in Hg. destruct Hg as (compd & w2 & Hc & Hg).
  assert (E2 : w2 = w).
  { pose proof (stateless_table_dict (wb_compissuedf wb) 1 0
                  (app compissueprefix) w) as S2.
    unfold make_compissuedict in Hc. now rewrite Hc in S2. }
  subst w2.
  cbv zeta in Hg.
  do 15 (apply bind_ok_inv in Hg; destruct Hg as (? & ? & _ & Hg)).
  unfold ret in Hg. apply (f_equal fst) in Hg. cbn [fst] in Hg.
  injection Hg as <-.
  exists intd, compd, (dict_merge compd intd).
  split; [exact Hi|]. split; [exact Hc|]. split.
  - cbn [dict_get]. now rewrite str_eqb_refl.
  - intros k. apply dict_get_merge_second.
    exact (table_dict_NoDup _ _ _ _ _ _ _ Hi).
Qed.

Lemma issuedict_prefers_integrated_witness :
  exists env issuedict,
    make_globals issue_workbook empty_world = (Ok env, empty_world)
    /\ dict_get env (py "issuedict") = Some issuedict
    /\ dict_get issuedict (py "Water")
       = Some (intissueprefix ++ py "IntWater")
    /\ dict_get issuedict (py "Soil")
       = Some (compissueprefix ++ py "CompSoil").
Proof.
  destruct (make_globals issue_workbook empty_world) as [[env|e] w0] eqn:Hg;
    [|exfalso; vm_compute in Hg; discriminate Hg].
  assert (Hw : w0 = empty_world).
  { pose proof (stateless_make_globals issue_workbook empty_world) as S.
    now rewrite Hg in S. }
  subst w0.
  destruct (issuedict_prefers_integrated issue_workbook env empty_world
              empty_world Hg)
    as (intd & compd & issued & Hi & Hc & He & Hget).
  exists env, issued.
  split; [reflexivity|]. split; [exact He|].
  vm_compute in Hi, Hc.
  injection Hi as <-. injection Hc as <-.
  split; rewrite Hget; vm_compute; reflexivity.
Defined.

(** The run over [issue_workbook]: the organization is linked to the
    integrated issue Water and to the component issue Soil, and not to
    the component issue Water. *)
Example issue_workbook_run :
  fst (run (creategraph issue_workbook)) = Ok tt
  /\ In (URIRef (entity_subject organizations (py "Org A")), related_issue,
         URIRef (intissueprefix ++ py "IntWater"))
        (graph (snd (run (creategraph issue_workbook))))
  /\ In (URIRef (entity_subject organizations (py "Org A")), related_issue,
         URIRef (compissueprefix ++ py "CompSoil"))
        (graph (snd (run (creategraph issue_workbook))))
  /\ ~ In (URIRef (entity_subject organizations (py "Org A")), related_issue,
           URIRef (compissueprefix ++ py "CompWater"))
          (graph (snd (run (creategraph issue_workbook)))).
Proof.
  split; [vm_compute; reflexivity|].
  split; [|split].
  - apply in_graph_check. vm_compute. reflexivity.
  - apply in_graph_check. vm_compute. reflexivity.
  - apply not_in_graph_check. vm_compute. reflexivity.
Qed.
